(** * Generative models: convolutional autoencoder and WGAN-GP

    A shallow embedding of [src/models/AE.py] and [src/models/WGANGP.py].

    Conventions of the embedding.
    - Tensor entries are real numbers ([R]); the 32-bit floats of the
      framework are idealised, so rounding, overflow and NaN are outside
      the model.
    - A tensor is a nested sequence of entries, outermost axis first.  Axis 0
      of every batch tensor is the batch axis.
    - Hyper-parameters that are Python integers are [Z]; hyper-parameters
      that are only tested for truthiness and handed on to a layer
      constructor ([momentum], [rate]) are rationals ([Q]).
    - A network is the sequence of layer constructors the builder applies to
      the running value [x], in order.  What a layer computes with its
      learned weights belongs to the framework and is a parameter of the
      forward pass; the activations named in the code are elementwise.
    - Random draws and training-step results come from the framework and
      are inputs of the model.
    - The builders of [AE] and [WGANGP] take every layer constructor to
      return, so their theorems describe what is built whenever the code
      builds anything.  [AE_Checked] embeds the autoencoder's constructor
      once more with every call into the framework able to raise, for the
      statements about which exception leaves [__init__]. *)

From Stdlib Require Import String Ascii DecimalString DecimalFacts DecimalNat.
From Stdlib Require Import Reals Lra Lia ZArith QArith Bool List.
Import ListNotations.

Set Warnings "-register-all".
Close Scope Q_scope.

Set Implicit Arguments.

(* ================================================================== *)
(** ** Tensors *)

Module Tensor.

Local Open Scope R_scope.

Inductive tensor : Type :=
| Scalar (x : R)
| Nested (ts : list tensor).

(** Induction that reaches the sub-tensors of a [Nested] node. *)
Fixpoint tensor_rect' (P : tensor -> Type)
    (HS : forall x, P (Scalar x))
    (HN0 : P (Nested []))
    (HN : forall t ts, P t -> P (Nested ts) -> P (Nested (t :: ts)))
    (t : tensor) : P t :=
  match t with
  | Scalar x => HS x
  | Nested ts =>
      (fix go (l : list tensor) : P (Nested l) :=
         match l with
         | [] => HN0
         | u :: us => HN u us (tensor_rect' P HS HN0 HN u) (go us)
         end) ts
  end.

(** Elementwise unary operation ([K.square], [K.sqrt], activations). *)
Fixpoint tmap (f : R -> R) (t : tensor) : tensor :=
  match t with
  | Scalar x => Scalar (f x)
  | Nested ts => Nested (map (tmap f) ts)
  end.

(** Elementwise binary operation on operands of one shape.  On operands
    of different shapes the framework broadcasts or raises; neither is
    modelled and the result is [None]. *)
Fixpoint tzip (f : R -> R -> R) (a b : tensor) : option tensor :=
  match a, b with
  | Scalar x, Scalar y => Some (Scalar (f x y))
  | Nested la, Nested lb =>
      option_map Nested
        ((fix go (la lb : list tensor) : option (list tensor) :=
            match la, lb with
            | [], [] => Some []
            | x :: xs, y :: ys =>
                match tzip f x y, go xs ys with
                | Some z, Some zs => Some (z :: zs)
                | _, _ => None
                end
            | _, _ => None
            end) la lb)
  | _, _ => None
  end.

(** The entries of a tensor in row-major order. *)
Fixpoint entries (t : tensor) : list R :=
  match t with
  | Scalar x => [x]
  | Nested ts => flat_map entries ts
  end.

Definition Rsum (l : list R) : R := fold_right Rplus 0 l.

(** Reduction over every axis of [t]. *)
Definition tsum (t : tensor) : R := Rsum (entries t).
Definition tcount (t : tensor) : nat := length (entries t).

(** [same_shape a b]: both operands have the same nesting structure. *)
Fixpoint same_shape (a b : tensor) : bool :=
  match a, b with
  | Scalar _, Scalar _ => true
  | Nested la, Nested lb =>
      (fix go (la lb : list tensor) : bool :=
         match la, lb with
         | [], [] => true
         | x :: xs, y :: ys => same_shape x y && go xs ys
         | _, _ => false
         end) la lb
  | _, _ => false
  end.

(** [has_rank n t]: every entry of [t] sits under exactly [n] axes. *)
Fixpoint has_rank (n : nat) (t : tensor) {struct t} : bool :=
  match t with
  | Scalar _ => match n with O => true | S _ => false end
  | Nested ts =>
      match n with
      | O => false
      | S m => forallb (has_rank m) ts
      end
  end.

(** [K.mean] of a vector (a rank-1 tensor kept as a list).  The mean of
    no entry at all is undefined in the framework; here it takes the value
    that division by zero has in [R], which is 0. *)
Definition mean (l : list R) : R := Rsum l / INR (length l).

(** [K.mean(t)] with no axis: the mean of all entries. *)
Definition tmean (t : tensor) : R := tsum t / INR (tcount t).

(** Constant tensors of shape (n, 1): [np.ones((n, 1))] and the like. *)
Definition full_column (n : nat) (v : R) : tensor :=
  Nested (repeat (Nested [Scalar v]) n).

End Tensor.

(* ================================================================== *)
(** ** Python exceptions and indexing *)

Module Py.

Inductive exn : Type :=
| ValueError (msg : string)
| IndexError
| AttributeError
| ZeroDivisionError
| UnboundLocalError.

Definition result (A : Type) : Type := (exn + A)%type.

Definition ret {A} (a : A) : result A := inr a.
Definition raise {A} (e : exn) : result A := inl e.
Definition bind {A B} (m : result A) (k : A -> result B) : result B :=
  match m with
  | inl e => inl e
  | inr a => k a
  end.

Declare Scope py_scope.
Delimit Scope py_scope with py.
Notation "x <- m ;; k" := (bind m (fun x => k))
  (at level 61, m at next level, right associativity) : py_scope.

(** [l[i]] for a non-negative index. *)
Definition index {A} (l : list A) (i : nat) : result A :=
  match nth_error l i with
  | Some v => ret v
  | None => raise IndexError
  end.

(** [for i in idx: x = body(i, x)]. *)
Fixpoint for_each {A} (idx : list nat) (body : nat -> A -> result A) (x : A)
  : result A :=
  match idx with
  | [] => ret x
  | i :: rest => bind (body i x) (for_each rest body)
  end.

(** [range(n)]. *)
Definition range (n : nat) : list nat := seq 0 n.

(** [str(i)] for a non-negative integer. *)
Definition str (i : nat) : string := NilZero.string_of_uint (Nat.to_uint i).

(** [np.prod] of a tuple of integers. *)
Definition prod (shape : list Z) : Z := fold_right Z.mul 1%Z shape.

(** Truth value of a number-or-[None] hyper-parameter. *)
Definition truthy (m : option Q) : bool :=
  match m with
  | Some q => negb (Qeq_bool q 0)
  | None => false
  end.

(** [os.path.join(a, b)] for a relative [b]. *)
Fixpoint ends_with_slash (s : string) : bool :=
  match s with
  | EmptyString => false
  | String c EmptyString => Ascii.eqb c "/"%char
  | String _ rest => ends_with_slash rest
  end.

Definition path_join (a b : string) : string :=
  match a with
  | EmptyString => b
  | _ => if ends_with_slash a then (a ++ b)%string
         else (a ++ "/" ++ b)%string
  end.

End Py.

(* ================================================================== *)
(** ** Layers of the framework *)

Module Keras.

Import Tensor.

Inductive initializer : Type :=
| DefaultInit
| RandomNormal (mean stddev : Q).

(** Layer constructors as the two source files call them.  Every
    convolution is built with [padding='same']. *)
Inductive layer : Type :=
| Input (shape : list Z) (name : option string)
| Conv2D (filters kernel_size : Z) (strides : option Z) (name : string)
         (kernel_initializer : initializer)
| Conv2DTranspose (filters kernel_size strides : Z) (name : string)
                  (kernel_initializer : initializer)
| UpSampling2D
| Flatten
| Dense (units : Z) (name : option string) (kernel_initializer : initializer)
| Reshape (target_shape : list Z)
| LeakyReLU (alpha : option Q)
| BatchNormalization (momentum : option Q)
| Dropout (rate : Q)
| Activation (activation : string).

Definition sigmoid (x : R) : R := (1 / (1 + exp (- x)))%R.

(** One layer of the forward pass.  [weights] stands for what the
    framework computes in a layer that is not one of the two named
    elementwise activations. *)
Definition apply_layer (weights : layer -> tensor -> tensor)
    (l : layer) (x : tensor) : tensor :=
  match l with
  | Input _ _ => x
  | Activation a =>
      if String.eqb a "sigmoid" then tmap sigmoid x
      else if String.eqb a "tanh" then tmap tanh x
      else weights l x
  | _ => weights l x
  end.

(** A model built as a chain [x = layer(x)] applied to an input. *)
Definition predict (weights : layer -> tensor -> tensor)
    (layers : list layer) (x : tensor) : tensor :=
  fold_left (fun acc l => apply_layer weights l acc) layers x.

Inductive optimizer : Type :=
| Adam (learning_rate : R) (beta_1 : option R)
| RMSprop (learning_rate : R).

End Keras.

(* ================================================================== *)
(** ** [src/models/AE.py] *)

Module AE.

Import Tensor Py Keras.
Local Open Scope py_scope.

(** The argument and the value of [schedule] are kept apart: the epoch
    and the step size are integers, the rates are reals. *)
Section StepDecay.

Variables (initial_lr decay_factor : R) (step_size : Z).

(** [epoch // step_size]: floor division, which raises on a zero divisor. *)
Definition floordiv (a b : Z) : result Z :=
  if (b =? 0)%Z then raise ZeroDivisionError else ret (a / b)%Z.

(** [b ** n] for an integer exponent; zero to a negative power raises. *)
Definition power (b : R) (n : Z) : result R :=
  if (n <? 0)%Z then
    if Req_dec_T b 0 then raise ZeroDivisionError else ret (powerRZ b n)
  else ret (powerRZ b n).

Definition schedule (epoch : Z) : result R :=
  q <- floordiv epoch step_size ;;
  p <- power decay_factor q ;;
  ret (initial_lr * p)%R.

End StepDecay.

Record CustomCallback : Type := {
  cb_run_folder : string;
  cb_print_every_n_batches : Z;
  cb_initial_epoch : Z
}.

Inductive callback : Type :=
| ModelCheckpoint (filepath : string) (save_weights_only : bool)
| Custom (cb : CustomCallback)
| LearningRateScheduler (sched : Z -> result R).

Definition step_decay_schedule (initial_lr decay_factor : R) (step_size : Z)
  : callback :=
  LearningRateScheduler (schedule initial_lr decay_factor step_size).

(** [tf.reduce_mean(t, axis=[1, 2, 3])] of a rank-4 tensor: one mean per
    sample.  Other ranks are not modelled. *)
Definition reduce_mean_axes_1_2_3 (t : tensor) : option (list R) :=
  match t with
  | Nested samples => if has_rank 4 t then Some (map tmean samples) else None
  | Scalar _ => None
  end.

Definition r_loss (y_true y_pred : tensor) : option (list R) :=
  match tzip Rminus y_true y_pred with
  | Some d => reduce_mean_axes_1_2_3 (tmap Rsqr d)
  | None => None
  end.

Record compiled : Type := {
  optimizer_of : optimizer;
  loss_of : tensor -> tensor -> option (list R)
}.

Record Autoencoder : Type := {
  name : string;
  input_dim : list Z;
  encoder_conv_filters : list Z;
  encoder_conv_kernel_size : list Z;
  encoder_conv_strides : list Z;
  decoder_conv_t_filters : list Z;
  decoder_conv_t_kernel_size : list Z;
  decoder_conv_t_strides : list Z;
  z_dim : Z;
  use_batch_norm : bool;
  use_dropout : bool;
  n_layers_encoder : nat;
  n_layers_decoder : nat;
  encoder : list layer;
  decoder : list layer;
  (** the full model: the decoder called on the encoder's output *)
  model : list layer;
  learning_rate : option R;
  model_compiled : option compiled
}.

Section Build.

(** [tf.keras.backend.int_shape(x)[1:]] for the value [x] produced by
    the layers applied so far: the framework's static shape inference. *)
Variable int_shape : list layer -> list Z.

Variables (input_dim' : list Z)
          (enc_filters enc_kernel enc_strides : list Z)
          (dec_filters dec_kernel dec_strides : list Z)
          (z_dim' : Z) (use_batch_norm' use_dropout' : bool)
          (n_enc n_dec : nat).

Definition encoder_step (i : nat) (x : list layer) : result (list layer) :=
  f <- index enc_filters i ;;
  k <- index enc_kernel i ;;
  s <- index enc_strides i ;;
  let x := x ++ [Conv2D f k (Some s) ("encoder_conv_" ++ str i) DefaultInit] in
  let x := x ++ [LeakyReLU None] in
  let x := if use_batch_norm' then x ++ [BatchNormalization None] else x in
  let x := if use_dropout' then x ++ [Dropout (1 # 4)%Q] else x in
  ret x.

Definition decoder_step (i : nat) (x : list layer) : result (list layer) :=
  f <- index dec_filters i ;;
  k <- index dec_kernel i ;;
  s <- index dec_strides i ;;
  let x := x ++ [Conv2DTranspose f k s ("decoder_conv_t_" ++ str i)
                                 DefaultInit] in
  if (i <? n_dec - 1)%nat then
    let x := x ++ [LeakyReLU None] in
    let x := if use_batch_norm' then x ++ [BatchNormalization None] else x in
    let x := if use_dropout' then x ++ [Dropout (1 # 4)%Q] else x in
    ret x
  else
    ret (x ++ [Activation "sigmoid"]).

Definition build_encoder : result (list layer * list Z) :=
  let x := [Input input_dim' (Some "encoder_input"%string)] in
  x <- for_each (range n_enc) encoder_step x ;;
  let shape_before_flattening := int_shape x in
  let x := x ++ [Flatten] in
  let x := x ++ [Dense z_dim' (Some "encoder_output"%string) DefaultInit] in
  ret (x, shape_before_flattening).

Definition build_decoder (shape_before_flattening : list Z)
  : result (list layer) :=
  let x := [Input [z_dim'] (Some "decoder_input"%string)] in
  let x := x ++ [Dense (prod shape_before_flattening) None DefaultInit] in
  let x := x ++ [Reshape shape_before_flattening] in
  for_each (range n_dec) decoder_step x.

(** [_build]: the encoder, the decoder and the full model. *)
Definition _build : result (list layer * list layer * list layer) :=
  es <- build_encoder ;;
  let '(encoder_layers, shape_before_flattening) := es in
  decoder_layers <- build_decoder shape_before_flattening ;;
  ret (encoder_layers, decoder_layers, encoder_layers ++ tl decoder_layers).

End Build.

Definition same_length3 (a b c : list Z) : bool :=
  (length a =? length b)%nat && (length b =? length c)%nat.

Definition __init__ (int_shape : list layer -> list Z)
    (input_dim : list Z)
    (encoder_conv_filters encoder_conv_kernel_size encoder_conv_strides : list Z)
    (decoder_conv_t_filters decoder_conv_t_kernel_size
       decoder_conv_t_strides : list Z)
    (z_dim : Z) (use_batch_norm use_dropout : bool) : result Autoencoder :=
  if negb (same_length3 encoder_conv_filters encoder_conv_kernel_size
                        encoder_conv_strides) then
    raise (ValueError
      "Encoder filter sizes, kernel sizes, and strides must have the same length.")
  else if negb (same_length3 decoder_conv_t_filters decoder_conv_t_kernel_size
                             decoder_conv_t_strides) then
    raise (ValueError
      "Decoder filter sizes, kernel sizes, and strides must have the same length.")
  else
    let n_layers_encoder := length encoder_conv_filters in
    let n_layers_decoder := length decoder_conv_t_filters in
    built <- _build int_shape input_dim
               encoder_conv_filters encoder_conv_kernel_size encoder_conv_strides
               decoder_conv_t_filters decoder_conv_t_kernel_size
               decoder_conv_t_strides
               z_dim use_batch_norm use_dropout
               n_layers_encoder n_layers_decoder ;;
    let '(enc, dec, full) := built in
    ret {| name := "autoencoder";
           input_dim := input_dim;
           encoder_conv_filters := encoder_conv_filters;
           encoder_conv_kernel_size := encoder_conv_kernel_size;
           encoder_conv_strides := encoder_conv_strides;
           decoder_conv_t_filters := decoder_conv_t_filters;
           decoder_conv_t_kernel_size := decoder_conv_t_kernel_size;
           decoder_conv_t_strides := decoder_conv_t_strides;
           z_dim := z_dim;
           use_batch_norm := use_batch_norm;
           use_dropout := use_dropout;
           n_layers_encoder := n_layers_encoder;
           n_layers_decoder := n_layers_decoder;
           encoder := enc;
           decoder := dec;
           model := full;
           learning_rate := None;
           model_compiled := None |}.

Definition set_compiled (self : Autoencoder) (lr : R) (c : compiled)
  : Autoencoder :=
  {| name := name self;
     input_dim := input_dim self;
     encoder_conv_filters := encoder_conv_filters self;
     encoder_conv_kernel_size := encoder_conv_kernel_size self;
     encoder_conv_strides := encoder_conv_strides self;
     decoder_conv_t_filters := decoder_conv_t_filters self;
     decoder_conv_t_kernel_size := decoder_conv_t_kernel_size self;
     decoder_conv_t_strides := decoder_conv_t_strides self;
     z_dim := z_dim self;
     use_batch_norm := use_batch_norm self;
     use_dropout := use_dropout self;
     n_layers_encoder := n_layers_encoder self;
     n_layers_decoder := n_layers_decoder self;
     encoder := encoder self;
     decoder := decoder self;
     model := model self;
     learning_rate := Some lr;
     model_compiled := Some c |}.

Definition compile (self : Autoencoder) (learning_rate : R) : Autoencoder :=
  let optimizer := Adam learning_rate None in
  set_compiled self learning_rate
    {| optimizer_of := optimizer; loss_of := r_loss |}.

(** The call [self.model.fit(...)] that [train] ends with. *)
Record fit_call : Type := {
  fit_model : list layer;
  fit_x : tensor;
  fit_y : tensor;
  fit_batch_size : Z;
  fit_shuffle : bool;
  fit_epochs : Z;
  fit_initial_epoch : Z;
  fit_callbacks : list callback
}.

(** Defaults of [train]'s keyword arguments. *)
Definition default_print_every_n_batches : Z := 100.
Definition default_initial_epoch : Z := 0.

Definition train (self : Autoencoder) (x_train : tensor)
    (batch_size epochs : Z) (run_folder : string)
    (print_every_n_batches initial_epoch : Z) (lr_decay : R)
  : result fit_call :=
  let custom_callback :=
    Custom {| cb_run_folder := run_folder;
              cb_print_every_n_batches := print_every_n_batches;
              cb_initial_epoch := initial_epoch |} in
  match learning_rate self with
  | None => raise AttributeError
  | Some lr =>
      let lr_sched := step_decay_schedule lr lr_decay 1 in
      let checkpoint_path := path_join run_folder "weights/weights.h5" in
      let checkpoint2 := ModelCheckpoint checkpoint_path true in
      let callbacks_list := [checkpoint2; custom_callback; lr_sched] in
      ret {| fit_model := model self;
             fit_x := x_train;
             fit_y := x_train;
             fit_batch_size := batch_size;
             fit_shuffle := true;
             fit_epochs := epochs;
             fit_initial_epoch := initial_epoch;
             fit_callbacks := callbacks_list |}
  end.

End AE.

(* ================================================================== *)
(** ** [src/models/WGANGP.py] *)

Module WGANGP.

Import Tensor Py Keras.
Local Open Scope py_scope.

(** *** RandomWeightedAverage *)

(** [alpha * t] for [alpha] of shape (batch_size, 1, 1, 1), kept as the
    list of its [batch_size] entries, and a rank-4 [t]: the product
    broadcasts [alpha] over the three inner axes, and a batch axis of
    length one over the other operand's batch axis.  [None] is the
    framework's shape error (and any rank other than 4). *)
Definition broadcast_mul (alpha : list R) (t : tensor) : option tensor :=
  match t with
  | Scalar _ => None
  | Nested samples =>
      if negb (has_rank 4 t) then None
      else if (length alpha =? length samples)%nat then
        Some (Nested (map (fun '(a, s) => tmap (Rmult a) s)
                          (combine alpha samples)))
      else match alpha, samples with
           | [a], _ => Some (Nested (map (tmap (Rmult a)) samples))
           | _, [s] => Some (Nested (map (fun a => tmap (Rmult a) s) alpha))
           | _, _ => None
           end
  end.

Record RandomWeightedAverage : Type := { rwa_batch_size : nat }.

(** [call]: [alpha] is the draw of [tf.random.uniform((batch_size, 1, 1, 1))],
    a list of [batch_size] numbers of the interval from 0 to 1. *)
Definition call (self : RandomWeightedAverage) (alpha : list R)
    (inputs : list tensor) : option tensor :=
  if negb (length alpha =? rwa_batch_size self)%nat then None else
  match nth_error inputs 0, nth_error inputs 1 with
  | Some in0, Some in1 =>
      match broadcast_mul alpha in0,
            broadcast_mul (map (fun a => 1 - a)%R alpha) in1 with
      | Some l, Some r => tzip Rplus l r
      | _, _ => None
      end
  | _, _ => None
  end.

(** *** Losses *)

Section Losses.

(** [K.gradients(y_pred, interpolated_samples)[0]]: the framework's
    automatic differentiation. *)
Variable K_gradients : tensor -> tensor -> tensor.

Definition K_square (t : tensor) : tensor := tmap Rsqr t.

(** [K.sum(t, axis=np.arange(1, len(t.shape)))]: every axis but the
    batch axis is reduced. *)
Definition K_sum_sample_axes (t : tensor) : list R :=
  match t with
  | Nested samples => map tsum samples
  | Scalar x => [x]
  end.

Definition gradient_penalty_loss (y_true y_pred interpolated_samples : tensor)
  : R :=
  let gradients := K_gradients y_pred interpolated_samples in
  let gradients_sqr := K_square gradients in
  let gradients_sqr_sum := K_sum_sample_axes gradients_sqr in
  let gradient_l2_norm := map sqrt gradients_sqr_sum in
  let gradient_penalty := map (fun n => Rsqr (1 - n)) gradient_l2_norm in
  mean gradient_penalty.

Definition wasserstein (y_true y_pred : tensor) : option R :=
  match tzip Rmult y_true y_pred with
  | Some p => Some (- tmean p)%R
  | None => None
  end.

End Losses.

(** The three targets [train_critic] passes to [train_on_batch]. *)
Definition critic_targets (batch_size : nat) : tensor * tensor * tensor :=
  let valid := full_column batch_size 1%R in
  let fake := full_column batch_size (-1)%R in
  let dummy := full_column batch_size 0%R in
  (valid, fake, dummy).

(** *** The model object *)

Record config : Type := {
  input_dim : list Z;
  critic_conv_filters : list Z;
  critic_conv_kernel_size : list Z;
  critic_conv_strides : list Z;
  critic_batch_norm_momentum : option Q;
  critic_activation : string;
  critic_dropout_rate : option Q;
  critic_learning_rate : R;
  generator_initial_dense_layer_size : list Z;
  generator_upsample : list Z;
  generator_conv_filters : list Z;
  generator_conv_kernel_size : list Z;
  generator_conv_strides : list Z;
  generator_batch_norm_momentum : option Q;
  generator_activation : string;
  generator_dropout_rate : option Q;
  generator_learning_rate : R;
  optimiser : string;
  grad_weight : R;
  z_dim : Z;
  batch_size : nat
}.

Definition n_layers_critic (self : config) : nat :=
  length (critic_conv_filters self).
Definition n_layers_generator (self : config) : nat :=
  length (generator_conv_filters self).
Definition weight_init : initializer := RandomNormal 0 (1 # 50).

Definition get_activation (activation : string) : layer :=
  if String.eqb activation "leaky_relu" then LeakyReLU (Some (1 # 5)%Q)
  else Activation activation.

Section Builders.

Variable self : config.

Definition critic_step (i : nat) (x : list layer) : result (list layer) :=
  f <- index (critic_conv_filters self) i ;;
  k <- index (critic_conv_kernel_size self) i ;;
  s <- index (critic_conv_strides self) i ;;
  let x := x ++ [Conv2D f k (Some s) ("critic_conv_" ++ str i) weight_init] in
  let x := if truthy (critic_batch_norm_momentum self) && (0 <? i)%nat
           then x ++ [BatchNormalization (critic_batch_norm_momentum self)]
           else x in
  let x := x ++ [get_activation (critic_activation self)] in
  let x := match critic_dropout_rate self with
           | Some r => if truthy (Some r) then x ++ [Dropout r] else x
           | None => x
           end in
  ret x.

Definition _build_critic : result (list layer) :=
  let x := [Input (input_dim self) (Some "critic_input"%string)] in
  x <- for_each (range (n_layers_critic self)) critic_step x ;;
  let x := x ++ [Flatten] in
  ret (x ++ [Dense 1 None weight_init]).

Definition generator_step (i : nat) (x : list layer) : result (list layer) :=
  u <- index (generator_upsample self) i ;;
  x <- (if (u =? 2)%Z then
          let x := x ++ [UpSampling2D] in
          f <- index (generator_conv_filters self) i ;;
          k <- index (generator_conv_kernel_size self) i ;;
          ret (x ++ [Conv2D f k None ("generator_conv_" ++ str i) weight_init])
        else
          f <- index (generator_conv_filters self) i ;;
          k <- index (generator_conv_kernel_size self) i ;;
          s <- index (generator_conv_strides self) i ;;
          ret (x ++ [Conv2DTranspose f k s ("generator_conv_" ++ str i)
                                     weight_init])) ;;
  if (i <? n_layers_generator self - 1)%nat then
    let x := if truthy (generator_batch_norm_momentum self)
             then x ++ [BatchNormalization (generator_batch_norm_momentum self)]
             else x in
    ret (x ++ [get_activation (generator_activation self)])
  else
    ret (x ++ [Activation "tanh"]).

Definition _build_generator : result (list layer) :=
  let x := [Input [z_dim self] (Some "generator_input"%string)] in
  let x := x ++ [Dense (prod (generator_initial_dense_layer_size self)) None
                       weight_init] in
  let x := if truthy (generator_batch_norm_momentum self)
           then x ++ [BatchNormalization (generator_batch_norm_momentum self)]
           else x in
  let x := x ++ [get_activation (generator_activation self)] in
  let x := x ++ [Reshape (generator_initial_dense_layer_size self)] in
  let x := match generator_dropout_rate self with
           | Some r => if truthy (Some r) then x ++ [Dropout r] else x
           | None => x
           end in
  for_each (range (n_layers_generator self)) generator_step x.

Definition get_opti (lr : R) : optimizer :=
  if String.eqb (optimiser self) "adam" then Adam lr (Some (1 / 2)%R)
  else if String.eqb (optimiser self) "rmsprop" then RMSprop lr
  else Adam lr None.

End Builders.

(** *** Training *)

Inductive batch_source : Type := FromIterator | FromArray.

(** What the training loop asks of the framework and the file system. *)
Inductive event : Type :=
| CriticTrainOnBatch (src : batch_source)
| GeneratorTrainOnBatch
| SampleImages (epoch : Z)
| SaveWeights (epoch : option Z)
| SaveModel.

(** A loss returned by [train_on_batch] is identified by the position of
    that call among the events. *)
Definition loss : Type := nat.

Record state : Type := {
  epoch : Z;
  d_losses : list loss;
  g_losses : list loss;
  events : list event
}.

Definition emit (st : state) (es : list event) : state :=
  {| epoch := epoch st; d_losses := d_losses st; g_losses := g_losses st;
     events := events st ++ es |}.

Definition train_critic (using_generator : bool) (st : state) : loss * state :=
  let src := if using_generator then FromIterator else FromArray in
  (length (events st), emit st [CriticTrainOnBatch src]).

Definition train_generator (st : state) : loss * state :=
  (length (events st), emit st [GeneratorTrainOnBatch]).

(** [for _ in range(critic_loops): d_loss = self.train_critic(...)];
    a non-positive count runs no iteration. *)
Fixpoint critic_loop (n : nat) (using_generator : bool)
    (d_loss : option loss) (st : state) : option loss * state :=
  match n with
  | O => (d_loss, st)
  | S m =>
      let '(l, st) := train_critic using_generator st in
      critic_loop m using_generator (Some l) st
  end.

Definition critic_loops_of (epoch n_critic : Z) : Z :=
  if (epoch mod 100 =? 0)%Z then 5%Z else n_critic.

(** One pass of the body of [train]'s loop.  The local [d_loss] outlives
    the pass; reading it unbound, or a zero [print_every_n_batches],
    raises after the optimisation steps of the pass. *)
Definition train_epoch (print_every_n_batches n_critic : Z)
    (using_generator : bool) (epoch_ : Z)
    (acc : option loss * state) : (exn + option loss) * state :=
  let '(d_loss, st) := acc in
  let critic_loops := critic_loops_of epoch_ n_critic in
  let '(d_loss, st) :=
    critic_loop (Z.to_nat critic_loops) using_generator d_loss st in
  let '(g_loss, st) := train_generator st in
  match d_loss with
  | None => (inl UnboundLocalError, st)
  | Some dl =>
      let st := {| epoch := epoch st;
                   d_losses := d_losses st ++ [dl];
                   g_losses := g_losses st ++ [g_loss];
                   events := events st |} in
      if (print_every_n_batches =? 0)%Z then (inl ZeroDivisionError, st)
      else
        let st :=
          if (epoch_ mod print_every_n_batches =? 0)%Z then
            emit st [SampleImages (epoch st); SaveWeights (Some epoch_);
                     SaveWeights None; SaveModel]
          else st in
        (inr (Some dl),
         {| epoch := (epoch st + 1)%Z; d_losses := d_losses st;
            g_losses := g_losses st; events := events st |})
  end.

(** [range(start, start + n)]. *)
Definition zrange (start n : Z) : list Z :=
  map (fun i => (start + Z.of_nat i)%Z) (seq 0 (Z.to_nat n)).

Fixpoint train_loop (print_every_n_batches n_critic : Z)
    (using_generator : bool) (epochs : list Z)
    (acc : option loss * state) : option exn * state :=
  match epochs with
  | [] => (None, snd acc)
  | e :: rest =>
      match train_epoch print_every_n_batches n_critic using_generator e acc with
      | (inl err, st) => (Some err, st)
      | (inr d_loss, st) =>
          train_loop print_every_n_batches n_critic using_generator rest
                     (d_loss, st)
      end
  end.

Definition default_print_every_n_batches : Z := 10.
Definition default_n_critic : Z := 5.
Definition default_using_generator : bool := false.

Definition train (st : state) (epochs print_every_n_batches n_critic : Z)
    (using_generator : bool) : option exn * state :=
  train_loop print_every_n_batches n_critic using_generator
             (zrange (epoch st) epochs) (None, st).

(** The optimisation steps among the events, in order. *)
Inductive opt_step : Type := Critic | Generator.

Definition opt_steps (es : list event) : list opt_step :=
  flat_map (fun e => match e with
                     | CriticTrainOnBatch _ => [Critic]
                     | GeneratorTrainOnBatch => [Generator]
                     | _ => []
                     end) es.

End WGANGP.

(* ================================================================== *)
(** ** Reference definitions the statements compare the code with *)

Module Reference.

Import Tensor.
Local Open Scope R_scope.

(** Pairwise combination of two lists of entries. *)
Definition zip_with (f : R -> R -> R) (la lb : list R) : list R :=
  map (fun '(x, y) => f x y) (combine la lb).

(** The samples of a batch tensor (its slices along axis 0). *)
Definition samples_of (t : tensor) : list tensor :=
  match t with
  | Nested samples => samples
  | Scalar x => [Scalar x]
  end.

(** Euclidean norm of all entries of one sample. *)
Definition l2_norm (g : tensor) : R :=
  sqrt (Rsum (map (fun x => x * x) (entries g))).

(** Mean squared difference of two samples, entry by entry. *)
Definition mse (a b : tensor) : R :=
  Rsum (zip_with (fun x y => (x - y) * (x - y)) (entries a) (entries b))
  / INR (length (entries a)).

(** The optimisation steps of a run in which epoch [e] trains the critic
    [loops e] times and then the generator once. *)
Definition steps_per_epoch (loops : Z -> Z) (epochs : list Z)
  : list WGANGP.opt_step :=
  flat_map (fun e => repeat WGANGP.Critic (Z.to_nat (loops e))
                     ++ [WGANGP.Generator]) epochs.

Definition src_of (using_generator : bool) : WGANGP.batch_source :=
  if using_generator then WGANGP.FromIterator else WGANGP.FromArray.

(** A model object on which [train] has not run yet. *)
Definition fresh : WGANGP.state :=
  {| WGANGP.epoch := 0; WGANGP.d_losses := []; WGANGP.g_losses := [];
     WGANGP.events := [] |}.

(** [between u v x]: [x] lies in the closed interval spanned by the
    two bounds, whichever is the smaller. *)
Definition between (u v x : R) : Prop :=
  Rmin u v <= x <= Rmax u v.

(** Entry by entry, [xs] lies between [us] and [vs]. *)
Fixpoint all_between (us vs xs : list R) : Prop :=
  match us, vs, xs with
  | [], [], [] => True
  | u :: us, v :: vs, x :: xs => between u v x /\ all_between us vs xs
  | _, _, _ => False
  end.

(** [a * x + (1 - a) * y]. *)
Definition convex (a x y : R) : R := a * x + (1 - a) * y.

(** What the layer returns for one sample, given that sample's coefficient. *)
Definition interpolated (a : R) (r f o : tensor) : Prop :=
  same_shape r o = true
  /\ entries o = zip_with (convex a) (entries r) (entries f)
  /\ all_between (entries r) (entries f) (entries o)
  /\ (a = 1 -> o = r)
  /\ (a = 0 -> o = f).

(** [samplewise P alpha rs fs os]: the four sequences have one length and
    [P] relates their members position by position. *)
Fixpoint samplewise (P : R -> tensor -> tensor -> tensor -> Prop)
    (alpha : list R) (rs fs os : list tensor) : Prop :=
  match alpha, rs, fs, os with
  | [], [], [], [] => True
  | a :: alpha, r :: rs, f :: fs, o :: os =>
      P a r f o /\ samplewise P alpha rs fs os
  | _, _, _, _ => False
  end.

(** A configuration of the kind the model is built with: 28 x 28 x 1
    images, two critic layers, two generator layers. *)
Definition example_config : WGANGP.config :=
  {| WGANGP.input_dim := [28; 28; 1]%Z;
     WGANGP.critic_conv_filters := [64; 128]%Z;
     WGANGP.critic_conv_kernel_size := [5; 5]%Z;
     WGANGP.critic_conv_strides := [2; 2]%Z;
     WGANGP.critic_batch_norm_momentum := None;
     WGANGP.critic_activation := "leaky_relu";
     WGANGP.critic_dropout_rate := None;
     WGANGP.critic_learning_rate := 2 / 10000;
     WGANGP.generator_initial_dense_layer_size := [7; 7; 64]%Z;
     WGANGP.generator_upsample := [2; 1]%Z;
     WGANGP.generator_conv_filters := [64; 1]%Z;
     WGANGP.generator_conv_kernel_size := [5; 5]%Z;
     WGANGP.generator_conv_strides := [1; 2]%Z;
     WGANGP.generator_batch_norm_momentum := Some (9 # 10)%Q;
     WGANGP.generator_activation := "leaky_relu";
     WGANGP.generator_dropout_rate := None;
     WGANGP.generator_learning_rate := 2 / 10000;
     WGANGP.optimiser := "rmsprop";
     WGANGP.grad_weight := 10;
     WGANGP.z_dim := 100;
     WGANGP.batch_size := 64 |}.

(** The layer a configured activation name stands for: the name
    'leaky_relu' is a LeakyReLU with slope 0.2, any other name is the
    framework's activation of that name. *)
Definition configured_activation (activation : string) : Keras.layer :=
  if String.eqb activation "leaky_relu"
  then Keras.LeakyReLU (Some (1 # 5)%Q)
  else Keras.Activation activation.

(** The generator as the text describes it: a stem, then one block per
    index; a block is the upsampling choice followed by what follows it. *)
Section GeneratorShape.

Variable self : WGANGP.config.

Definition generator_stem : list Keras.layer :=
  [Keras.Input [WGANGP.z_dim self] (Some "generator_input"%string);
   Keras.Dense (Py.prod (WGANGP.generator_initial_dense_layer_size self))
               None WGANGP.weight_init]
  ++ (if Py.truthy (WGANGP.generator_batch_norm_momentum self)
      then [Keras.BatchNormalization
              (WGANGP.generator_batch_norm_momentum self)]
      else [])
  ++ [configured_activation (WGANGP.generator_activation self);
      Keras.Reshape (WGANGP.generator_initial_dense_layer_size self)]
  ++ (match WGANGP.generator_dropout_rate self with
      | Some r => if Py.truthy (Some r) then [Keras.Dropout r] else []
      | None => []
      end).

Definition generator_conv (i : nat) : list Keras.layer :=
  let filters := nth i (WGANGP.generator_conv_filters self) 0%Z in
  let kernel := nth i (WGANGP.generator_conv_kernel_size self) 0%Z in
  let name := ("generator_conv_" ++ Py.str i)%string in
  if (nth i (WGANGP.generator_upsample self) 0 =? 2)%Z then
    [Keras.UpSampling2D;
     Keras.Conv2D filters kernel None name WGANGP.weight_init]
  else
    [Keras.Conv2DTranspose filters kernel
       (nth i (WGANGP.generator_conv_strides self) 0%Z) name
       WGANGP.weight_init].

Definition generator_after (i : nat) : list Keras.layer :=
  if (S i =? WGANGP.n_layers_generator self)%nat then
    [Keras.Activation "tanh"]
  else
    (if Py.truthy (WGANGP.generator_batch_norm_momentum self)
     then [Keras.BatchNormalization
             (WGANGP.generator_batch_norm_momentum self)]
     else [])
    ++ [configured_activation (WGANGP.generator_activation self)].

Definition generator_block (i : nat) : list Keras.layer :=
  generator_conv i ++ generator_after i.

End GeneratorShape.

(** The autoencoder's two stacks as the text describes them. *)
Section AutoencoderShape.

Variables (input_dim : list Z)
          (enc_filters enc_kernel enc_strides : list Z)
          (dec_filters dec_kernel dec_strides : list Z)
          (z_dim : Z) (use_batch_norm use_dropout : bool).

Definition optional_norm_dropout : list Keras.layer :=
  (if use_batch_norm then [Keras.BatchNormalization None] else [])
  ++ (if use_dropout then [Keras.Dropout (1 # 4)%Q] else []).

Definition encoder_block (i : nat) : list Keras.layer :=
  [Keras.Conv2D (nth i enc_filters 0%Z) (nth i enc_kernel 0%Z)
                (Some (nth i enc_strides 0%Z))
                ("encoder_conv_" ++ Py.str i) Keras.DefaultInit;
   Keras.LeakyReLU None]
  ++ optional_norm_dropout.

(** The encoder up to the value whose shape the decoder restores. *)
Definition encoder_convs : list Keras.layer :=
  [Keras.Input input_dim (Some "encoder_input"%string)]
  ++ flat_map encoder_block (seq 0 (length enc_filters)).

Definition decoder_stem (shape : list Z) : list Keras.layer :=
  [Keras.Input [z_dim] (Some "decoder_input"%string);
   Keras.Dense (Py.prod shape) None Keras.DefaultInit;
   Keras.Reshape shape].

Definition decoder_conv (i : nat) : Keras.layer :=
  Keras.Conv2DTranspose (nth i dec_filters 0%Z) (nth i dec_kernel 0%Z)
                        (nth i dec_strides 0%Z)
                        ("decoder_conv_t_" ++ Py.str i) Keras.DefaultInit.

Definition decoder_after (i : nat) : list Keras.layer :=
  if (S i =? length dec_filters)%nat then [Keras.Activation "sigmoid"]
  else [Keras.LeakyReLU None] ++ optional_norm_dropout.

Definition decoder_block (i : nat) : list Keras.layer :=
  decoder_conv i :: decoder_after i.

End AutoencoderShape.

(** The autoencoder [__init__] returns for 2 x 2 x 1 inputs, no
    convolution and a latent dimension of 2. *)
Definition example_autoencoder : AE.Autoencoder :=
  {| AE.name := "autoencoder";
     AE.input_dim := [2; 2; 1]%Z;
     AE.encoder_conv_filters := [];
     AE.encoder_conv_kernel_size := [];
     AE.encoder_conv_strides := [];
     AE.decoder_conv_t_filters := [];
     AE.decoder_conv_t_kernel_size := [];
     AE.decoder_conv_t_strides := [];
     AE.z_dim := 2;
     AE.use_batch_norm := false;
     AE.use_dropout := false;
     AE.n_layers_encoder := 0;
     AE.n_layers_decoder := 0;
     AE.encoder :=
       [Keras.Input [2; 2; 1]%Z (Some "encoder_input"%string);
        Keras.Flatten;
        Keras.Dense 2 (Some "encoder_output"%string) Keras.DefaultInit];
     AE.decoder :=
       [Keras.Input [2%Z] (Some "decoder_input"%string);
        Keras.Dense 4 None Keras.DefaultInit;
        Keras.Reshape [2; 2; 1]%Z];
     AE.model :=
       [Keras.Input [2; 2; 1]%Z (Some "encoder_input"%string);
        Keras.Flatten;
        Keras.Dense 2 (Some "encoder_output"%string) Keras.DefaultInit;
        Keras.Dense 4 None Keras.DefaultInit;
        Keras.Reshape [2; 2; 1]%Z];
     AE.learning_rate := None;
     AE.model_compiled := None |}.

(** The three configuration lists of a stack have one length. *)
Definition lengths_agree (a b c : list Z) : Prop :=
  length a = length b /\ length b = length c.

(** Per-sample mean squared difference of two batches. *)
Definition batch_mse (y_true y_pred : tensor) : list R :=
  map (fun '(t, p) => mse t p)
      (combine (samples_of y_true) (samples_of y_pred)).

End Reference.

(* ================================================================== *)
(** ** [src/models/AE.py]: what [save] writes *)

Module AE_Params.

Import Py Keras AE.

(** The list [save] pickles into [params.pkl], in the order written. *)
Definition params : Type :=
  (list Z * list Z * list Z * list Z * list Z * list Z * list Z
   * Z * bool * bool)%type.

Definition save_params (self : Autoencoder) : params :=
  (input_dim self,
   encoder_conv_filters self,
   encoder_conv_kernel_size self,
   encoder_conv_strides self,
   decoder_conv_t_filters self,
   decoder_conv_t_kernel_size self,
   decoder_conv_t_strides self,
   z_dim self,
   use_batch_norm self,
   use_dropout self).

(** The constructor applied to the unpacked pickled list, position by
    position. *)
Definition from_params (int_shape : list layer -> list Z) (p : params)
  : result Autoencoder :=
  let '(a1, a2, a3, a4, a5, a6, a7, a8, a9, a10) := p in
  __init__ int_shape a1 a2 a3 a4 a5 a6 a7 a8 a9 a10.

(** The [name] arguments given to the layers of a model, in order. *)
Definition layer_name (l : layer) : list string :=
  match l with
  | Input _ (Some n) => [n]
  | Conv2D _ _ _ n _ => [n]
  | Conv2DTranspose _ _ _ n _ => [n]
  | Dense _ (Some n) _ => [n]
  | _ => []
  end.

Definition layer_names (layers : list layer) : list string :=
  flat_map layer_name layers.

(** The convolutions of a stack with their three settings, in order. *)
Definition conv_settings (l : layer) : list (Z * Z * Z) :=
  match l with
  | Conv2D f k (Some s) _ _ => [(f, k, s)]
  | Conv2DTranspose f k s _ _ => [(f, k, s)]
  | _ => []
  end.

Definition is_sigmoid (l : layer) : bool :=
  match l with
  | Activation a => String.eqb a "sigmoid"
  | _ => false
  end.

(** [s.endswith(suffix)]. *)
Fixpoint ends_with (suffix s : string) : bool :=
  if String.eqb suffix s then true
  else match s with
       | EmptyString => false
       | String _ rest => ends_with suffix rest
       end.

(** The path given to ModelCheckpoint among the callbacks of a [fit]
    call. *)
Definition checkpoint_paths (call : fit_call) : list string :=
  flat_map (fun cb => match cb with
                      | ModelCheckpoint path _ => [path]
                      | _ => []
                      end) (fit_callbacks call).

End AE_Params.

(* ================================================================== *)
(** ** [src/models/AE.py]: the constructor, with a framework that may refuse *)

(** The builder of [AE] lists the layer calls that [_build] makes and
    takes each of them to return.  Here the same text is embedded with
    every call into the framework able to raise, so that the exceptions
    leaving [__init__] can be told apart. *)
Module AE_Checked.

Import Py Keras AE.
Local Open Scope py_scope.

(** What the framework and numpy answer.
    [layer_refused x l]: the exception, if any, raised while the layer
    [l] is constructed and called on the value that the layers [x]
    built.
    [model_refused x]: the exception, if any, raised by
    [Model(input, output)] for the output that the layers [x] built.
    [model_call_refused m x]: the exception, if any, raised by calling
    the model [m] on the value that the layers [x] built.
    [summary_refused m]: the exception, if any, raised by
    [m.summary()].
    [int_shape x]: [tf.keras.backend.int_shape(x)[1:]].
    [np_prod s]: [np.prod(s)]. *)
Record framework : Type := {
  layer_refused : list layer -> layer -> option exn;
  model_refused : list layer -> option exn;
  model_call_refused : list layer -> list layer -> option exn;
  summary_refused : list layer -> option exn;
  int_shape : list layer -> result (list Z);
  np_prod : list Z -> result Z
}.

(** An exception that came out of the framework. *)
Inductive from_framework (fw : framework) (e : exn) : Prop :=
| from_layer (x : list layer) (l : layer) :
    layer_refused fw x l = Some e -> from_framework fw e
| from_Model (x : list layer) :
    model_refused fw x = Some e -> from_framework fw e
| from_model_call (m x : list layer) :
    model_call_refused fw m x = Some e -> from_framework fw e
| from_summary (m : list layer) :
    summary_refused fw m = Some e -> from_framework fw e
| from_int_shape (x : list layer) :
    int_shape fw x = inl e -> from_framework fw e
| from_np_prod (s : list Z) :
    np_prod fw s = inl e -> from_framework fw e.

Section Build.

Variable fw : framework.

Variables (input_dim' : list Z)
          (enc_filters enc_kernel enc_strides : list Z)
          (dec_filters dec_kernel dec_strides : list Z)
          (z_dim' : Z) (use_batch_norm' use_dropout' : bool)
          (n_enc n_dec : nat).

(** [x = layer(x)]. *)
Definition call (x : list layer) (l : layer) : result (list layer) :=
  match layer_refused fw x l with
  | Some e => raise e
  | None => ret (x ++ [l])
  end.

(** [Model(input, x)]. *)
Definition Model (x : list layer) : result (list layer) :=
  match model_refused fw x with
  | Some e => raise e
  | None => ret x
  end.

(** [m(x)] for a model [m]: its layers after the input. *)
Definition call_model (m x : list layer) : result (list layer) :=
  match model_call_refused fw m x with
  | Some e => raise e
  | None => ret (x ++ tl m)
  end.

(** [m.summary()]. *)
Definition summary (m : list layer) : result unit :=
  match summary_refused fw m with
  | Some e => raise e
  | None => ret tt
  end.

Definition encoder_step (i : nat) (x : list layer) : result (list layer) :=
  f <- index enc_filters i ;;
  k <- index enc_kernel i ;;
  s <- index enc_strides i ;;
  x <- call x (Conv2D f k (Some s) ("encoder_conv_" ++ str i) DefaultInit) ;;
  x <- call x (LeakyReLU None) ;;
  x <- (if use_batch_norm' then call x (BatchNormalization None)
        else ret x) ;;
  (if use_dropout' then call x (Dropout (1 # 4)%Q) else ret x).

Definition decoder_step (i : nat) (x : list layer) : result (list layer) :=
  f <- index dec_filters i ;;
  k <- index dec_kernel i ;;
  s <- index dec_strides i ;;
  x <- call x (Conv2DTranspose f k s ("decoder_conv_t_" ++ str i)
                               DefaultInit) ;;
  if (i <? n_dec - 1)%nat then
    x <- call x (LeakyReLU None) ;;
    x <- (if use_batch_norm' then call x (BatchNormalization None)
          else ret x) ;;
    (if use_dropout' then call x (Dropout (1 # 4)%Q) else ret x)
  else
    call x (Activation "sigmoid").

Definition build_encoder : result (list layer * list Z) :=
  x <- call [] (Input input_dim' (Some "encoder_input"%string)) ;;
  x <- for_each (range n_enc) encoder_step x ;;
  shape_before_flattening <- int_shape fw x ;;
  x <- call x Flatten ;;
  x <- call x (Dense z_dim' (Some "encoder_output"%string) DefaultInit) ;;
  encoder <- Model x ;;
  ret (encoder, shape_before_flattening).

Definition build_decoder (shape_before_flattening : list Z)
  : result (list layer) :=
  x <- call [] (Input [z_dim'] (Some "decoder_input"%string)) ;;
  units <- np_prod fw shape_before_flattening ;;
  x <- call x (Dense units None DefaultInit) ;;
  x <- call x (Reshape shape_before_flattening) ;;
  x <- for_each (range n_dec) decoder_step x ;;
  Model x.

(** [_build]: the encoder, the decoder and the full model. *)
Definition _build : result (list layer * list layer * list layer) :=
  es <- build_encoder ;;
  let '(encoder_layers, shape_before_flattening) := es in
  decoder_layers <- build_decoder shape_before_flattening ;;
  model_output <- call_model decoder_layers encoder_layers ;;
  full <- Model model_output ;;
  _ <- summary full ;;
  ret (encoder_layers, decoder_layers, full).

End Build.

Definition encoder_message : string :=
  "Encoder filter sizes, kernel sizes, and strides must have the same length.".

Definition decoder_message : string :=
  "Decoder filter sizes, kernel sizes, and strides must have the same length.".

Definition __init__ (fw : framework) (input_dim : list Z)
    (encoder_conv_filters encoder_conv_kernel_size encoder_conv_strides : list Z)
    (decoder_conv_t_filters decoder_conv_t_kernel_size
       decoder_conv_t_strides : list Z)
    (z_dim : Z) (use_batch_norm use_dropout : bool) : result Autoencoder :=
  if negb (same_length3 encoder_conv_filters encoder_conv_kernel_size
                        encoder_conv_strides) then
    raise (ValueError encoder_message)
  else if negb (same_length3 decoder_conv_t_filters decoder_conv_t_kernel_size
                             decoder_conv_t_strides) then
    raise (ValueError decoder_message)
  else
    let n_layers_encoder := length encoder_conv_filters in
    let n_layers_decoder := length decoder_conv_t_filters in
    built <- _build fw input_dim
               encoder_conv_filters encoder_conv_kernel_size encoder_conv_strides
               decoder_conv_t_filters decoder_conv_t_kernel_size
               decoder_conv_t_strides
               z_dim use_batch_norm use_dropout
               n_layers_encoder n_layers_decoder ;;
    let '(enc, dec, full) := built in
    ret {| name := "autoencoder";
           input_dim := input_dim;
           encoder_conv_filters := encoder_conv_filters;
           encoder_conv_kernel_size := encoder_conv_kernel_size;
           encoder_conv_strides := encoder_conv_strides;
           decoder_conv_t_filters := decoder_conv_t_filters;
           decoder_conv_t_kernel_size := decoder_conv_t_kernel_size;
           decoder_conv_t_strides := decoder_conv_t_strides;
           z_dim := z_dim;
           use_batch_norm := use_batch_norm;
           use_dropout := use_dropout;
           n_layers_encoder := n_layers_encoder;
           n_layers_decoder := n_layers_decoder;
           encoder := enc;
           decoder := dec;
           model := full;
           learning_rate := None;
           model_compiled := None |}.

(** The framework of [AE]: every call returns, shapes are inferred by
    [shape_of] and [np.prod] is the product. *)
Definition nothing_refused (shape_of : list layer -> list Z) : framework :=
  {| layer_refused := fun _ _ => None;
     model_refused := fun _ => None;
     model_call_refused := fun _ _ => None;
     summary_refused := fun _ => None;
     int_shape := fun x => ret (shape_of x);
     np_prod := fun s => ret (prod s) |}.

(** A framework that refuses one thing: a convolution with a stride of
    zero is not constructed.  The exception is a ValueError, as the
    framework's is; the text of its message is not the framework's. *)
Definition zero_stride_refused (x : list layer) (l : layer) : option exn :=
  match l with
  | Conv2D _ _ (Some s) _ _ =>
      if (s =? 0)%Z then Some (ValueError "strides must be positive")
      else None
  | Conv2DTranspose _ _ s _ _ =>
      if (s =? 0)%Z then Some (ValueError "strides must be positive")
      else None
  | _ => None
  end.

Definition strict_strides (shape_of : list layer -> list Z) : framework :=
  {| layer_refused := zero_stride_refused;
     model_refused := fun _ => None;
     model_call_refused := fun _ _ => None;
     summary_refused := fun _ => None;
     int_shape := fun x => ret (shape_of x);
     np_prod := fun s => ret (prod s) |}.

(** What a computation may do: raise an exception satisfying [P] or
    return a value satisfying [Q]. *)
Definition outcome {A} (P : exn -> Prop) (Q : A -> Prop) (r : result A)
  : Prop :=
  match r with
  | inl e => P e
  | inr a => Q a
  end.

End AE_Checked.

(* ================================================================== *)
(** ** [src/models/WGANGP.py]: the model object, batches and samples *)

Module WGANGP_Model.

Import Tensor Py Keras WGANGP.
Local Open Scope py_scope.

(** *** Trainable flags *)

(** A model of the framework: its own [trainable] attribute and its
    layers, each with its [trainable] attribute.  A model used inside
    two graphs is one object; its flags are what they are at the moment
    they are read. *)
Record kmodel : Type := {
  trainable : bool;
  layers : list (layer * bool)
}.

(** [Model(input, output)]: every layer starts trainable. *)
Definition Model (ls : list layer) : kmodel :=
  {| trainable := true; layers := map (fun l => (l, true)) ls |}.

Definition set_trainable (m : kmodel) (val : bool) : kmodel :=
  {| trainable := val;
     layers := map (fun '(l, _) => (l, val)) (layers m) |}.

Inductive loss_fn : Type :=
| Wasserstein
| GradientPenalty.

(** A [compile] call, with the critic and the generator as they are
    when it is made. *)
Record compile_call : Type := {
  cc_inputs : list (list Z);
  cc_loss : list loss_fn;
  cc_optimizer : optimizer;
  cc_loss_weights : option (list R);
  cc_critic : kmodel;
  cc_generator : kmodel
}.

Definition _build_adversarial (self : config) (critic generator : kmodel)
  : kmodel * kmodel * compile_call * compile_call :=
  let generator := set_trainable generator false in
  let critic_model :=
    {| cc_inputs := [input_dim self; [z_dim self]];
       cc_loss := [Wasserstein; Wasserstein; GradientPenalty];
       cc_optimizer := get_opti self (critic_learning_rate self);
       cc_loss_weights := Some [1; 1; grad_weight self]%R;
       cc_critic := critic;
       cc_generator := generator |} in
  let critic := set_trainable critic false in
  let generator := set_trainable generator true in
  let model :=
    {| cc_inputs := [[z_dim self]];
       cc_loss := [Wasserstein];
       cc_optimizer := get_opti self (generator_learning_rate self);
       cc_loss_weights := None;
       cc_critic := critic;
       cc_generator := generator |} in
  let critic := set_trainable critic true in
  (critic, generator, critic_model, model).

(** The object [__init__] leaves behind; [self] carries the attributes
    copied from the arguments. *)
Record gan : Type := {
  gan_config : config;
  gan_critic : kmodel;
  gan_generator : kmodel;
  gan_critic_model : compile_call;
  gan_model : compile_call;
  gan_state : state
}.

Definition __init__ (self : config) : result gan :=
  let st := {| epoch := 0; d_losses := []; g_losses := []; events := [] |} in
  c <- _build_critic self ;;
  g <- _build_generator self ;;
  let '(critic, generator, critic_model, model) :=
    _build_adversarial self (Model c) (Model g) in
  ret {| gan_config := self;
         gan_critic := critic;
         gan_generator := generator;
         gan_critic_model := critic_model;
         gan_model := model;
         gan_state := st |}.

(** *** Loss values of the two training steps *)

(** What [critic_model.train_on_batch] reports for the three outputs
    and the targets of [train_critic]: the total weighted by
    [loss_weights = [1, 1, grad_weight]], then the three losses. *)
Definition critic_losses (K_gradients : tensor -> tensor -> tensor)
    (grad_weight : R) (batch_size : nat)
    (valid_out fake_out interpolated_out interpolated_img : tensor)
  : option (list R) :=
  let '(valid, fake, dummy) := critic_targets batch_size in
  match wasserstein valid valid_out, wasserstein fake fake_out with
  | Some l1, Some l2 =>
      let l3 := gradient_penalty_loss K_gradients dummy interpolated_out
                                      interpolated_img in
      Some [1 * l1 + 1 * l2 + grad_weight * l3; l1; l2; l3]%R
  | _, _ => None
  end.

(** What [model.train_on_batch(noise, valid)] of [train_generator]
    reports for the critic's scores of the generated images. *)
Definition generator_loss (batch_size : nat) (scores : tensor) : option R :=
  let valid := full_column batch_size 1%R in
  wasserstein valid scores.

(** *** The batch [train_critic] trains on *)

Inductive fetch_error : Type :=
| StopIteration
| FetchIndexError.

(** [next(x_train)] on an iterator that yields the listed items. *)
Definition next {A} (it : list A) : fetch_error + (A * list A) :=
  match it with
  | [] => inl StopIteration
  | b :: rest => inr (b, rest)
  end.

(** The [using_generator] branch: the images of the next item, or of
    the one after it when the first has another size.  The rest of the
    iterator is returned with the batch. *)
Definition true_imgs_from_iterator {A L} (batch_size : nat)
    (x_train : list (list A * L))
  : fetch_error + (list A * list (list A * L)) :=
  match next x_train with
  | inl e => inl e
  | inr (b, rest) =>
      let true_imgs := fst b in
      if negb (length true_imgs =? batch_size)%nat then
        match next rest with
        | inl e => inl e
        | inr (b', rest') => inr (fst b', rest')
        end
      else inr (true_imgs, rest)
  end.

(** The other branch: [x_train[idx]] for the drawn indices [idx]. *)
Fixpoint true_imgs_from_array {A} (x_train : list A) (idx : list nat)
  : fetch_error + list A :=
  match idx with
  | [] => inr []
  | i :: rest =>
      match nth_error x_train i with
      | None => inl FetchIndexError
      | Some v =>
          match true_imgs_from_array x_train rest with
          | inl e => inl e
          | inr vs => inr (v :: vs)
          end
      end
  end.

(** *** sample_images *)

(** [np.clip(x, lo, hi)]. *)
Definition np_clip (x lo hi : R) : R := Rmin (Rmax x lo) hi.

Definition rescale (gen_imgs : tensor) : tensor :=
  let gen_imgs := tmap (fun x => 0.5 * (x + 1))%R gen_imgs in
  tmap (fun x => np_clip x 0 1) gen_imgs.

Fixpoint for_opt {S} (idx : list nat) (body : nat -> S -> option S) (s : S)
  : option S :=
  match idx with
  | [] => Some s
  | i :: rest =>
      match body i s with
      | Some s' => for_opt rest body s'
      | None => None
      end
  end.

(** The two loops over the [r] by [c] grid: cell [(i, j)] shows
    [gen_imgs[cnt]]; an index past the end raises. *)
Definition show_grid {A} (r c : nat) (gen_imgs : list A)
  : option (list (nat * nat * A) * nat) :=
  for_opt (range r)
    (fun i s =>
       for_opt (range c)
         (fun j s =>
            let '(shown, cnt) := s in
            match nth_error gen_imgs cnt with
            | Some img => Some (shown ++ [(i, j, img)], S cnt)
            | None => None
            end) s)
    ([], 0%nat).

Definition sample_rows : nat := 5.
Definition sample_cols : nat := 5.

(** *** What one epoch of [train] asks for *)

Definition epoch_events (print_every_n_batches n_critic : Z)
    (using_generator : bool) (e : Z) : list event :=
  repeat (CriticTrainOnBatch (if using_generator then FromIterator
                              else FromArray))
         (Z.to_nat (critic_loops_of e n_critic))
  ++ [GeneratorTrainOnBatch]
  ++ (if (e mod print_every_n_batches =? 0)%Z
      then [SampleImages e; SaveWeights (Some e); SaveWeights None; SaveModel]
      else []).

(** *** Shapes the statements refer to *)

(** The critic's block for index [i], as the text of [_build_critic]
    lays it out. *)
Definition critic_block (self : config) (i : nat) : list layer :=
  [Conv2D (nth i (critic_conv_filters self) 0%Z)
          (nth i (critic_conv_kernel_size self) 0%Z)
          (Some (nth i (critic_conv_strides self) 0%Z))
          ("critic_conv_" ++ str i) weight_init]
  ++ (if truthy (critic_batch_norm_momentum self) && (0 <? i)%nat
      then [BatchNormalization (critic_batch_norm_momentum self)]
      else [])
  ++ [Reference.configured_activation (critic_activation self)]
  ++ (match critic_dropout_rate self with
      | Some r => if truthy (Some r) then [Dropout r] else []
      | None => []
      end).

Definition is_batch_norm (l : layer) : bool :=
  match l with
  | BatchNormalization _ => true
  | _ => false
  end.

Definition learning_rate_of (o : optimizer) : R :=
  match o with
  | Adam lr _ => lr
  | RMSprop lr => lr
  end.

(** Every flag of the model has the value [b]. *)
Definition all_flags (b : bool) (m : kmodel) : Prop :=
  trainable m = b /\ Forall (fun lf => snd lf = b) (layers m).

End WGANGP_Model.

(* ================================================================== *)
(** ** Facts about tensors and sums *)

Module TensorFacts.

Import Tensor Reference.
Local Open Scope R_scope.

Lemma entries_tmap (f : R -> R) (t : tensor) :
  entries (tmap f t) = map f (entries t).
Proof.
  induction t using tensor_rect'; simpl; auto.
  simpl in IHt0. rewrite IHt, IHt0, map_app. reflexivity.
Qed.

Lemma Rsum_app (l1 l2 : list R) : Rsum (l1 ++ l2) = Rsum l1 + Rsum l2.
Proof.
  unfold Rsum. induction l1 as [|x l1 IH]; simpl; [lra | rewrite IH; lra].
Qed.

Lemma Rsum_nonneg (l : list R) : Forall (fun x => 0 <= x) l -> 0 <= Rsum l.
Proof.
  unfold Rsum. induction 1; simpl; lra.
Qed.

Lemma Rsum_zero_iff (l : list R) :
  Forall (fun x => 0 <= x) l -> (Rsum l = 0 <-> Forall (fun x => x = 0) l).
Proof.
  induction 1 as [|x l Hx Hl IH]; simpl.
  - split; auto.
  - pose proof (Rsum_nonneg Hl) as Hs. unfold Rsum in *. simpl. split.
    + intros E. assert (x = 0) by lra. constructor; [assumption|].
      apply IH. lra.
    + intros F. inversion F; subst. apply IH in H2. lra.
Qed.

Lemma mean_nonneg (l : list R) : Forall (fun x => 0 <= x) l -> 0 <= mean l.
Proof.
  intros H. unfold mean. apply Rsum_nonneg in H.
  destruct l as [|x l].
  - simpl. unfold Rdiv. rewrite Rinv_0. lra.
  - apply Rmult_le_pos; [assumption|].
    left. apply Rinv_0_lt_compat. apply lt_0_INR. simpl; lia.
Qed.

Lemma mean_zero_iff (l : list R) :
  Forall (fun x => 0 <= x) l -> (mean l = 0 <-> Forall (fun x => x = 0) l).
Proof.
  intros H. rewrite <- (Rsum_zero_iff H). unfold mean.
  destruct l as [|x l].
  - simpl. unfold Rdiv. rewrite Rinv_0. split; intros; lra.
  - assert (0 < INR (length (x :: l))) as Hn by (apply lt_0_INR; simpl; lia).
    split; intros E.
    + apply (Rmult_eq_compat_r (INR (length (x :: l)))) in E.
      unfold Rdiv in E. rewrite Rmult_assoc, Rinv_l in E; lra.
    + rewrite E. unfold Rdiv. lra.
Qed.

(** *** Elementwise binary operations *)

Lemma tzip_cons (f : R -> R -> R) (x y : tensor) (xs ys : list tensor) :
  tzip f (Nested (x :: xs)) (Nested (y :: ys))
  = match tzip f x y, tzip f (Nested xs) (Nested ys) with
    | Some z, Some (Nested zs) => Some (Nested (z :: zs))
    | _, _ => None
    end.
Proof.
  simpl. destruct (tzip f x y) as [z|]; [|reflexivity].
  match goal with
  | |- context [option_map Nested (match ?g with _ => _ end)] => destruct g
  end; reflexivity.
Qed.

Lemma same_shape_cons (x y : tensor) (xs ys : list tensor) :
  same_shape (Nested (x :: xs)) (Nested (y :: ys))
  = same_shape x y && same_shape (Nested xs) (Nested ys).
Proof. reflexivity. Qed.

Lemma zip_with_app (f : R -> R -> R) (a1 a2 b1 b2 : list R) :
  length a1 = length b1 ->
  zip_with f (a1 ++ a2) (b1 ++ b2) = zip_with f a1 b1 ++ zip_with f a2 b2.
Proof.
  unfold zip_with. revert b1.
  induction a1 as [|x a1 IH]; intros [|y b1] H; simpl in *; try discriminate.
  - reflexivity.
  - f_equal. apply IH. lia.
Qed.

Lemma same_shape_count (a : tensor) :
  forall b, same_shape a b = true -> length (entries a) = length (entries b).
Proof.
  induction a as [x| |a1 as_ IH1 IH2] using tensor_rect'; intros [y|[|b1 bs]];
    try discriminate; auto.
  rewrite same_shape_cons. intros H. apply andb_true_iff in H.
  destruct H as [H1 H2]. simpl. rewrite !length_app.
  rewrite (IH1 _ H1). f_equal. apply (IH2 (Nested bs) H2).
Qed.

Lemma tzip_same_shape (f : R -> R -> R) (a : tensor) :
  forall b, same_shape a b = true ->
  exists c, tzip f a b = Some c
            /\ entries c = zip_with f (entries a) (entries b)
            /\ same_shape a c = true.
Proof.
  induction a as [x| |a1 as_ IH1 IH2] using tensor_rect'; intros [y|[|b1 bs]];
    try discriminate.
  - intros _. exists (Scalar (f x y)). auto.
  - intros _. exists (Nested []). auto.
  - rewrite same_shape_cons. intros H. apply andb_true_iff in H.
    destruct H as [H1 H2].
    destruct (IH1 _ H1) as [c1 [E1 [N1 S1]]].
    destruct (IH2 (Nested bs) H2) as [c2 [E2 [N2 S2]]].
    rewrite tzip_cons, E1, E2.
    destruct c2 as [z|cs]; [destruct as_; discriminate|].
    exists (Nested (c1 :: cs)). split; [reflexivity|]. split.
    + simpl. simpl in N2. rewrite N1, N2. symmetry. apply zip_with_app.
      apply same_shape_count. assumption.
    + rewrite same_shape_cons, S1, S2. reflexivity.
Qed.

Lemma same_shape_tmap (f : R -> R) (a : tensor) :
  same_shape a (tmap f a) = true.
Proof.
  induction a as [x| |a1 as_ IH1 IH2] using tensor_rect'; auto.
  change (tmap f (Nested (a1 :: as_)))
    with (Nested (tmap f a1 :: map (tmap f) as_)).
  rewrite same_shape_cons, IH1. exact IH2.
Qed.

Lemma same_shape_trans (a : tensor) :
  forall b c, same_shape a b = true -> same_shape b c = true ->
              same_shape a c = true.
Proof.
  induction a as [x| |a1 as_ IH1 IH2] using tensor_rect';
    intros [y|[|b1 bs]] [z|[|c1 cs]]; try discriminate; auto.
  rewrite !same_shape_cons. intros H1 H2.
  apply andb_true_iff in H1. apply andb_true_iff in H2.
  destruct H1 as [H1 H1']. destruct H2 as [H2 H2'].
  rewrite (IH1 _ _ H1 H2). exact (IH2 (Nested bs) (Nested cs) H1' H2').
Qed.

Lemma same_shape_sym (a : tensor) :
  forall b, same_shape a b = true -> same_shape b a = true.
Proof.
  induction a as [x| |a1 as_ IH1 IH2] using tensor_rect';
    intros [y|[|b1 bs]]; try discriminate; auto.
  rewrite !same_shape_cons. intros H. apply andb_true_iff in H.
  destruct H as [H1 H2]. rewrite (IH1 _ H1). exact (IH2 (Nested bs) H2).
Qed.

Lemma has_rank_same_shape (n : nat) (a : tensor) :
  forall b, same_shape a b = true -> has_rank n a = true ->
            has_rank n b = true.
Proof.
  revert n.
  induction a as [x| |a1 as_ IH1 IH2] using tensor_rect';
    intros n [y|[|b1 bs]]; try discriminate; auto.
  rewrite same_shape_cons. intros H. apply andb_true_iff in H.
  destruct H as [H1 H2]. destruct n as [|n]; [discriminate|].
  simpl. intros R. apply andb_true_iff in R. destruct R as [R1 R2].
  rewrite (IH1 n _ H1 R1). exact (IH2 (S n) (Nested bs) H2 R2).
Qed.

Lemma zip_with_map (f : R -> R -> R) (g h : R -> R) (l1 l2 : list R) :
  zip_with f (map g l1) (map h l2) = zip_with (fun x y => f (g x) (h y)) l1 l2.
Proof.
  unfold zip_with. revert l2.
  induction l1 as [|x l1 IH]; intros [|y l2]; simpl; auto.
  now rewrite IH.
Qed.

Lemma app_inj_length {A} (l1 l1' l2 l2' : list A) :
  length l1 = length l1' -> l1 ++ l2 = l1' ++ l2' -> l1 = l1' /\ l2 = l2'.
Proof.
  revert l1'. induction l1 as [|x l1 IH]; intros [|y l1'] H E;
    simpl in *; try discriminate; auto.
  injection E as -> E. destruct (IH l1' ltac:(lia) E) as [-> ->]. auto.
Qed.

Lemma same_shape_entries_eq (a : tensor) :
  forall b, same_shape a b = true -> entries a = entries b -> a = b.
Proof.
  induction a as [x| |a1 as_ IH1 IH2] using tensor_rect';
    intros [y|[|b1 bs]]; try discriminate; auto.
  - intros _ E. simpl in E. now injection E as ->.
  - rewrite same_shape_cons. intros H E. apply andb_true_iff in H.
    destruct H as [H1 H2]. simpl in E.
    apply app_inj_length in E; [|now apply same_shape_count].
    destruct E as [E1 E2]. rewrite (IH1 _ H1 E1).
    pose proof (IH2 (Nested bs) H2 E2) as E3. now injection E3 as ->.
Qed.

Lemma same_shape_nested_length (la lb : list tensor) :
  same_shape (Nested la) (Nested lb) = true -> length la = length lb.
Proof.
  revert lb. induction la as [|x la IH]; intros [|y lb]; try discriminate; auto.
  rewrite same_shape_cons. intros H. apply andb_true_iff in H.
  simpl. f_equal. apply IH. tauto.
Qed.

End TensorFacts.

(* ================================================================== *)
(** ** Facts about loops, lookups and activations *)

Module PyFacts.

Import Tensor Py Keras Reference TensorFacts.

Lemma index_nth {A} (l : list A) (i : nat) (d : A) :
  (i < length l)%nat -> index l i = ret (nth i l d).
Proof.
  intros H. unfold index. rewrite (nth_error_nth' l d H). reflexivity.
Qed.

(** A loop whose every pass appends a block builds the stem followed by
    the blocks in order. *)
Lemma for_each_blocks {A} (body : nat -> list A -> result (list A))
    (block : nat -> list A) (idx : list nat) :
  (forall i x, In i idx -> body i x = ret (x ++ block i)) ->
  forall x, for_each idx body x = ret (x ++ flat_map block idx).
Proof.
  induction idx as [|i idx IH]; intros H x; simpl.
  - now rewrite app_nil_r.
  - rewrite (H i x) by now left. simpl.
    rewrite IH by (intros; apply H; now right).
    now rewrite <- app_assoc.
Qed.

Lemma index_inr {A} (l : list A) (i : nat) (v d : A) :
  index l i = inr v -> nth i l d = v /\ (i < length l)%nat.
Proof.
  unfold index. destruct (nth_error l i) as [w|] eqn:E; [|discriminate].
  intros [= <-]. split; [now apply nth_error_nth|].
  apply nth_error_Some. congruence.
Qed.

(** Conversely, when a loop whose passes can only append their block
    returns, it has built the stem followed by the blocks in order. *)
Lemma for_each_blocks_inv {A} (body : nat -> list A -> result (list A))
    (block : nat -> list A) (idx : list nat) :
  (forall i x z, In i idx -> body i x = inr z -> z = x ++ block i) ->
  forall x y, for_each idx body x = inr y -> y = x ++ flat_map block idx.
Proof.
  induction idx as [|i idx IH]; intros H x y; simpl.
  - intros [= <-]. now rewrite app_nil_r.
  - destruct (body i x) as [e|z] eqn:E; simpl; [discriminate|].
    intros Hy. rewrite (H i x z (or_introl eq_refl) E) in Hy.
    apply IH in Hy; [|intros j u v Hj; apply H; now right].
    now rewrite Hy, <- app_assoc.
Qed.

Lemma predict_app (weights : layer -> tensor -> tensor)
    (l1 l2 : list layer) (x : tensor) :
  predict weights (l1 ++ l2) x = predict weights l2 (predict weights l1 x).
Proof. unfold predict. apply fold_left_app. Qed.

Local Open Scope R_scope.

Lemma tanh_bounds (x : R) : -1 < tanh x < 1.
Proof.
  unfold tanh, sinh, cosh.
  pose proof (exp_pos x) as Hp. pose proof (exp_pos (- x)) as Hq.
  set (p := exp x) in *. set (q := exp (- x)) in *.
  assert ((p - q) / 2 / ((p + q) / 2) = (p - q) / (p + q)) as ->
    by (field; lra).
  assert (0 < / (p + q)) as Hi by (apply Rinv_0_lt_compat; lra).
  assert ((p + q) * / (p + q) = 1) as Hone by (apply Rinv_r; lra).
  unfold Rdiv. split; nra.
Qed.

Lemma sigmoid_bounds (x : R) : 0 < sigmoid x < 1.
Proof.
  unfold sigmoid. pose proof (exp_pos (- x)) as Hq.
  set (q := exp (- x)) in *.
  assert (0 < / (1 + q)) as Hi by (apply Rinv_0_lt_compat; lra).
  assert ((1 + q) * / (1 + q) = 1) as Hone by (apply Rinv_r; lra).
  unfold Rdiv. split; nra.
Qed.

Lemma entries_tmap_Forall (f : R -> R) (P : R -> Prop) (t : tensor) :
  (forall x, P (f x)) -> Forall P (entries (tmap f t)).
Proof.
  intros H. rewrite entries_tmap. apply Forall_forall.
  intros y Hy. apply in_map_iff in Hy. destruct Hy as [x [<- _]]. apply H.
Qed.

End PyFacts.

(* ================================================================== *)
(** ** Properties of [src/models/WGANGP.py] *)

Module WGANGP_Spec.

Import Tensor Py Keras Reference TensorFacts PyFacts WGANGP.
Local Open Scope R_scope.

Lemma penalties_nonneg (norms : list R) :
  Forall (fun x => 0 <= x) (map (fun n => Rsqr (1 - n)) norms).
Proof.
  apply Forall_forall. intros x Hx. apply in_map_iff in Hx.
  destruct Hx as [n [<- _]]. apply Rle_0_sqr.
Qed.

Lemma sample_sum_of_squares (g : tensor) :
  sqrt (tsum (tmap Rsqr g)) = l2_norm g.
Proof.
  unfold tsum, l2_norm. rewrite entries_tmap. reflexivity.
Qed.

Lemma K_sum_sample_axes_samples (t : tensor) :
  K_sum_sample_axes (K_square t) = map (fun g => tsum (tmap Rsqr g)) (samples_of t).
Proof.
  destruct t as [x|samples]; simpl.
  - unfold tsum. simpl. f_equal. lra.
  - rewrite map_map. reflexivity.
Qed.

(** C1. Whatever gradient the automatic differentiation returns,
    [gradient_penalty_loss] is the mean over the batch of the square of
    one minus the Euclidean norm of each sample's gradient; the penalty is
    never negative, and it is zero exactly when every sample's gradient
    has norm one. *)
Theorem gradient_penalty_loss_mean_sq_norm_deviation
    (K_gradients : tensor -> tensor -> tensor)
    (y_true y_pred interpolated_samples : tensor) :
  let grads := samples_of (K_gradients y_pred interpolated_samples) in
  let gp := gradient_penalty_loss K_gradients y_true y_pred
                                  interpolated_samples in
  gp = mean (map (fun g => (1 - l2_norm g) * (1 - l2_norm g)) grads)
  /\ 0 <= gp
  /\ (gp = 0 <-> Forall (fun g => l2_norm g = 1) grads).
Proof.
  intros grads gp.
  assert (gp = mean (map (fun n => Rsqr (1 - n)) (map l2_norm grads))) as E.
  { unfold gp, gradient_penalty_loss, grads.
    rewrite K_sum_sample_axes_samples.
    rewrite (map_map _ sqrt). do 2 f_equal.
    apply map_ext. intros g. apply sample_sum_of_squares. }
  split; [|split].
  - rewrite E, map_map. reflexivity.
  - rewrite E. apply mean_nonneg, penalties_nonneg.
  - rewrite E, (mean_zero_iff (penalties_nonneg _)).
    rewrite !Forall_forall. split.
    + intros H g Hg.
      assert (Rsqr (1 - l2_norm g) = 0) as Z.
      { apply H. apply in_map_iff. exists (l2_norm g). split; [reflexivity|].
        apply in_map. assumption. }
      apply Rsqr_0_uniq in Z. lra.
    + intros H x Hx. apply in_map_iff in Hx. destruct Hx as [n [<- Hn]].
      apply in_map_iff in Hn. destruct Hn as [g [<- Hg]].
      rewrite (H g Hg). unfold Rsqr. lra.
Qed.

(** *** The Wasserstein loss *)

Lemma entries_full_column (n : nat) (v : R) :
  entries (full_column n v) = repeat v n.
Proof.
  unfold full_column. simpl.
  induction n as [|n IH]; simpl; [reflexivity | now rewrite IH].
Qed.

Lemma full_column_same_shape (n : nat) (v w : R) :
  same_shape (full_column n v) (full_column n w) = true.
Proof.
  unfold full_column. induction n as [|n IH]; [reflexivity|].
  cbn [repeat]. rewrite same_shape_cons. exact IH.
Qed.

Lemma zip_with_ones (n : nat) :
  forall l, length l = n -> zip_with Rmult (repeat 1 n) l = l.
Proof.
  unfold zip_with.
  induction n as [|n IH]; intros [|x l] H; simpl in *; try discriminate; auto.
  rewrite IH by lia. f_equal. lra.
Qed.

Lemma zip_with_minus_ones (n : nat) :
  forall l, length l = n -> zip_with Rmult (repeat (-1) n) l = map Ropp l.
Proof.
  unfold zip_with.
  induction n as [|n IH]; intros [|x l] H; simpl in *; try discriminate; auto.
  rewrite IH by lia. f_equal. lra.
Qed.

Lemma Rsum_opp (l : list R) : Rsum (map Ropp l) = - Rsum l.
Proof.
  unfold Rsum. induction l as [|x l IH]; simpl; [lra | rewrite IH; lra].
Qed.

Lemma wasserstein_entries (y_true y_pred : tensor) :
  same_shape y_true y_pred = true ->
  wasserstein y_true y_pred
  = Some (- (Rsum (zip_with Rmult (entries y_true) (entries y_pred))
             / INR (length (entries y_pred)))).
Proof.
  intros H. unfold wasserstein.
  destruct (tzip_same_shape Rmult _ _ H) as [p [E [N S]]].
  rewrite E. unfold tmean, tsum, tcount. rewrite N.
  rewrite <- (same_shape_count _ _ H).
  rewrite <- N, <- (same_shape_count _ _ S). reflexivity.
Qed.

(** C4. On operands of one shape [wasserstein] is the negated mean of the
    entrywise product; with the targets [train_critic] builds (ones for
    the real head, minus ones for the fake head) the two Wasserstein
    terms of the critic's loss add up to the mean fake score minus the
    mean real score. *)
Theorem wasserstein_negated_mean_product
    (y_true y_pred : tensor) (batch_size : nat)
    (real_scores fake_scores : tensor) :
  same_shape y_true y_pred = true ->
  same_shape (full_column batch_size 1) real_scores = true ->
  same_shape (full_column batch_size 1) fake_scores = true ->
  let valid := fst (fst (critic_targets batch_size)) in
  let fake := snd (fst (critic_targets batch_size)) in
  wasserstein y_true y_pred
  = Some (- (Rsum (zip_with Rmult (entries y_true) (entries y_pred))
             / INR (length (entries y_pred))))
  /\ exists real_loss fake_loss,
       wasserstein valid real_scores = Some real_loss
       /\ wasserstein fake fake_scores = Some fake_loss
       /\ real_loss + fake_loss = tmean fake_scores - tmean real_scores.
Proof.
  intros H Hr Hf valid fake. split; [apply wasserstein_entries, H|].
  assert (same_shape fake fake_scores = true) as Hf'.
  { apply same_shape_trans with (b := full_column batch_size 1);
      [apply full_column_same_shape | assumption]. }
  pose proof (same_shape_count _ _ Hr) as Cr.
  pose proof (same_shape_count _ _ Hf) as Cf.
  rewrite entries_full_column, repeat_length in Cr, Cf.
  eexists. eexists. split; [apply wasserstein_entries, Hr|].
  split; [apply wasserstein_entries, Hf'|].
  unfold valid, fake, critic_targets. simpl fst. simpl snd.
  rewrite !entries_full_column.
  rewrite zip_with_ones by (symmetry; assumption).
  rewrite zip_with_minus_ones by (symmetry; assumption).
  rewrite Rsum_opp. unfold tmean, tsum, tcount, Rdiv.
  lra.
Qed.

Lemma wasserstein_negated_mean_product_witness :
  let scores a b := Nested [Nested [Scalar a]; Nested [Scalar b]] in
  same_shape (scores 1 (-1)) (scores 3 4) = true
  /\ same_shape (full_column 2 1) (scores 3 5) = true
  /\ same_shape (full_column 2 1) (scores 2 0) = true
  /\ (wasserstein (scores 1 (-1)) (scores 3 4)
      = Some (- (Rsum (zip_with Rmult (entries (scores 1 (-1)))
                                      (entries (scores 3 4)))
                 / INR (length (entries (scores 3 4)))))
      /\ exists real_loss fake_loss,
           wasserstein (fst (fst (critic_targets 2))) (scores 3 5)
             = Some real_loss
           /\ wasserstein (snd (fst (critic_targets 2))) (scores 2 0)
              = Some fake_loss
           /\ real_loss + fake_loss
              = tmean (scores 2 0) - tmean (scores 3 5)).
Proof.
  intros scores.
  split; [reflexivity|]. split; [reflexivity|]. split; [reflexivity|].
  apply (@wasserstein_negated_mean_product
           (scores 1 (-1)) (scores 3 4) 2 (scores 3 5) (scores 2 0));
    reflexivity.
Defined.

(** *** The random weighted average *)

Lemma convex_between (a x y : R) : 0 <= a <= 1 -> between x y (convex a x y).
Proof.
  intros Ha. unfold between, convex, Rmin, Rmax.
  destruct (Rle_dec x y); split; nra.
Qed.

Lemma all_between_convex (a : R) (l1 : list R) :
  0 <= a <= 1 ->
  forall l2, length l1 = length l2 ->
             all_between l1 l2 (zip_with (convex a) l1 l2).
Proof.
  intros Ha. unfold zip_with.
  induction l1 as [|x l1 IH]; intros [|y l2] H; simpl in *;
    try discriminate; auto.
  split; [now apply convex_between | apply IH; lia].
Qed.

Lemma zip_with_convex_1 (l1 : list R) :
  forall l2, length l1 = length l2 -> zip_with (convex 1) l1 l2 = l1.
Proof.
  unfold zip_with, convex.
  induction l1 as [|x l1 IH]; intros [|y l2] H; simpl in *;
    try discriminate; auto.
  rewrite IH by lia. f_equal. lra.
Qed.

Lemma zip_with_convex_0 (l1 : list R) :
  forall l2, length l1 = length l2 -> zip_with (convex 0) l1 l2 = l2.
Proof.
  unfold zip_with, convex.
  induction l1 as [|x l1 IH]; intros [|y l2] H; simpl in *;
    try discriminate; auto.
  rewrite IH by lia. f_equal. lra.
Qed.

Lemma interpolate_sample (a : R) (r f : tensor) :
  0 <= a <= 1 -> same_shape r f = true ->
  exists o,
    tzip Rplus (tmap (Rmult a) r) (tmap (Rmult (1 - a)) f) = Some o
    /\ interpolated a r f o.
Proof.
  intros Ha H.
  assert (same_shape (tmap (Rmult a) r) (tmap (Rmult (1 - a)) f) = true) as S.
  { apply same_shape_trans with (b := r);
      [apply same_shape_sym, same_shape_tmap|].
    apply same_shape_trans with (b := f);
      [assumption | apply same_shape_tmap]. }
  destruct (tzip_same_shape Rplus _ _ S) as [o [E [N So]]].
  pose proof (same_shape_count _ _ H) as L.
  assert (same_shape r o = true) as Sro.
  { apply same_shape_trans with (b := tmap (Rmult a) r);
      [apply same_shape_tmap | assumption]. }
  assert (entries o = zip_with (convex a) (entries r) (entries f)) as Eo.
  { rewrite N, !entries_tmap, zip_with_map. reflexivity. }
  exists o. split; [assumption|]. unfold interpolated.
  split; [assumption|]. split; [assumption|]. split; [|split].
  - rewrite Eo. now apply all_between_convex.
  - intros ->. symmetry. apply same_shape_entries_eq; [assumption|].
    rewrite Eo. symmetry. now apply zip_with_convex_1.
  - intros ->. symmetry. apply same_shape_entries_eq.
    + apply same_shape_trans with (b := r);
        [now apply same_shape_sym | assumption].
    + rewrite Eo. symmetry. now apply zip_with_convex_0.
Qed.

Lemma interpolate_samples (alpha : list R) :
  forall rs fs,
    Forall (fun a => 0 <= a <= 1) alpha ->
    length alpha = length rs ->
    same_shape (Nested rs) (Nested fs) = true ->
    exists os,
      tzip Rplus
        (Nested (map (fun '(a, s) => tmap (Rmult a) s) (combine alpha rs)))
        (Nested (map (fun '(a, s) => tmap (Rmult a) s)
                     (combine (map (fun a => 1 - a) alpha) fs)))
      = Some (Nested os)
      /\ samplewise interpolated alpha rs fs os.
Proof.
  induction alpha as [|a alpha IH]; intros [|r rs] [|f fs] Ha L S;
    try discriminate.
  - exists []. split; [reflexivity | exact I].
  - rewrite same_shape_cons in S. apply andb_true_iff in S.
    destruct S as [S1 S2]. inversion Ha as [|? ? Ha1 Ha2]; subst.
    simpl in L.
    destruct (IH rs fs Ha2 ltac:(lia) S2) as [os [E P]].
    destruct (@interpolate_sample a r f Ha1 S1) as [o [Eo Po]].
    exists (o :: os). cbn [combine map]. rewrite tzip_cons, Eo, E.
    split; [reflexivity | split; assumption].
Qed.

Lemma samplewise_all_real (alpha : list R) :
  forall rs fs os,
    samplewise interpolated alpha rs fs os ->
    Forall (fun a => a = 1) alpha -> os = rs.
Proof.
  induction alpha as [|a alpha IH]; intros [|r rs] [|f fs] [|o os] H F;
    simpl in H; try contradiction; auto.
  destruct H as [[_ [_ [_ [H1 _]]]] H]. inversion F; subst.
  rewrite H1 by reflexivity. f_equal. eapply IH; eauto.
Qed.

Lemma samplewise_all_fake (alpha : list R) :
  forall rs fs os,
    samplewise interpolated alpha rs fs os ->
    Forall (fun a => a = 0) alpha -> os = fs.
Proof.
  induction alpha as [|a alpha IH]; intros [|r rs] [|f fs] [|o os] H F;
    simpl in H; try contradiction; auto.
  destruct H as [[_ [_ [_ [_ H0]]]] H]. inversion F; subst.
  rewrite H0 by reflexivity. f_equal. eapply IH; eauto.
Qed.

(** C5. For two rank-4 batches of one shape and one coefficient per
    sample, each between 0 and 1, [call] returns, sample by sample,
    [alpha * real + (1 - alpha) * fake]: every entry of the result lies
    between the two entries it combines, a coefficient of 1 gives back
    the real sample and a coefficient of 0 the fake one. *)
Theorem RandomWeightedAverage_call_convex
    (self : RandomWeightedAverage) (alpha : list R) (real fake : tensor) :
  length alpha = rwa_batch_size self ->
  length alpha = length (samples_of real) ->
  has_rank 4 real = true ->
  same_shape real fake = true ->
  Forall (fun a => 0 <= a <= 1) alpha ->
  exists out,
    call self alpha [real; fake] = Some out
    /\ samplewise interpolated alpha (samples_of real) (samples_of fake)
                  (samples_of out)
    /\ (Forall (fun a => a = 1) alpha -> out = real)
    /\ (Forall (fun a => a = 0) alpha -> out = fake).
Proof.
  intros Hb Hl Hr Hs Ha.
  destruct real as [x|rs]; [discriminate|].
  destruct fake as [y|fs]; [discriminate|].
  simpl in Hl.
  pose proof (same_shape_nested_length _ _ Hs) as Hlen.
  pose proof (has_rank_same_shape 4 _ _ Hs Hr) as Hf.
  destruct (@interpolate_samples alpha rs fs Ha Hl Hs) as [os [E P]].
  exists (Nested os). split; [|split; [exact P|split]].
  - unfold call. rewrite Hb, Nat.eqb_refl. cbn [negb nth_error].
    unfold broadcast_mul. rewrite Hr, Hf. cbn [negb].
    rewrite length_map, <- Hlen, Hl, Nat.eqb_refl. exact E.
  - intros F. f_equal. eapply samplewise_all_real; eauto.
  - intros F. f_equal. eapply samplewise_all_fake; eauto.
Qed.

Lemma RandomWeightedAverage_call_convex_witness :
  let img a b := Nested [Nested [Nested [Nested [Scalar a; Scalar b]]]] in
  let self := {| rwa_batch_size := 1 |} in
  length [1 / 2] = rwa_batch_size self
  /\ length [1 / 2] = length (samples_of (img 0 4))
  /\ has_rank 4 (img 0 4) = true
  /\ same_shape (img 0 4) (img 2 2) = true
  /\ Forall (fun a => 0 <= a <= 1) [1 / 2]
  /\ exists out,
       call self [1 / 2] [img 0 4; img 2 2] = Some out
       /\ samplewise interpolated [1 / 2] (samples_of (img 0 4))
                     (samples_of (img 2 2)) (samples_of out)
       /\ (Forall (fun a => a = 1) [1 / 2] -> out = img 0 4)
       /\ (Forall (fun a => a = 0) [1 / 2] -> out = img 2 2).
Proof.
  intros img self.
  assert (Forall (fun a => 0 <= a <= 1) [1 / 2]) as Ha
    by (repeat constructor; lra).
  split; [reflexivity|]. split; [reflexivity|]. split; [reflexivity|].
  split; [reflexivity|]. split; [exact Ha|].
  apply (@RandomWeightedAverage_call_convex self [1 / 2] (img 0 4) (img 2 2));
    try reflexivity. exact Ha.
Defined.

(** *** The generator *)

Lemma generator_step_block (self : config) (i : nat) (x : list layer) :
  (i < n_layers_generator self)%nat ->
  length (generator_upsample self) = n_layers_generator self ->
  length (generator_conv_kernel_size self) = n_layers_generator self ->
  length (generator_conv_strides self) = n_layers_generator self ->
  generator_step self i x = ret (x ++ generator_block self i).
Proof.
  intros Hi Hu Hk Hs. unfold generator_step, generator_block,
    generator_conv, generator_after.
  rewrite (index_nth (generator_upsample self) 0%Z) by lia.
  cbn [bind ret].
  assert ((i <? n_layers_generator self - 1)%nat
          = negb (S i =? n_layers_generator self)%nat) as ->.
  { destruct (Nat.eqb_spec (S i) (n_layers_generator self)); cbn [negb];
      [apply Nat.ltb_ge | apply Nat.ltb_lt]; lia. }
  destruct (nth i (generator_upsample self) 0 =? 2)%Z.
  - rewrite (index_nth (generator_conv_filters self) 0%Z)
      by (unfold n_layers_generator in Hi; lia).
    rewrite (index_nth (generator_conv_kernel_size self) 0%Z) by lia.
    cbn [bind ret].
    destruct (S i =? n_layers_generator self)%nat; cbn [negb];
      [|destruct (truthy (generator_batch_norm_momentum self))];
      unfold ret; rewrite <- ?app_assoc; reflexivity.
  - rewrite (index_nth (generator_conv_filters self) 0%Z)
      by (unfold n_layers_generator in Hi; lia).
    rewrite (index_nth (generator_conv_kernel_size self) 0%Z) by lia.
    rewrite (index_nth (generator_conv_strides self) 0%Z) by lia.
    cbn [bind ret].
    destruct (S i =? n_layers_generator self)%nat; cbn [negb];
      [|destruct (truthy (generator_batch_norm_momentum self))];
      unfold ret; rewrite <- ?app_assoc; reflexivity.
Qed.

Lemma build_generator_blocks (self : config) :
  length (generator_upsample self) = n_layers_generator self ->
  length (generator_conv_kernel_size self) = n_layers_generator self ->
  length (generator_conv_strides self) = n_layers_generator self ->
  _build_generator self
  = ret (generator_stem self
         ++ flat_map (generator_block self)
                     (seq 0 (n_layers_generator self))).
Proof.
  intros Hu Hk Hs. unfold _build_generator.
  rewrite (for_each_blocks (generator_step self) (generator_block self)).
  - f_equal. f_equal. unfold generator_stem.
    destruct (truthy (generator_batch_norm_momentum self));
      destruct (generator_dropout_rate self) as [r|];
      try destruct (truthy (Some r)); simpl; rewrite ?app_nil_r; reflexivity.
  - intros i x Hi. apply in_seq in Hi.
    apply generator_step_block; auto; lia.
Qed.





(** *** The training loop *)

Lemma critic_loop_spec (n : nat) (ug : bool) :
  forall (d : option loss) (st : state),
    events (snd (critic_loop n ug d st))
      = events st ++ repeat (CriticTrainOnBatch (src_of ug)) n
    /\ epoch (snd (critic_loop n ug d st)) = epoch st
    /\ ((0 < n)%nat \/ d <> None -> fst (critic_loop n ug d st) <> None).
Proof.
  induction n as [|n IH]; intros d st; simpl.
  - rewrite app_nil_r. repeat split. intros [H|H]; [lia | assumption].
  - destruct (IH (Some (length (events st)))
                 (emit st [CriticTrainOnBatch (src_of ug)])) as [E [Ep N]].
    fold (src_of ug). unfold loss in *. rewrite E, Ep. simpl. rewrite <- app_assoc. simpl.
    repeat split. intros _. apply N. right. discriminate.
Qed.

Lemma opt_steps_app (a b : list event) :
  opt_steps (a ++ b) = opt_steps a ++ opt_steps b.
Proof. unfold opt_steps. apply flat_map_app. Qed.

Lemma opt_steps_critic (s : batch_source) (n : nat) :
  opt_steps (repeat (CriticTrainOnBatch s) n) = repeat Critic n.
Proof. induction n as [|n IH]; simpl; [reflexivity | now rewrite <- IH]. Qed.

Lemma critic_loops_of_pos (e n_critic : Z) :
  (0 < n_critic)%Z -> (0 < critic_loops_of e n_critic)%Z.
Proof. unfold critic_loops_of. destruct (e mod 100 =? 0)%Z; lia. Qed.

Lemma train_epoch_spec (pe nc : Z) (ug : bool) (e : Z)
    (d : option loss) (st : state) :
  (0 < nc)%Z -> pe <> 0%Z ->
  exists dl st',
    train_epoch pe nc ug e (d, st) = (inr (Some dl), st')
    /\ opt_steps (events st')
       = opt_steps (events st)
         ++ repeat Critic (Z.to_nat (critic_loops_of e nc)) ++ [Generator]
    /\ epoch st' = (epoch st + 1)%Z.
Proof.
  intros Hnc Hpe. unfold train_epoch.
  pose proof (critic_loops_of_pos e Hnc) as Hpos.
  destruct (critic_loop_spec (Z.to_nat (critic_loops_of e nc)) ug d st)
    as [E [Ep N]].
  destruct (critic_loop _ ug d st) as [d1 st1]. simpl in E, Ep, N.
  destruct d1 as [dl|]; [|exfalso; apply N; [left; lia | reflexivity]].
  unfold train_generator.
  apply Z.eqb_neq in Hpe. rewrite Hpe.
  eexists. eexists. split; [reflexivity|].
  destruct (e mod pe =? 0)%Z; simpl; rewrite E, Ep;
    rewrite !opt_steps_app, opt_steps_critic; simpl;
    rewrite ?app_nil_r, <- ?app_assoc; auto.
Qed.

Lemma train_loop_spec (pe nc : Z) (ug : bool) (es : list Z) :
  (0 < nc)%Z -> pe <> 0%Z ->
  forall (d : option loss) (st : state),
  exists st',
    train_loop pe nc ug es (d, st) = (None, st')
    /\ opt_steps (events st')
       = opt_steps (events st)
         ++ steps_per_epoch (fun e => critic_loops_of e nc) es
    /\ epoch st' = (epoch st + Z.of_nat (length es))%Z.
Proof.
  intros Hnc Hpe. induction es as [|e es IH]; intros d st.
  - exists st. simpl. rewrite app_nil_r, Z.add_0_r. auto.
  - destruct (train_epoch_spec ug e d st Hnc Hpe) as [dl [st1 [E [O Ep]]]].
    destruct (IH (Some dl) st1) as [st2 [E2 [O2 Ep2]]].
    exists st2. cbn [train_loop]. rewrite E, E2. split; [reflexivity|].
    split.
    + rewrite O2, O. cbn [steps_per_epoch flat_map].
      rewrite <- !app_assoc. reflexivity.
    + rewrite Ep2, Ep. cbn [length]. lia.
Qed.

(** C2, as the claim states it, fails: a fresh model trained for one
    epoch with [n_critic = 1] trains the critic five times, not once. *)
Lemma train_first_epoch_ignores_n_critic :
  opt_steps (events (snd (train fresh 1 10 1 false)))
    = [Critic; Critic; Critic; Critic; Critic; Generator]
  /\ opt_steps (events (snd (train fresh 1 10 1 false)))
     <> steps_per_epoch (fun _ => 1%Z) (zrange 0 1).
Proof.
  split; [reflexivity | discriminate].
Qed.

(** C2, amended. With a positive [n_critic] and a non-zero
    [print_every_n_batches], [train] finishes, and its optimisation steps
    are, epoch after epoch, [critic_loops] critic steps followed by one
    generator step, where [critic_loops] is 5 in an epoch whose number is a
    multiple of 100 and [n_critic] in every other epoch; [self.epoch]
    advances by the number of epochs run. *)
Theorem train_critic_loops_then_generator
    (st : state) (epochs print_every_n_batches n_critic : Z)
    (using_generator : bool) :
  (0 < n_critic)%Z -> print_every_n_batches <> 0%Z ->
  exists st',
    train st epochs print_every_n_batches n_critic using_generator
      = (None, st')
    /\ opt_steps (events st')
       = opt_steps (events st)
         ++ steps_per_epoch (fun e => if (e mod 100 =? 0)%Z then 5%Z
                                      else n_critic)
                            (zrange (epoch st) epochs)
    /\ epoch st' = (epoch st + Z.max 0 epochs)%Z.
Proof.
  intros Hnc Hpe. unfold train.
  destruct (train_loop_spec using_generator (zrange (epoch st) epochs)
              Hnc Hpe None st) as [st' [E [O Ep]]].
  exists st'. repeat split; try assumption.
  rewrite Ep. unfold zrange. rewrite length_map, length_seq. lia.
Qed.

Lemma train_critic_loops_then_generator_witness :
  exists st',
    train fresh 101 10 2 false = (None, st')
    /\ opt_steps (events st')
       = opt_steps (events fresh)
         ++ steps_per_epoch (fun e => if (e mod 100 =? 0)%Z then 5%Z
                                      else 2%Z)
                            (zrange (epoch fresh) 101)
    /\ epoch st' = (epoch fresh + Z.max 0 101)%Z.
Proof.
  apply (@train_critic_loops_then_generator fresh 101 10 2 false);
    [reflexivity | discriminate].
Defined.

End WGANGP_Spec.

(* ================================================================== *)
(** ** Properties of [src/models/AE.py] *)

Module AE_Spec.

Import Tensor Py Keras Reference TensorFacts PyFacts AE.

(** *** The builder *)

Lemma same_length3_agree (a b c : list Z) :
  same_length3 a b c = true <-> lengths_agree a b c.
Proof.
  unfold same_length3, lengths_agree.
  rewrite andb_true_iff, !Nat.eqb_eq. tauto.
Qed.

Lemma encoder_step_block (ef ek es : list Z) (bn dr : bool)
    (i : nat) (x : list layer) :
  lengths_agree ef ek es -> (i < length ef)%nat ->
  encoder_step ef ek es bn dr i x
  = ret (x ++ encoder_block ef ek es bn dr i).
Proof.
  intros [H1 H2] Hi. unfold encoder_step, encoder_block,
    optional_norm_dropout.
  rewrite (index_nth ef 0%Z), (index_nth ek 0%Z), (index_nth es 0%Z)
    by lia.
  cbn [bind ret]. destruct bn, dr; unfold ret;
    rewrite <- ?app_assoc; reflexivity.
Qed.

Lemma decoder_step_block (df dk ds : list Z) (bn dr : bool)
    (i : nat) (x : list layer) :
  lengths_agree df dk ds -> (i < length df)%nat ->
  decoder_step df dk ds bn dr (length df) i x
  = ret (x ++ decoder_block df dk ds bn dr i).
Proof.
  intros [H1 H2] Hi. unfold decoder_step, decoder_block, decoder_after,
    decoder_conv, optional_norm_dropout.
  rewrite (index_nth df 0%Z), (index_nth dk 0%Z), (index_nth ds 0%Z)
    by lia.
  cbn [bind ret].
  assert ((i <? length df - 1)%nat = negb (S i =? length df)%nat) as ->.
  { destruct (Nat.eqb_spec (S i) (length df)); cbn [negb];
      [apply Nat.ltb_ge | apply Nat.ltb_lt]; lia. }
  destruct (S i =? length df)%nat; cbn [negb];
    [|destruct bn, dr]; unfold ret; rewrite <- ?app_assoc; reflexivity.
Qed.

Lemma build_blocks (int_shape : list layer -> list Z) (input_dim : list Z)
    (ef ek es df dk ds : list Z) (z : Z) (bn dr : bool) :
  lengths_agree ef ek es -> lengths_agree df dk ds ->
  let convs := encoder_convs input_dim ef ek es bn dr in
  let enc := convs ++ [Flatten;
                       Dense z (Some "encoder_output"%string) DefaultInit] in
  let dec := decoder_stem z (int_shape convs)
             ++ flat_map (decoder_block df dk ds bn dr)
                         (seq 0 (length df)) in
  _build int_shape input_dim ef ek es df dk ds z bn dr
         (length ef) (length df)
  = ret (enc, dec, enc ++ tl dec).
Proof.
  intros He Hd convs enc dec. unfold _build, build_encoder, build_decoder.
  rewrite (for_each_blocks (encoder_step ef ek es bn dr)
                           (encoder_block ef ek es bn dr))
    by (intros i x Hi; apply in_seq in Hi;
        apply encoder_step_block; [assumption | lia]).
  cbn [bind ret].
  rewrite (for_each_blocks (decoder_step df dk ds bn dr (length df))
                           (decoder_block df dk ds bn dr))
    by (intros i x Hi; apply in_seq in Hi;
        apply decoder_step_block; [assumption | lia]).
  cbn [bind ret]. unfold ret, enc, dec, convs, encoder_convs, decoder_stem.
  rewrite <- !app_assoc. reflexivity.
Qed.

Lemma init_builds (int_shape : list layer -> list Z) (input_dim : list Z)
    (ef ek es df dk ds : list Z) (z : Z) (bn dr : bool) :
  lengths_agree ef ek es -> lengths_agree df dk ds ->
  exists self,
    __init__ int_shape input_dim ef ek es df dk ds z bn dr = inr self
    /\ n_layers_encoder self = length ef
    /\ n_layers_decoder self = length df
    /\ z_dim self = z
    /\ encoder self
       = encoder_convs input_dim ef ek es bn dr
         ++ [Flatten; Dense z (Some "encoder_output"%string) DefaultInit]
    /\ decoder self
       = decoder_stem z (int_shape (encoder_convs input_dim ef ek es bn dr))
         ++ flat_map (decoder_block df dk ds bn dr) (seq 0 (length df)).
Proof.
  intros He Hd. unfold __init__.
  rewrite (proj2 (same_length3_agree ef ek es) He).
  rewrite (proj2 (same_length3_agree df dk ds) Hd).
  cbn [negb]. rewrite (build_blocks int_shape input_dim z bn dr He Hd).
  cbn [bind ret]. eexists. split; [reflexivity|]. cbn. auto.
Qed.

(** *** The constructor over a framework that may refuse *)

Lemma outcome_bind {A B} (P : exn -> Prop) (Q : A -> Prop) (Q' : B -> Prop)
    (m : result A) (k : A -> result B) :
  AE_Checked.outcome P Q m ->
  (forall a, Q a -> AE_Checked.outcome P Q' (k a)) ->
  AE_Checked.outcome P Q' (bind m k).
Proof. destruct m as [e|a]; cbn; auto. Qed.

Lemma outcome_weaken {A} (P : exn -> Prop) (Q Q' : A -> Prop)
    (r : result A) :
  AE_Checked.outcome P Q r -> (forall a, Q a -> Q' a) ->
  AE_Checked.outcome P Q' r.
Proof. destruct r as [e|a]; cbn; auto. Qed.

Lemma call_outcome (fw : AE_Checked.framework) (x : list layer) (l : layer) :
  AE_Checked.outcome (AE_Checked.from_framework fw)
    (fun y => y = x ++ [l]) (AE_Checked.call fw x l).
Proof.
  unfold AE_Checked.call.
  destruct (AE_Checked.layer_refused fw x l) as [e|] eqn:E; cbn;
    [eapply AE_Checked.from_layer; eassumption | reflexivity].
Qed.

Lemma Model_outcome (fw : AE_Checked.framework) (x : list layer) :
  AE_Checked.outcome (AE_Checked.from_framework fw)
    (fun y => y = x) (AE_Checked.Model fw x).
Proof.
  unfold AE_Checked.Model.
  destruct (AE_Checked.model_refused fw x) as [e|] eqn:E; cbn;
    [eapply AE_Checked.from_Model; eassumption | reflexivity].
Qed.

Lemma call_model_outcome (fw : AE_Checked.framework) (m x : list layer) :
  AE_Checked.outcome (AE_Checked.from_framework fw)
    (fun y => y = x ++ tl m) (AE_Checked.call_model fw m x).
Proof.
  unfold AE_Checked.call_model.
  destruct (AE_Checked.model_call_refused fw m x) as [e|] eqn:E; cbn;
    [eapply AE_Checked.from_model_call; eassumption | reflexivity].
Qed.

Lemma summary_outcome (fw : AE_Checked.framework) (m : list layer) :
  AE_Checked.outcome (AE_Checked.from_framework fw)
    (fun _ => True) (AE_Checked.summary fw m).
Proof.
  unfold AE_Checked.summary.
  destruct (AE_Checked.summary_refused fw m) as [e|] eqn:E; cbn;
    [eapply AE_Checked.from_summary; eassumption | exact I].
Qed.

Lemma int_shape_outcome (fw : AE_Checked.framework) (x : list layer) :
  AE_Checked.outcome (AE_Checked.from_framework fw)
    (fun s => AE_Checked.int_shape fw x = inr s) (AE_Checked.int_shape fw x).
Proof.
  destruct (AE_Checked.int_shape fw x) as [e|s] eqn:E; cbn;
    [eapply AE_Checked.from_int_shape; eassumption | reflexivity].
Qed.

Lemma np_prod_outcome (fw : AE_Checked.framework) (s : list Z) :
  AE_Checked.outcome (AE_Checked.from_framework fw)
    (fun u => AE_Checked.np_prod fw s = inr u) (AE_Checked.np_prod fw s).
Proof.
  destruct (AE_Checked.np_prod fw s) as [e|u] eqn:E; cbn;
    [eapply AE_Checked.from_np_prod; eassumption | reflexivity].
Qed.

(** A loop whose every pass raises within [P] or appends its block
    raises within [P] or builds the stem followed by the blocks. *)
Lemma for_each_outcome {A} (P : exn -> Prop)
    (body : nat -> list A -> result (list A))
    (block : nat -> list A) (idx : list nat) :
  (forall i x, In i idx ->
     AE_Checked.outcome P (fun y => y = x ++ block i) (body i x)) ->
  forall x,
    AE_Checked.outcome P (fun y => y = x ++ flat_map block idx)
      (for_each idx body x).
Proof.
  induction idx as [|i idx IH]; intros H x; simpl.
  - cbn. now rewrite app_nil_r.
  - eapply outcome_bind; [apply H; now left|].
    intros y ->. eapply outcome_weaken.
    + apply IH. intros j u Hj. apply H. now right.
    + cbn beta. intros z ->. now rewrite <- app_assoc.
Qed.

Ltac outcome_step :=
  cbn [bind ret];
  lazymatch goal with
  | |- AE_Checked.outcome _ _ (bind (AE_Checked.call _ _ _) _) =>
      eapply outcome_bind; [apply call_outcome | intros ? ->]
  | |- AE_Checked.outcome _ _ (AE_Checked.call _ _ _) =>
      eapply outcome_weaken;
      [apply call_outcome
      | intros ? ->; rewrite <- ?app_assoc; cbn [app];
        rewrite ?app_nil_r; reflexivity]
  | |- AE_Checked.outcome _ _ (ret _) =>
      unfold ret, AE_Checked.outcome; rewrite <- ?app_assoc; cbn [app];
      rewrite ?app_nil_r; reflexivity
  end.

Lemma checked_encoder_step (fw : AE_Checked.framework)
    (ef ek es : list Z) (bn dr : bool) (i : nat) (x : list layer) :
  lengths_agree ef ek es -> (i < length ef)%nat ->
  AE_Checked.outcome (AE_Checked.from_framework fw)
    (fun y => y = x ++ encoder_block ef ek es bn dr i)
    (AE_Checked.encoder_step fw ef ek es bn dr i x).
Proof.
  intros [H1 H2] Hi.
  unfold AE_Checked.encoder_step, encoder_block, optional_norm_dropout.
  rewrite (index_nth ef 0%Z), (index_nth ek 0%Z), (index_nth es 0%Z)
    by lia.
  destruct bn, dr; repeat outcome_step.
Qed.

Lemma checked_decoder_step (fw : AE_Checked.framework)
    (df dk ds : list Z) (bn dr : bool) (i : nat) (x : list layer) :
  lengths_agree df dk ds -> (i < length df)%nat ->
  AE_Checked.outcome (AE_Checked.from_framework fw)
    (fun y => y = x ++ decoder_block df dk ds bn dr i)
    (AE_Checked.decoder_step fw df dk ds bn dr (length df) i x).
Proof.
  intros [H1 H2] Hi.
  unfold AE_Checked.decoder_step, decoder_block, decoder_after,
    decoder_conv, optional_norm_dropout.
  rewrite (index_nth df 0%Z), (index_nth dk 0%Z), (index_nth ds 0%Z)
    by lia.
  assert ((i <? length df - 1)%nat = negb (S i =? length df)%nat) as ->.
  { destruct (Nat.eqb_spec (S i) (length df)); cbn [negb];
      [apply Nat.ltb_ge | apply Nat.ltb_lt]; lia. }
  destruct (S i =? length df)%nat; cbn [negb];
    [|destruct bn, dr]; repeat outcome_step.
Qed.

Lemma checked_build_encoder (fw : AE_Checked.framework) (input_dim : list Z)
    (ef ek es : list Z) (z : Z) (bn dr : bool) :
  lengths_agree ef ek es ->
  AE_Checked.outcome (AE_Checked.from_framework fw)
    (fun built =>
       fst built
       = encoder_convs input_dim ef ek es bn dr
         ++ [Flatten; Dense z (Some "encoder_output"%string) DefaultInit]
       /\ AE_Checked.int_shape fw (encoder_convs input_dim ef ek es bn dr)
          = inr (snd built))
    (AE_Checked.build_encoder fw input_dim ef ek es z bn dr (length ef)).
Proof.
  intros He. unfold AE_Checked.build_encoder.
  eapply outcome_bind; [apply call_outcome | intros ? ->].
  eapply outcome_bind.
  { apply (for_each_outcome (AE_Checked.from_framework fw)
             (AE_Checked.encoder_step fw ef ek es bn dr)
             (encoder_block ef ek es bn dr)).
    intros i x Hi. apply in_seq in Hi.
    apply checked_encoder_step; [assumption | lia]. }
  intros ? ->.
  eapply outcome_bind; [apply int_shape_outcome | intros shape Hs].
  eapply outcome_bind; [apply call_outcome | intros ? ->].
  eapply outcome_bind; [apply call_outcome | intros ? ->].
  eapply outcome_bind; [apply Model_outcome | intros ? ->].
  cbn. split; [|exact Hs].
  unfold encoder_convs. cbn [app]. rewrite <- !app_assoc. reflexivity.
Qed.

Lemma checked_build_decoder (fw : AE_Checked.framework)
    (df dk ds : list Z) (z : Z) (bn dr : bool) (shape : list Z) :
  lengths_agree df dk ds ->
  AE_Checked.outcome (AE_Checked.from_framework fw)
    (fun dec =>
       exists units,
         AE_Checked.np_prod fw shape = inr units
         /\ dec = [Input [z] (Some "decoder_input"%string);
                   Dense units None DefaultInit;
                   Reshape shape]
                  ++ flat_map (decoder_block df dk ds bn dr)
                              (seq 0 (length df)))
    (AE_Checked.build_decoder fw df dk ds z bn dr (length df) shape).
Proof.
  intros Hd. unfold AE_Checked.build_decoder.
  eapply outcome_bind; [apply call_outcome | intros ? ->].
  eapply outcome_bind; [apply np_prod_outcome | intros units Hu].
  eapply outcome_bind; [apply call_outcome | intros ? ->].
  eapply outcome_bind; [apply call_outcome | intros ? ->].
  eapply outcome_bind.
  { apply (for_each_outcome (AE_Checked.from_framework fw)
             (AE_Checked.decoder_step fw df dk ds bn dr (length df))
             (decoder_block df dk ds bn dr)).
    intros i x Hi. apply in_seq in Hi.
    apply checked_decoder_step; [assumption | lia]. }
  intros ? ->.
  eapply outcome_weaken; [apply Model_outcome|].
  cbn beta. intros ? ->. exists units. split; [exact Hu|]. reflexivity.
Qed.

Lemma checked_build (fw : AE_Checked.framework) (input_dim : list Z)
    (ef ek es df dk ds : list Z) (z : Z) (bn dr : bool) :
  lengths_agree ef ek es -> lengths_agree df dk ds ->
  AE_Checked.outcome (AE_Checked.from_framework fw)
    (fun built =>
       let convs := encoder_convs input_dim ef ek es bn dr in
       fst (fst built)
       = convs ++ [Flatten;
                   Dense z (Some "encoder_output"%string) DefaultInit]
       /\ (exists shape units,
              AE_Checked.int_shape fw convs = inr shape
              /\ AE_Checked.np_prod fw shape = inr units
              /\ snd (fst built)
                 = [Input [z] (Some "decoder_input"%string);
                    Dense units None DefaultInit;
                    Reshape shape]
                   ++ flat_map (decoder_block df dk ds bn dr)
                               (seq 0 (length df)))
       /\ snd built = fst (fst built) ++ tl (snd (fst built)))
    (AE_Checked._build fw input_dim ef ek es df dk ds z bn dr
                       (length ef) (length df)).
Proof.
  intros He Hd. unfold AE_Checked._build.
  eapply outcome_bind;
    [apply (checked_build_encoder fw input_dim z bn dr He)|].
  intros [enc shape] [Henc Hs]. cbn [fst snd] in Henc, Hs.
  eapply outcome_bind;
    [apply (checked_build_decoder fw z bn dr shape Hd)|].
  intros dec [units [Hu Hdec]].
  eapply outcome_bind; [apply call_model_outcome | intros ? ->].
  eapply outcome_bind; [apply Model_outcome | intros ? ->].
  eapply outcome_bind; [apply summary_outcome | intros _ _].
  cbn. split; [exact Henc|]. split; [|reflexivity].
  exists shape, units. auto.
Qed.

(** With a framework that refuses nothing, the constructor is the one of
    [AE]. *)
Lemma checked_init_when_nothing_refused
    (shape_of : list layer -> list Z) (input_dim : list Z)
    (ef ek es df dk ds : list Z) (z : Z) (bn dr : bool) :
  AE_Checked.__init__ (AE_Checked.nothing_refused shape_of)
                      input_dim ef ek es df dk ds z bn dr
  = __init__ shape_of input_dim ef ek es df dk ds z bn dr.
Proof.
  unfold AE_Checked.__init__, __init__.
  destruct (same_length3 ef ek es) eqn:He; cbn [negb]; [|reflexivity].
  destruct (same_length3 df dk ds) eqn:Hd; cbn [negb]; [|reflexivity].
  apply same_length3_agree in He, Hd.
  rewrite (build_blocks shape_of input_dim z bn dr He Hd).
  pose proof (checked_build (AE_Checked.nothing_refused shape_of)
                input_dim z bn dr He Hd) as H.
  destruct (AE_Checked._build _ _ _ _ _ _ _ _ _ _ _ _ _)
    as [e|[[enc dec] full]]; cbn in H.
  - destruct H; discriminate.
  - destruct H as [-> [[shape [units [[= <-] [[= <-] ->]]]] ->]].
    reflexivity.
Qed.

(** C9. Over a framework that may refuse any of its calls:

    - when [__init__] returns, the three encoder lists have one length
      and so have the three decoder lists, [n_layers_encoder] and
      [n_layers_decoder] are these lengths, and [_build] has run: the
      encoder, the decoder and the full model are the configured layer
      sequences;
    - when [__init__] raises, either the encoder lists differ in length
      and the exception is the ValueError of the first check, or they
      agree, the decoder lists differ and it is the ValueError of the
      second check, or all lengths agree and the exception came out of
      the framework (no index into a configuration list failed).

    So the ValueError of the length checks is raised exactly when the
    lengths differ, and with matching lengths the construction proceeds
    as far as the framework lets it. *)
Theorem init_length_check_raises_iff_lengths_differ
    (fw : AE_Checked.framework) (input_dim : list Z)
    (ef ek es df dk ds : list Z) (z : Z) (bn dr : bool) :
  match AE_Checked.__init__ fw input_dim ef ek es df dk ds z bn dr with
  | inr self =>
      lengths_agree ef ek es /\ lengths_agree df dk ds
      /\ n_layers_encoder self = length ef
      /\ n_layers_encoder self = length ek
      /\ n_layers_encoder self = length es
      /\ n_layers_decoder self = length df
      /\ n_layers_decoder self = length dk
      /\ n_layers_decoder self = length ds
      /\ encoder self
         = encoder_convs input_dim ef ek es bn dr
           ++ [Flatten; Dense z (Some "encoder_output"%string) DefaultInit]
      /\ (exists shape units,
             AE_Checked.int_shape fw (encoder_convs input_dim ef ek es bn dr)
             = inr shape
             /\ AE_Checked.np_prod fw shape = inr units
             /\ decoder self
                = [Input [z] (Some "decoder_input"%string);
                   Dense units None DefaultInit;
                   Reshape shape]
                  ++ flat_map (decoder_block df dk ds bn dr)
                              (seq 0 (length df)))
      /\ model self = encoder self ++ tl (decoder self)
  | inl e =>
      (~ lengths_agree ef ek es
       /\ e = ValueError AE_Checked.encoder_message)
      \/ (lengths_agree ef ek es /\ ~ lengths_agree df dk ds
          /\ e = ValueError AE_Checked.decoder_message)
      \/ (lengths_agree ef ek es /\ lengths_agree df dk ds
          /\ AE_Checked.from_framework fw e)
  end.
Proof.
  unfold AE_Checked.__init__.
  destruct (same_length3 ef ek es) eqn:He; cbn [negb].
  - destruct (same_length3 df dk ds) eqn:Hd; cbn [negb].
    + apply same_length3_agree in He, Hd.
      pose proof (checked_build fw input_dim z bn dr He Hd) as H.
      destruct (AE_Checked._build _ _ _ _ _ _ _ _ _ _ _ _ _)
        as [e|[[enc dec] full]]; cbn in H; cbn.
      * right. right. auto.
      * destruct H as [Henc [Hdec Hfull]].
        destruct He as [He1 He2], Hd as [Hd1 Hd2].
        repeat split; try assumption; congruence.
    + apply same_length3_agree in He. cbn. right. left.
      split; [exact He|]. split; [|reflexivity].
      intros H. apply same_length3_agree in H. congruence.
  - cbn. left. split; [|reflexivity].
    intros H. apply same_length3_agree in H. congruence.
Qed.

(** C9, the claim as it was worded fails: a ValueError leaves
    [__init__] although both triples of lists have one length.  With a
    framework that does not construct a convolution whose stride is
    zero, the encoder lists [32], [3], [0] and the decoder lists [1],
    [3], [1] pass both length checks and the exception raised is a
    ValueError that is neither of the two of the length checks. *)
Lemma init_zero_stride_raises_with_equal_lengths :
  lengths_agree [32]%Z [3]%Z [0]%Z
  /\ lengths_agree [1]%Z [3]%Z [1]%Z
  /\ exists msg,
       AE_Checked.__init__ (AE_Checked.strict_strides (fun _ => []))
         [28; 28; 1]%Z [32]%Z [3]%Z [0]%Z [1]%Z [3]%Z [1]%Z 2 false false
       = inl (ValueError msg)
       /\ msg <> AE_Checked.encoder_message
       /\ msg <> AE_Checked.decoder_message.
Proof.
  split; [split; reflexivity|]. split; [split; reflexivity|].
  eexists. split; [reflexivity|]. split; discriminate.
Qed.

(** C6. With configuration lists of one length and at least one decoder
    layer, the decoder ends in its last transposed convolution followed by
    the sigmoid activation, so every entry of the decoder's output lies
    between 0 and 1; every earlier transposed convolution is followed by
    LeakyReLU and the optional batch normalisation and dropout, and by no
    sigmoid. *)
Theorem decoder_sigmoid_last
    (int_shape : list layer -> list Z) (input_dim : list Z)
    (ef ek es df dk ds : list Z) (z : Z) (bn dr : bool)
    (weights : layer -> tensor -> tensor) (x : tensor) :
  lengths_agree ef ek es -> lengths_agree df dk ds ->
  (1 <= length df)%nat ->
  exists self body,
    __init__ int_shape input_dim ef ek es df dk ds z bn dr = inr self
    /\ decoder self
       = body ++ [decoder_conv df dk ds (length df - 1); Activation "sigmoid"]
    /\ body
       = decoder_stem z (int_shape (encoder_convs input_dim ef ek es bn dr))
         ++ flat_map (decoder_block df dk ds bn dr) (seq 0 (length df - 1))
    /\ predict weights (decoder self) x
       = tmap sigmoid
           (predict weights
              (body ++ [decoder_conv df dk ds (length df - 1)]) x)
    /\ Forall (fun v => (0 <= v <= 1)%R)
              (entries (predict weights (decoder self) x))
    /\ (forall i, (i < length df - 1)%nat ->
          decoder_block df dk ds bn dr i
          = [decoder_conv df dk ds i; LeakyReLU None]
            ++ (if bn then [BatchNormalization None] else [])
            ++ (if dr then [Dropout (1 # 4)%Q] else [])
          /\ ~ In (Activation "sigmoid") (decoder_block df dk ds bn dr i)).
Proof.
  intros He Hd Hn.
  destruct (init_builds int_shape input_dim z bn dr He Hd)
    as [self [E [_ [_ [_ [_ D]]]]]].
  set (n := length df) in *.
  set (body := decoder_stem z (int_shape (encoder_convs input_dim ef ek es bn dr))
               ++ flat_map (decoder_block df dk ds bn dr) (seq 0 (n - 1))).
  assert (decoder self
          = body ++ [decoder_conv df dk ds (n - 1); Activation "sigmoid"])
    as D'.
  { rewrite D. unfold body. replace n with (S (n - 1)) at 1 by lia.
    rewrite seq_S, flat_map_app. cbn [flat_map plus].
    rewrite app_nil_r, <- app_assoc. do 2 f_equal.
    unfold decoder_block, decoder_after. fold n.
    replace (S (n - 1)) with n by lia. now rewrite Nat.eqb_refl. }
  assert (forall i, (i < n - 1)%nat ->
            decoder_block df dk ds bn dr i
            = [decoder_conv df dk ds i; LeakyReLU None]
              ++ (if bn then [BatchNormalization None] else [])
              ++ (if dr then [Dropout (1 # 4)%Q] else [])) as B.
  { intros i Hi. unfold decoder_block, decoder_after. fold n.
    destruct (Nat.eqb_spec (S i) n); [lia | reflexivity]. }
  exists self, body. split; [exact E|]. split; [exact D'|].
  split; [reflexivity|].
  assert (predict weights (decoder self) x
          = tmap sigmoid
              (predict weights (body ++ [decoder_conv df dk ds (n - 1)]) x))
    as P.
  { rewrite D'.
    change [decoder_conv df dk ds (n - 1); Activation "sigmoid"]
      with ([decoder_conv df dk ds (n - 1)] ++ [Activation "sigmoid"]).
    rewrite app_assoc, predict_app. reflexivity. }
  split; [exact P|]. split.
  - rewrite P. apply entries_tmap_Forall. intros v.
    pose proof (sigmoid_bounds v). lra.
  - intros i Hi. split; [now apply B|]. rewrite (B i Hi).
    unfold decoder_conv. destruct bn, dr; simpl; intuition discriminate.
Qed.

Lemma decoder_sigmoid_last_witness :
  let int_shape := fun (_ : list layer) => [7; 7; 64]%Z in
  let weights := fun (_ : layer) (t : tensor) => t in
  let x := Nested [Nested [Scalar 0; Scalar 5]] in
  lengths_agree [32; 64]%Z [3; 3]%Z [1; 2]%Z
  /\ lengths_agree [64; 1]%Z [3; 3]%Z [2; 1]%Z
  /\ (1 <= length [64; 1]%Z)%nat
  /\ exists self,
       __init__ int_shape [28; 28; 1]%Z [32; 64]%Z [3; 3]%Z [1; 2]%Z
                [64; 1]%Z [3; 3]%Z [2; 1]%Z 2%Z false true = inr self
       /\ Forall (fun v => (0 <= v <= 1)%R)
                 (entries (predict weights (decoder self) x)).
Proof.
  intros int_shape weights x.
  assert (lengths_agree [32; 64]%Z [3; 3]%Z [1; 2]%Z) as He
    by (split; reflexivity).
  assert (lengths_agree [64; 1]%Z [3; 3]%Z [2; 1]%Z) as Hd
    by (split; reflexivity).
  assert (1 <= length [64; 1]%Z)%nat as Hn by (simpl; lia).
  split; [exact He|]. split; [exact Hd|]. split; [exact Hn|].
  destruct (@decoder_sigmoid_last int_shape [28; 28; 1]%Z
              [32; 64]%Z [3; 3]%Z [1; 2]%Z [64; 1]%Z [3; 3]%Z [2; 1]%Z
              2%Z false true weights x He Hd Hn)
    as [self [body [E [_ [_ [_ [F _]]]]]]].
  exists self. split; assumption.
Defined.

(** *** The reconstruction loss *)

Local Open Scope R_scope.

Example example_autoencoder_built :
  __init__ (fun _ => [2; 2; 1]%Z) [2; 2; 1]%Z [] [] [] [] [] [] 2 false false
  = inr example_autoencoder.
Proof. reflexivity. Qed.

Lemma map_zip_with (g : R -> R) (f : R -> R -> R) (l1 l2 : list R) :
  map g (zip_with f l1 l2) = zip_with (fun x y => g (f x y)) l1 l2.
Proof.
  unfold zip_with. rewrite map_map. apply map_ext. now intros [x y].
Qed.

Lemma length_zip_with (f : R -> R -> R) (l1 l2 : list R) :
  length l1 = length l2 -> length (zip_with f l1 l2) = length l1.
Proof.
  intros H. unfold zip_with. rewrite length_map, length_combine. lia.
Qed.

Lemma sample_mse (t p d : tensor) :
  same_shape t p = true ->
  entries d = zip_with Rminus (entries t) (entries p) ->
  tmean (tmap Rsqr d) = mse t p.
Proof.
  intros H E. unfold tmean, tsum, tcount, mse.
  rewrite entries_tmap, E, map_zip_with.
  rewrite length_zip_with by now apply same_shape_count.
  reflexivity.
Qed.

Lemma batch_squared_error (ts : list tensor) :
  forall ps,
    same_shape (Nested ts) (Nested ps) = true ->
    exists ds,
      tzip Rminus (Nested ts) (Nested ps) = Some (Nested ds)
      /\ same_shape (Nested ts) (Nested ds) = true
      /\ map tmean (map (tmap Rsqr) ds)
         = map (fun '(t, p) => mse t p) (combine ts ps).
Proof.
  induction ts as [|t ts IH]; intros [|p ps] H; try discriminate.
  - exists []. auto.
  - rewrite same_shape_cons in H. apply andb_true_iff in H.
    destruct H as [H1 H2].
    destruct (IH ps H2) as [ds [E [S M]]].
    destruct (tzip_same_shape Rminus _ _ H1) as [d [Ed [Nd Sd]]].
    exists (d :: ds). rewrite tzip_cons, Ed, E.
    split; [reflexivity|]. split.
    + rewrite same_shape_cons, Sd, S. reflexivity.
    + cbn [map combine]. rewrite M. f_equal. now apply sample_mse.
Qed.

Lemma r_loss_batch_mse (y_true y_pred : tensor) :
  has_rank 4 y_true = true -> same_shape y_true y_pred = true ->
  r_loss y_true y_pred = Some (batch_mse y_true y_pred).
Proof.
  intros Hr Hs.
  destruct y_true as [x|ts]; [discriminate|].
  destruct y_pred as [y|ps]; [discriminate|].
  destruct (batch_squared_error _ _ Hs) as [ds [E [S M]]].
  unfold r_loss. rewrite E. unfold reduce_mean_axes_1_2_3.
  cbn [tmap].
  assert (has_rank 4 (Nested (map (tmap Rsqr) ds)) = true) as ->.
  { apply has_rank_same_shape with (a := Nested ds);
      [exact (same_shape_tmap Rsqr (Nested ds))|].
    now apply has_rank_same_shape with (a := Nested ts). }
  rewrite M. reflexivity.
Qed.

(** C3. [train] hands [fit] the full model with [x_train] as input and
    as target, [compile] installs [r_loss] as the loss, and on two rank-4
    batches of one shape [r_loss] is, sample by sample, the mean over all
    entries of the sample of the squared difference. *)
Theorem train_fits_input_to_itself_under_mse
    (self : Autoencoder) (learning_rate : R) (x_train : tensor)
    (batch_size epochs : Z) (run_folder : string)
    (print_every_n_batches initial_epoch : Z) (lr_decay : R)
    (y_true y_pred : tensor) :
  has_rank 4 y_true = true ->
  same_shape y_true y_pred = true ->
  (exists call,
     train (compile self learning_rate) x_train batch_size epochs run_folder
           print_every_n_batches initial_epoch lr_decay = inr call
     /\ fit_model call = model self
     /\ fit_x call = x_train
     /\ fit_y call = x_train)
  /\ option_map loss_of (model_compiled (compile self learning_rate))
     = Some r_loss
  /\ r_loss y_true y_pred
     = Some (map (fun '(t, p) =>
                    Rsum (zip_with (fun a b => (a - b) * (a - b))
                                   (entries t) (entries p))
                    / INR (length (entries t)))
                 (combine (samples_of y_true) (samples_of y_pred))).
Proof.
  intros Hr Hs. split; [|split].
  - eexists. split; [reflexivity|]. cbn. auto.
  - reflexivity.
  - now apply r_loss_batch_mse.
Qed.

Lemma train_fits_input_to_itself_under_mse_witness :
  let img a b c d :=
    Nested [Nested [Nested [Scalar a; Scalar b];
                    Nested [Scalar c; Scalar d]]] in
  let y_true := Nested [img 0 1 1 0; img 1 1 0 0] in
  let y_pred := Nested [img (1/2) 1 0 0; img 1 0 0 1] in
  has_rank 4 y_true = true
  /\ same_shape y_true y_pred = true
  /\ (exists call,
        train (compile example_autoencoder (1 / 1000)) y_true 32 10 "run"
              100 0 1 = inr call
        /\ fit_x call = y_true /\ fit_y call = y_true)
  /\ r_loss y_true y_pred = Some (batch_mse y_true y_pred).
Proof.
  intros img y_true y_pred.
  split; [reflexivity|]. split; [reflexivity|].
  destruct (@train_fits_input_to_itself_under_mse
              example_autoencoder (1 / 1000) y_true 32 10 "run" 100 0 1
              y_true y_pred eq_refl eq_refl)
    as [[call [E [_ [X Y]]]] [_ L]].
  split; [exists call; auto | exact L].
Defined.

(** *** The learning-rate schedule *)





End AE_Spec.

(* ================================================================== *)
(** ** The latent dimension in both models *)

Module Latent_Spec.

Import Tensor Py Keras Reference.

(** C8. The [z_dim] given to each constructor is the number of units
    of the encoder's final dense layer, the shape of the decoder's input
    and the shape of the generator's input. *)
Theorem z_dim_is_latent_size
    (int_shape : list layer -> list Z) (input_dim : list Z)
    (ef ek es df dk ds : list Z) (z : Z) (bn dr : bool)
    (gan : WGANGP.config) :
  lengths_agree ef ek es ->
  lengths_agree df dk ds ->
  length (WGANGP.generator_upsample gan) = WGANGP.n_layers_generator gan ->
  length (WGANGP.generator_conv_kernel_size gan)
    = WGANGP.n_layers_generator gan ->
  length (WGANGP.generator_conv_strides gan)
    = WGANGP.n_layers_generator gan ->
  exists autoencoder generator,
    AE.__init__ int_shape input_dim ef ek es df dk ds z bn dr
      = inr autoencoder
    /\ AE.z_dim autoencoder = z
    /\ last (AE.encoder autoencoder) Flatten
       = Dense z (Some "encoder_output"%string) DefaultInit
    /\ hd_error (AE.decoder autoencoder)
       = Some (Input [z] (Some "decoder_input"%string))
    /\ WGANGP._build_generator gan = inr generator
    /\ hd_error generator
       = Some (Input [WGANGP.z_dim gan] (Some "generator_input"%string)).
Proof.
  intros He Hd Hu Hk Hs.
  destruct (AE_Spec.init_builds int_shape input_dim z bn dr He Hd)
    as [self [E [_ [_ [Z [En De]]]]]].
  exists self. eexists.
  split; [exact E|]. split; [exact Z|]. split; [|split; [|split]].
  - rewrite En.
    change [Flatten; Dense z (Some "encoder_output"%string) DefaultInit]
      with ([Flatten]
            ++ [Dense z (Some "encoder_output"%string) DefaultInit]).
    rewrite app_assoc. apply last_last.
  - rewrite De. reflexivity.
  - apply WGANGP_Spec.build_generator_blocks; assumption.
  - reflexivity.
Qed.

Lemma z_dim_is_latent_size_witness :
  let int_shape := fun (_ : list layer) => [7; 7; 64]%Z in
  lengths_agree [32; 64]%Z [3; 3]%Z [1; 2]%Z
  /\ lengths_agree [64; 1]%Z [3; 3]%Z [2; 1]%Z
  /\ length (WGANGP.generator_upsample example_config)
     = WGANGP.n_layers_generator example_config
  /\ length (WGANGP.generator_conv_kernel_size example_config)
     = WGANGP.n_layers_generator example_config
  /\ length (WGANGP.generator_conv_strides example_config)
     = WGANGP.n_layers_generator example_config
  /\ exists autoencoder generator,
       AE.__init__ int_shape [28; 28; 1]%Z [32; 64]%Z [3; 3]%Z [1; 2]%Z
                   [64; 1]%Z [3; 3]%Z [2; 1]%Z 2%Z false true
         = inr autoencoder
       /\ last (AE.encoder autoencoder) Flatten
          = Dense 2 (Some "encoder_output"%string) DefaultInit
       /\ hd_error (AE.decoder autoencoder)
          = Some (Input [2%Z] (Some "decoder_input"%string))
       /\ WGANGP._build_generator example_config = inr generator
       /\ hd_error generator
          = Some (Input [100%Z] (Some "generator_input"%string)).
Proof.
  intros int_shape.
  assert (lengths_agree [32; 64]%Z [3; 3]%Z [1; 2]%Z) as He
    by (split; reflexivity).
  assert (lengths_agree [64; 1]%Z [3; 3]%Z [2; 1]%Z) as Hd
    by (split; reflexivity).
  split; [exact He|]. split; [exact Hd|].
  split; [reflexivity|]. split; [reflexivity|]. split; [reflexivity|].
  destruct (@z_dim_is_latent_size int_shape [28; 28; 1]%Z
              [32; 64]%Z [3; 3]%Z [1; 2]%Z [64; 1]%Z [3; 3]%Z [2; 1]%Z
              2%Z false true example_config He Hd eq_refl eq_refl eq_refl)
    as [a [g [E [_ [L [H [G Hg]]]]]]].
  exists a, g. auto.
Defined.

End Latent_Spec.

(* ================================================================== *)
(** ** Further properties of [src/models/AE.py] *)

Module AE_More.

Import Tensor Py Keras Reference TensorFacts PyFacts AE AE_Params.
Local Open Scope R_scope.

(** *** The learning-rate schedule *)

Lemma schedule_pow (initial_lr decay_factor : R) (step_size e : Z) :
  (0 <= e)%Z -> (0 < step_size)%Z ->
  schedule initial_lr decay_factor step_size e
  = inr (initial_lr * decay_factor ^ Z.to_nat (e / step_size)).
Proof.
  intros He Hs. unfold schedule, floordiv, power.
  assert ((step_size =? 0)%Z = false) as -> by (apply Z.eqb_neq; lia).
  cbn [bind ret]. pose proof (Z.div_pos e step_size He Hs) as Hq.
  assert ((e / step_size <? 0)%Z = false) as -> by (apply Z.ltb_ge; lia).
  cbn [bind ret]. unfold ret. do 2 f_equal.
  destruct (e / step_size)%Z as [|p|p]; simpl; try reflexivity; lia.
Qed.

Lemma pow_le_pow_le1 (d : R) (n m : nat) :
  0 <= d <= 1 -> (n <= m)%nat -> 0 <= d ^ m <= d ^ n.
Proof.
  intros Hd Hnm. replace m with (n + (m - n))%nat by lia.
  induction (m - n)%nat as [|k IH].
  - rewrite Nat.add_0_r. split; [apply pow_le; lra | lra].
  - rewrite Nat.add_succ_r. simpl. destruct IH as [IH1 IH2].
    pose proof (pow_le d n (proj1 Hd)). split; nra.
Qed.

(** X1. With a positive step size, moving [step_size] epochs on
    multiplies the scheduled rate by [decay_factor] once. *)
Theorem schedule_one_step_later
    (initial_lr decay_factor : R) (step_size e : Z) :
  (0 <= e)%Z -> (0 < step_size)%Z ->
  exists v,
    schedule initial_lr decay_factor step_size e = inr v
    /\ schedule initial_lr decay_factor step_size (e + step_size)
       = inr (v * decay_factor).
Proof.
  intros He Hs. eexists. split; [now apply schedule_pow|].
  rewrite schedule_pow by lia. f_equal.
  replace (e + step_size)%Z with (e + 1 * step_size)%Z by lia.
  rewrite Z.div_add by lia.
  pose proof (Z.div_pos e step_size He Hs) as Hq.
  rewrite Z2Nat.inj_add by lia.
  change (Z.to_nat 1) with 1%nat. rewrite pow_add. simpl. lra.
Qed.

Lemma schedule_one_step_later_witness :
  (0 <= 4)%Z /\ (0 < 2)%Z
  /\ exists v,
       schedule (1 / 100) (1 / 2) 2 4 = inr v
       /\ schedule (1 / 100) (1 / 2) 2 (4 + 2) = inr (v * (1 / 2)).
Proof.
  split; [lia|]. split; [lia|].
  apply (@schedule_one_step_later (1 / 100) (1 / 2) 2 4); lia.
Defined.

(** X2. With a non-negative initial rate, a decay factor between 0 and
    1 and a positive step size, the scheduled rate never rises from one
    epoch to a later one, never exceeds the initial rate and never
    becomes negative. *)
Theorem schedule_never_increases
    (initial_lr decay_factor : R) (step_size e e' : Z) :
  0 <= initial_lr -> 0 <= decay_factor <= 1 -> (0 < step_size)%Z ->
  (0 <= e <= e')%Z ->
  exists v v',
    schedule initial_lr decay_factor step_size e = inr v
    /\ schedule initial_lr decay_factor step_size e' = inr v'
    /\ 0 <= v' <= v /\ v <= initial_lr.
Proof.
  intros Hl Hd Hs He. do 2 eexists.
  split; [apply schedule_pow; lia|]. split; [apply schedule_pow; lia|].
  assert (Z.to_nat (e / step_size) <= Z.to_nat (e' / step_size))%nat as Hle.
  { apply Z2Nat.inj_le.
    - apply Z.div_pos; lia.
    - apply Z.div_pos; lia.
    - apply Z.div_le_mono; lia. }
  pose proof (pow_le_pow_le1 Hd Hle) as [H1 H2].
  pose proof (@pow_le_pow_le1 decay_factor 0 (Z.to_nat (e / step_size)) Hd
                ltac:(lia)) as [H3 H4].
  simpl in H4. repeat split; nra.
Qed.

Lemma schedule_never_increases_witness :
  0 <= 1 / 100 /\ 0 <= 1 / 2 <= 1 /\ (0 < 3)%Z /\ (0 <= 2 <= 10)%Z
  /\ exists v v',
       schedule (1 / 100) (1 / 2) 3 2 = inr v
       /\ schedule (1 / 100) (1 / 2) 3 10 = inr v'
       /\ 0 <= v' <= v /\ v <= 1 / 100.
Proof.
  assert (0 <= 1 / 100) as H1 by lra.
  assert (0 <= 1 / 2 <= 1) as H2 by lra.
  split; [exact H1|]. split; [exact H2|]. split; [lia|]. split; [lia|].
  apply (@schedule_never_increases (1 / 100) (1 / 2) 3 2 10 H1 H2); lia.
Defined.

(** X3. [schedule] raises ZeroDivisionError exactly when the step size
    is zero or a zero decay factor is raised to a negative power. *)
Theorem schedule_raises_iff
    (initial_lr decay_factor : R) (step_size e : Z) :
  schedule initial_lr decay_factor step_size e = inl ZeroDivisionError
  <-> step_size = 0%Z
      \/ (decay_factor = 0 /\ (e / step_size < 0)%Z).
Proof.
  unfold schedule, floordiv, power.
  destruct (Z.eqb_spec step_size 0) as [Hs|Hs]; cbn [bind ret raise].
  - split; auto.
  - destruct (Z.ltb_spec (e / step_size) 0) as [Hq|Hq].
    + destruct (Req_dec_T decay_factor 0) as [Hz|Hz]; cbn [bind ret raise].
      * split; auto.
      * split; [discriminate|]. intros [H|[H _]]; contradiction.
    + cbn [bind ret raise]. split; [discriminate|].
      intros [H|[_ H]]; [contradiction | lia].
Qed.

(** *** Construction, compilation and training *)

Lemma init_fields (int_shape : list layer -> list Z) (input_dim : list Z)
    (ef ek es df dk ds : list Z) (z : Z) (bn dr : bool) (self : Autoencoder) :
  __init__ int_shape input_dim ef ek es df dk ds z bn dr = inr self ->
  save_params self = (input_dim, ef, ek, es, df, dk, ds, z, bn, dr)
  /\ learning_rate self = None
  /\ model_compiled self = None.
Proof.
  unfold __init__.
  destruct (same_length3 ef ek es); [|discriminate].
  destruct (same_length3 df dk ds); [|discriminate].
  cbn [negb].
  destruct (_build int_shape input_dim ef ek es df dk ds z bn dr
                   (length ef) (length df)) as [err|[[enc dec] full]];
    [discriminate|].
  cbn [bind ret]. intros [= <-]. auto.
Qed.

(** X4. A freshly constructed autoencoder has no learning rate:
    [train] raises AttributeError when it reads [self.learning_rate],
    before the checkpoint callback is created and before [fit]. *)
Theorem train_needs_compile
    (int_shape : list layer -> list Z) (input_dim : list Z)
    (ef ek es df dk ds : list Z) (z : Z) (bn dr : bool) (self : Autoencoder)
    (x_train : tensor) (batch_size epochs : Z) (run_folder : string)
    (print_every_n_batches initial_epoch : Z) (lr_decay : R) :
  __init__ int_shape input_dim ef ek es df dk ds z bn dr = inr self ->
  train self x_train batch_size epochs run_folder
        print_every_n_batches initial_epoch lr_decay
  = inl AttributeError.
Proof.
  intros H. apply init_fields in H. destruct H as [_ [Hl _]].
  unfold train. rewrite Hl. reflexivity.
Qed.

Lemma train_needs_compile_witness :
  __init__ (fun _ => [2; 2; 1]%Z) [2; 2; 1]%Z [] [] [] [] [] [] 2 false false
  = inr example_autoencoder
  /\ train example_autoencoder (Nested []) 32 10 "run" 100 0 1
     = inl AttributeError.
Proof.
  split; [reflexivity|].
  apply (@train_needs_compile (fun _ => [2; 2; 1]%Z) [2; 2; 1]%Z
           [] [] [] [] [] [] 2%Z false false example_autoencoder
           (Nested []) 32 10 "run" 100 0 1).
  reflexivity.
Defined.

(** X5. The list [save] pickles is the constructor's argument list:
    constructing from the saved parameters of a constructed autoencoder
    gives that autoencoder back, and [compile] does not change what is
    saved. *)
Theorem saved_params_rebuild
    (int_shape : list layer -> list Z) (input_dim : list Z)
    (ef ek es df dk ds : list Z) (z : Z) (bn dr : bool) (self : Autoencoder)
    (lr : R) :
  __init__ int_shape input_dim ef ek es df dk ds z bn dr = inr self ->
  from_params int_shape (save_params self) = inr self
  /\ save_params (compile self lr) = save_params self
  /\ from_params int_shape (save_params (compile self lr)) = inr self.
Proof.
  intros H. destruct (init_fields _ _ _ _ _ _ _ _ _ _ _ H) as [P _].
  assert (from_params int_shape (save_params self) = inr self) as E
    by (rewrite P; exact H).
  split; [exact E|]. split; [reflexivity|]. exact E.
Qed.

Lemma saved_params_rebuild_witness :
  __init__ (fun _ => [2; 2; 1]%Z) [2; 2; 1]%Z [] [] [] [] [] [] 2 false false
  = inr example_autoencoder
  /\ from_params (fun _ => [2; 2; 1]%Z) (save_params example_autoencoder)
     = inr example_autoencoder.
Proof.
  split; [reflexivity|].
  apply (@saved_params_rebuild (fun _ => [2; 2; 1]%Z) [2; 2; 1]%Z
           [] [] [] [] [] [] 2%Z false false example_autoencoder 1).
  reflexivity.
Defined.

(** *** The layers of the two stacks *)

Lemma flat_map_flat_map {A B C} (h : B -> list C) (g : A -> list B)
    (l : list A) :
  flat_map h (flat_map g l) = flat_map (fun i => flat_map h (g i)) l.
Proof.
  induction l as [|x l IH]; simpl; [reflexivity|].
  now rewrite flat_map_app, IH.
Qed.

Lemma flat_map_single {A B} (g : A -> B) (l : list A) :
  flat_map (fun i => [g i]) l = map g l.
Proof. induction l as [|x l IH]; simpl; [reflexivity | now rewrite IH]. Qed.

Lemma settings_by_index (f : list Z) :
  forall k s, length k = length f -> length s = length f ->
  map (fun i => (nth i f 0%Z, nth i k 0%Z, nth i s 0%Z)) (seq 0 (length f))
  = combine (combine f k) s.
Proof.
  induction f as [|a f IH]; intros [|b k] [|c s] Hk Hs;
    simpl in Hk, Hs; try discriminate; [reflexivity|].
  cbn [length seq map combine nth]. f_equal.
  rewrite <- seq_shift, map_map. cbn [nth]. apply IH; lia.
Qed.

Lemma encoder_block_settings (ef ek es : list Z) (bn dr : bool) (i : nat) :
  flat_map conv_settings (encoder_block ef ek es bn dr i)
  = [(nth i ef 0%Z, nth i ek 0%Z, nth i es 0%Z)].
Proof. unfold encoder_block, optional_norm_dropout. now destruct bn, dr. Qed.

Lemma decoder_block_settings (df dk ds : list Z) (bn dr : bool) (i : nat) :
  flat_map conv_settings (decoder_block df dk ds bn dr i)
  = [(nth i df 0%Z, nth i dk 0%Z, nth i ds 0%Z)].
Proof.
  unfold decoder_block, decoder_after, decoder_conv, optional_norm_dropout.
  destruct (S i =? length df)%nat; now destruct bn, dr.
Qed.

(** X6. With configuration lists of one length, the convolutions of
    the encoder are, in order, exactly the configured (filters, kernel
    size, strides) triples, and so are the transposed convolutions of the
    decoder: none is skipped, repeated or reordered. *)
Theorem convolutions_follow_configuration
    (int_shape : list layer -> list Z) (input_dim : list Z)
    (ef ek es df dk ds : list Z) (z : Z) (bn dr : bool) :
  lengths_agree ef ek es -> lengths_agree df dk ds ->
  exists self,
    __init__ int_shape input_dim ef ek es df dk ds z bn dr = inr self
    /\ flat_map conv_settings (encoder self) = combine (combine ef ek) es
    /\ flat_map conv_settings (decoder self) = combine (combine df dk) ds.
Proof.
  intros He Hd.
  destruct (AE_Spec.init_builds int_shape input_dim z bn dr He Hd)
    as [self [E [_ [_ [_ [En De]]]]]].
  exists self. split; [exact E|]. destruct He as [He1 He2], Hd as [Hd1 Hd2].
  split.
  - rewrite En. unfold encoder_convs.
    rewrite !flat_map_app, flat_map_flat_map. cbn [flat_map conv_settings app].
    rewrite app_nil_r.
    rewrite (flat_map_ext _ _ (encoder_block_settings ef ek es bn dr)).
    rewrite flat_map_single. apply settings_by_index; lia.
  - rewrite De. unfold decoder_stem.
    rewrite flat_map_app, flat_map_flat_map. cbn [flat_map conv_settings app].
    rewrite (flat_map_ext _ _ (decoder_block_settings df dk ds bn dr)).
    rewrite flat_map_single. apply settings_by_index; lia.
Qed.

Lemma convolutions_follow_configuration_witness :
  lengths_agree [32; 64]%Z [3; 3]%Z [1; 2]%Z
  /\ lengths_agree [64; 1]%Z [3; 3]%Z [2; 1]%Z
  /\ exists self,
       __init__ (fun _ => [14; 14; 64]%Z) [28; 28; 1]%Z
                [32; 64]%Z [3; 3]%Z [1; 2]%Z
                [64; 1]%Z [3; 3]%Z [2; 1]%Z 2%Z true false = inr self
       /\ flat_map conv_settings (encoder self)
          = [(32, 3, 1); (64, 3, 2)]%Z
       /\ flat_map conv_settings (decoder self)
          = [(64, 3, 2); (1, 3, 1)]%Z.
Proof.
  assert (lengths_agree [32; 64]%Z [3; 3]%Z [1; 2]%Z) as He
    by (split; reflexivity).
  assert (lengths_agree [64; 1]%Z [3; 3]%Z [2; 1]%Z) as Hd
    by (split; reflexivity).
  split; [exact He|]. split; [exact Hd|].
  apply (@convolutions_follow_configuration (fun _ => [14; 14; 64]%Z)
           [28; 28; 1]%Z [32; 64]%Z [3; 3]%Z [1; 2]%Z
           [64; 1]%Z [3; 3]%Z [2; 1]%Z 2%Z true false He Hd).
Defined.

Lemma existsb_flat_map {A B} (f : B -> bool) (g : A -> list B) (l : list A) :
  existsb f (flat_map g l) = existsb (fun i => existsb f (g i)) l.
Proof.
  induction l as [|x l IH]; simpl; [reflexivity|].
  now rewrite existsb_app, IH.
Qed.

Lemma decoder_block_sigmoid (df dk ds : list Z) (bn dr : bool) (i : nat) :
  existsb is_sigmoid (decoder_block df dk ds bn dr i)
  = (S i =? length df)%nat.
Proof.
  unfold decoder_block, decoder_after, decoder_conv, optional_norm_dropout.
  destruct (S i =? length df)%nat; now destruct bn, dr.
Qed.

Lemma encoder_block_sigmoid (ef ek es : list Z) (bn dr : bool) (i : nat) :
  existsb is_sigmoid (encoder_block ef ek es bn dr i) = false.
Proof. unfold encoder_block, optional_norm_dropout. now destruct bn, dr. Qed.

Lemma existsb_pointwise {A} (f g : A -> bool) (l : list A) :
  (forall x, f x = g x) -> existsb f l = existsb g l.
Proof. intros H. induction l as [|x l IH]; simpl; [auto | now rewrite H, IH]. Qed.

Lemma existsb_const_false {A} (l : list A) :
  existsb (fun _ => false) l = false.
Proof. induction l; simpl; auto. Qed.

(** X7. With configuration lists of one length, the decoder contains a
    sigmoid exactly when it has at least one transposed convolution; with
    empty decoder lists the decoder is the dense layer and the reshape
    alone, and its output is not squashed.  The encoder never contains a
    sigmoid. *)
Theorem decoder_has_sigmoid_iff_nonempty
    (int_shape : list layer -> list Z) (input_dim : list Z)
    (ef ek es df dk ds : list Z) (z : Z) (bn dr : bool) :
  lengths_agree ef ek es -> lengths_agree df dk ds ->
  exists self,
    __init__ int_shape input_dim ef ek es df dk ds z bn dr = inr self
    /\ (existsb is_sigmoid (decoder self) = true <-> (1 <= length df)%nat)
    /\ existsb is_sigmoid (encoder self) = false
    /\ (df = [] ->
        decoder self
        = decoder_stem z (int_shape (encoder_convs input_dim ef ek es bn dr))).
Proof.
  intros He Hd.
  destruct (AE_Spec.init_builds int_shape input_dim z bn dr He Hd)
    as [self [E [_ [_ [_ [En De]]]]]].
  exists self. split; [exact E|]. split; [|split].
  - rewrite De. unfold decoder_stem.
    rewrite existsb_app, existsb_flat_map. cbn [existsb is_sigmoid orb].
    rewrite (existsb_pointwise _ _ _ (decoder_block_sigmoid df dk ds bn dr)).
    rewrite existsb_exists. split.
    + intros [i [Hi Hs]]. apply in_seq in Hi. lia.
    + intros Hn. exists (length df - 1)%nat. split.
      * apply in_seq. lia.
      * apply Nat.eqb_eq. lia.
  - rewrite En. unfold encoder_convs.
    rewrite !existsb_app, existsb_flat_map. cbn [existsb is_sigmoid orb].
    rewrite (existsb_pointwise _ _ _ (encoder_block_sigmoid ef ek es bn dr)).
    now rewrite existsb_const_false.
  - intros ->. rewrite De. cbn [length seq flat_map]. now rewrite app_nil_r.
Qed.

Lemma decoder_has_sigmoid_iff_nonempty_witness :
  lengths_agree [] [] [] /\ lengths_agree [] [] []
  /\ exists self,
       __init__ (fun _ => [2; 2; 1]%Z) [2; 2; 1]%Z [] [] [] [] [] [] 2%Z
                false false = inr self
       /\ existsb is_sigmoid (decoder self) = false.
Proof.
  assert (lengths_agree [] [] []) as H by (split; reflexivity).
  split; [exact H|]. split; [exact H|].
  destruct (@decoder_has_sigmoid_iff_nonempty (fun _ => [2; 2; 1]%Z)
              [2; 2; 1]%Z [] [] [] [] [] [] 2%Z false false H H)
    as [self [E [S _]]].
  exists self. split; [exact E|].
  destruct (existsb is_sigmoid (decoder self)); [|reflexivity].
  destruct S as [S _]. specialize (S eq_refl). simpl in S. lia.
Defined.

(** *** Layer names *)

Lemma str_inj (i j : nat) : str i = str j -> i = j.
Proof.
  unfold str. intros H.
  assert (forall n, Nat.to_uint n <> Decimal.Nil) as Hnil.
  { intros n. rewrite <- (Unsigned.of_to n) at 1.
    rewrite Unsigned.to_of. apply unorm_nonnil. }
  apply Unsigned.to_uint_inj.
  pose proof (NilZero.usu _ (Hnil i)) as Hi.
  pose proof (NilZero.usu _ (Hnil j)) as Hj.
  rewrite H in Hi. congruence.
Qed.

Lemma append_inj (p a b : string) :
  (p ++ a)%string = (p ++ b)%string -> a = b.
Proof. induction p as [|c p IH]; simpl; [auto | intros [= H]; auto]. Qed.

Lemma NoDup_map_injective {A B} (f : A -> B) (l : list A) :
  (forall x y, f x = f y -> x = y) -> NoDup l -> NoDup (map f l).
Proof.
  intros Hf. induction 1 as [|x l Hx Hl IH]; simpl; constructor; auto.
  intros H. apply in_map_iff in H. destruct H as [y [E Hy]].
  apply Hf in E. now subst.
Qed.

Lemma NoDup_names (prefix : string) (n : nat) :
  NoDup (map (fun i => (prefix ++ str i)%string) (seq 0 n)).
Proof.
  apply NoDup_map_injective; [|apply seq_NoDup].
  intros i j H. apply str_inj. exact (append_inj _ _ _ H).
Qed.

Lemma encoder_block_names (ef ek es : list Z) (bn dr : bool) (i : nat) :
  layer_names (encoder_block ef ek es bn dr i)
  = [("encoder_conv_" ++ str i)%string].
Proof. unfold encoder_block, optional_norm_dropout. now destruct bn, dr. Qed.

Lemma decoder_block_names (df dk ds : list Z) (bn dr : bool) (i : nat) :
  layer_names (decoder_block df dk ds bn dr i)
  = [("decoder_conv_t_" ++ str i)%string].
Proof.
  unfold decoder_block, decoder_after, decoder_conv, optional_norm_dropout.
  destruct (S i =? length df)%nat; now destruct bn, dr.
Qed.

Lemma encoder_names (input_dim ef ek es : list Z) (bn dr : bool) (z : Z) :
  layer_names (encoder_convs input_dim ef ek es bn dr
               ++ [Flatten; Dense z (Some "encoder_output"%string) DefaultInit])
  = ("encoder_input"
     :: map (fun i => "encoder_conv_" ++ str i) (seq 0 (length ef)))%string
    ++ ["encoder_output"%string].
Proof.
  unfold layer_names, encoder_convs.
  rewrite !flat_map_app, flat_map_flat_map.
  rewrite (flat_map_ext _ _ (encoder_block_names ef ek es bn dr)).
  rewrite flat_map_single. reflexivity.
Qed.

Lemma decoder_names (df dk ds shape : list Z) (bn dr : bool) (z : Z) :
  layer_names (decoder_stem z shape
               ++ flat_map (decoder_block df dk ds bn dr) (seq 0 (length df)))
  = ("decoder_input"
     :: map (fun i => "decoder_conv_t_" ++ str i) (seq 0 (length df)))%string.
Proof.
  unfold layer_names, decoder_stem.
  rewrite flat_map_app, flat_map_flat_map.
  rewrite (flat_map_ext _ _ (decoder_block_names df dk ds bn dr)).
  rewrite flat_map_single. reflexivity.
Qed.

(** X8. With configuration lists of one length, no two layers of the
    encoder are given the same name, no two layers of the decoder are,
    and no name is used in both. *)
Theorem layer_names_are_distinct
    (int_shape : list layer -> list Z) (input_dim : list Z)
    (ef ek es df dk ds : list Z) (z : Z) (bn dr : bool) :
  lengths_agree ef ek es -> lengths_agree df dk ds ->
  exists self,
    __init__ int_shape input_dim ef ek es df dk ds z bn dr = inr self
    /\ NoDup (layer_names (encoder self))
    /\ NoDup (layer_names (decoder self))
    /\ (forall n, In n (layer_names (encoder self)) ->
                  ~ In n (layer_names (decoder self))).
Proof.
  intros He Hd.
  destruct (AE_Spec.init_builds int_shape input_dim z bn dr He Hd)
    as [self [E [_ [_ [_ [En De]]]]]].
  exists self. split; [exact E|].
  rewrite En, De, encoder_names, decoder_names.
  split; [|split].
  - apply NoDup_app.
    + constructor; [|apply NoDup_names].
      intros H. apply in_map_iff in H. destruct H as [i [H _]].
      cbn in H. discriminate.
    + constructor; [intros []|constructor].
    + intros a Ha [<-|[]]. destruct Ha as [H|H]; [discriminate|].
      apply in_map_iff in H. destruct H as [i [H _]].
      cbn in H. discriminate.
  - constructor; [|apply NoDup_names].
    intros H. apply in_map_iff in H. destruct H as [i [H _]].
    cbn in H. discriminate.
  - intros n Hn Hdn.
    assert (exists t, n = String "d" t) as [t ->].
    { destruct Hdn as [<-|H]; [eexists; reflexivity|].
      apply in_map_iff in H. destruct H as [i [<- _]].
      eexists. reflexivity. }
    apply in_app_or in Hn. destruct Hn as [[H|H]|[H|[]]]; try discriminate.
    apply in_map_iff in H. destruct H as [i [H _]]. cbn in H. discriminate.
Qed.

Lemma layer_names_are_distinct_witness :
  lengths_agree [32; 64]%Z [3; 3]%Z [1; 2]%Z
  /\ lengths_agree [64; 1]%Z [3; 3]%Z [2; 1]%Z
  /\ exists self,
       __init__ (fun _ => [14; 14; 64]%Z) [28; 28; 1]%Z
                [32; 64]%Z [3; 3]%Z [1; 2]%Z
                [64; 1]%Z [3; 3]%Z [2; 1]%Z 2%Z true false = inr self
       /\ NoDup (layer_names (encoder self))
       /\ NoDup (layer_names (decoder self)).
Proof.
  assert (lengths_agree [32; 64]%Z [3; 3]%Z [1; 2]%Z) as He
    by (split; reflexivity).
  assert (lengths_agree [64; 1]%Z [3; 3]%Z [2; 1]%Z) as Hd
    by (split; reflexivity).
  split; [exact He|]. split; [exact Hd|].
  destruct (@layer_names_are_distinct (fun _ => [14; 14; 64]%Z)
              [28; 28; 1]%Z [32; 64]%Z [3; 3]%Z [1; 2]%Z
              [64; 1]%Z [3; 3]%Z [2; 1]%Z 2%Z true false He Hd)
    as [self [E [N1 [N2 _]]]].
  exists self. auto.
Defined.

(** *** The reconstruction loss *)

Lemma squares_nonneg (a b : list R) :
  Forall (fun x => 0 <= x) (zip_with (fun x y => (x - y) * (x - y)) a b).
Proof.
  unfold zip_with. apply Forall_forall. intros v Hv.
  apply in_map_iff in Hv. destruct Hv as [[x y] [<- _]].
  apply Rle_0_sqr.
Qed.

Lemma squares_zero_iff (a : list R) :
  forall b, length a = length b ->
  (Forall (fun x => x = 0) (zip_with (fun x y => (x - y) * (x - y)) a b)
   <-> b = a).
Proof.
  unfold zip_with.
  induction a as [|x a IH]; intros [|y b] H; simpl in H; try discriminate.
  - simpl. split; auto.
  - cbn [combine map]. split.
    + intros F. inversion F as [|? ? F1 F2]; subst.
      apply IH in F2; [|lia]. subst. f_equal. nra.
    + intros [= -> ->]. constructor; [nra|]. apply IH; [lia | reflexivity].
Qed.

Lemma mse_nonneg (t p : tensor) : 0 <= mse t p.
Proof.
  unfold mse. pose proof (Rsum_nonneg (squares_nonneg (entries t) (entries p))).
  destruct (entries t) as [|x l] eqn:E.
  - simpl. unfold Rdiv. rewrite Rinv_0. lra.
  - apply Rmult_le_pos; [assumption|].
    left. apply Rinv_0_lt_compat. apply lt_0_INR. simpl; lia.
Qed.

Lemma mse_zero_iff (t p : tensor) :
  same_shape t p = true -> (mse t p = 0 <-> p = t).
Proof.
  intros S. pose proof (same_shape_count _ _ S) as L.
  assert (entries p = entries t <-> p = t) as Heq.
  { split; [|now intros ->]. intros E. symmetry.
    apply same_shape_entries_eq; [assumption | now symmetry]. }
  rewrite <- Heq, <- (squares_zero_iff _ _ L).
  rewrite <- (Rsum_zero_iff (squares_nonneg _ _)).
  unfold mse. destruct (entries t) as [|x l] eqn:E.
  - destruct (entries p); [|discriminate]. simpl. unfold Rdiv.
    rewrite Rinv_0. split; intros; lra.
  - assert (0 < INR (length (x :: l))) as Hn by (apply lt_0_INR; simpl; lia).
    split; intros H.
    + apply (Rmult_eq_compat_r (INR (length (x :: l)))) in H.
      unfold Rdiv in H. rewrite Rmult_assoc, Rinv_l in H; lra.
    + rewrite H. unfold Rdiv. lra.
Qed.

Lemma batch_mse_zero_iff (ts : list tensor) :
  forall ps, same_shape (Nested ts) (Nested ps) = true ->
  (Forall (fun x => x = 0) (map (fun '(t, p) => mse t p) (combine ts ps))
   <-> ps = ts).
Proof.
  induction ts as [|t ts IH]; intros [|p ps] S; try discriminate.
  - simpl. split; auto.
  - rewrite same_shape_cons in S. apply andb_true_iff in S.
    destruct S as [S1 S2]. cbn [combine map]. split.
    + intros F. inversion F as [|? ? F1 F2]; subst.
      apply (@mse_zero_iff t p S1) in F1. apply (IH _ S2) in F2. now subst.
    + intros [= -> ->]. constructor.
      * now apply mse_zero_iff.
      * now apply IH.
Qed.

(** X9. On two rank-4 batches of one shape, [r_loss] returns one value
    per sample, none of them negative, and all of them are zero exactly
    when the prediction equals the target. *)
Theorem r_loss_zero_iff_exact
    (y_true y_pred : tensor) :
  has_rank 4 y_true = true -> same_shape y_true y_pred = true ->
  exists losses,
    r_loss y_true y_pred = Some losses
    /\ length losses = length (samples_of y_true)
    /\ Forall (fun x => 0 <= x) losses
    /\ (Forall (fun x => x = 0) losses <-> y_pred = y_true).
Proof.
  intros Hr Hs. exists (batch_mse y_true y_pred).
  split; [now apply AE_Spec.r_loss_batch_mse|].
  destruct y_true as [x|ts]; [discriminate|].
  destruct y_pred as [y|ps]; [discriminate|].
  unfold batch_mse. cbn [samples_of]. split; [|split].
  - rewrite length_map, length_combine.
    rewrite (same_shape_nested_length _ _ Hs). lia.
  - apply Forall_forall. intros v Hv. apply in_map_iff in Hv.
    destruct Hv as [[t p] [<- _]]. apply mse_nonneg.
  - rewrite (batch_mse_zero_iff _ _ Hs). split; [now intros -> | now intros [= ->]].
Qed.

Lemma r_loss_zero_iff_exact_witness :
  let img a b := Nested [Nested [Nested [Nested [Scalar a; Scalar b]]]] in
  has_rank 4 (img 1 2) = true
  /\ same_shape (img 1 2) (img 1 3) = true
  /\ exists losses,
       r_loss (img 1 2) (img 1 3) = Some losses
       /\ Forall (fun x => 0 <= x) losses.
Proof.
  intros img. split; [reflexivity|]. split; [reflexivity|].
  destruct (@r_loss_zero_iff_exact (img 1 2) (img 1 3) eq_refl eq_refl)
    as [losses [E [_ [F _]]]].
  exists losses. auto.
Defined.

(** *** The checkpoint path *)

Lemma eqb_longer (suffix s : string) :
  (String.length suffix < String.length s)%nat -> String.eqb suffix s = false.
Proof.
  intros H. apply String.eqb_neq. intros ->. lia.
Qed.

Lemma length_append (a b : string) :
  String.length (a ++ b) = (String.length a + String.length b)%nat.
Proof. induction a as [|c a IH]; simpl; [reflexivity | now rewrite IH]. Qed.

Lemma ends_with_append (suffix a b : string) :
  (String.length suffix < String.length b)%nat ->
  ends_with suffix (a ++ b) = ends_with suffix b.
Proof.
  intros H. induction a as [|c a IH]; [reflexivity|].
  cbn [append ends_with]. rewrite eqb_longer; [exact IH|].
  simpl. rewrite length_append. lia.
Qed.

Lemma ends_with_append_true (suffix a b : string) :
  ends_with suffix b = true -> ends_with suffix (a ++ b) = true.
Proof.
  intros H. induction a as [|c a IH]; [exact H|].
  cbn [append ends_with]. rewrite IH. now destruct (String.eqb _ _).
Qed.

(** X26. Whatever the run folder, the path [train] gives to
    ModelCheckpoint ends in [weights/weights.h5]; it never ends in
    [.weights.h5], the ending the comment above that line asks for. *)
Theorem checkpoint_path_ending
    (self : Autoencoder) (lr : R) (x_train : tensor)
    (batch_size epochs : Z) (run_folder : string)
    (print_every_n_batches initial_epoch : Z) (lr_decay : R) :
  exists call path,
    train (compile self lr) x_train batch_size epochs run_folder
          print_every_n_batches initial_epoch lr_decay = inr call
    /\ checkpoint_paths call = [path]
    /\ ends_with "weights/weights.h5" path = true
    /\ ends_with ".weights.h5" path = false.
Proof.
  do 2 eexists. split; [reflexivity|].
  cbn [checkpoint_paths fit_callbacks flat_map app].
  split; [reflexivity|].
  unfold path_join. destruct run_folder as [|c rest]; [split; reflexivity|].
  destruct (ends_with_slash (String c rest)); split;
    try (apply ends_with_append_true; reflexivity);
    rewrite ends_with_append by (simpl; lia); reflexivity.
Qed.

End AE_More.

(* ================================================================== *)
(** ** Further properties of [src/models/WGANGP.py] *)

Module WGANGP_More.

Import Tensor Py Keras Reference TensorFacts PyFacts WGANGP WGANGP_Model.

(** *** The training loop *)

Lemma emit_emit (st : state) (a b : list event) :
  emit (emit st a) b = emit st (a ++ b).
Proof. unfold emit. simpl. now rewrite app_assoc. Qed.

Lemma critic_loop_exact (n : nat) (ug : bool) :
  forall (d : option loss) (st : state),
    (1 <= n)%nat ->
    critic_loop n ug d st
    = (Some (length (events st) + n - 1)%nat,
       emit st (repeat (CriticTrainOnBatch (src_of ug)) n)).
Proof.
  induction n as [|n IH]; intros d st Hn; [lia|].
  cbn [critic_loop]. unfold train_critic. fold (src_of ug).
  destruct n as [|n].
  - cbn [critic_loop repeat]. do 2 f_equal. lia.
  - rewrite IH by lia. rewrite emit_emit. f_equal.
    f_equal. unfold emit. cbn [events]. rewrite length_app. simpl. lia.
Qed.

Lemma train_epoch_indep (pe nc : Z) (ug : bool) (e : Z)
    (d d' : option loss) (st : state) :
  (0 < critic_loops_of e nc)%Z ->
  train_epoch pe nc ug e (d, st) = train_epoch pe nc ug e (d', st).
Proof.
  intros H. unfold train_epoch.
  rewrite !critic_loop_exact by lia. reflexivity.
Qed.

Lemma train_loop_indep (pe nc : Z) (ug : bool) (es : list Z)
    (d d' : option loss) (st : state) :
  (0 < nc)%Z ->
  train_loop pe nc ug es (d, st) = train_loop pe nc ug es (d', st).
Proof.
  intros H. destruct es as [|e es]; [reflexivity|].
  cbn [train_loop].
  now rewrite (@train_epoch_indep pe nc ug e d d' st
                 (@WGANGP_Spec.critic_loops_of_pos e nc H)).
Qed.

Lemma train_loop_app (pe nc : Z) (ug : bool) (l1 l2 : list Z) :
  (0 < nc)%Z ->
  forall (d : option loss) (st : state),
    train_loop pe nc ug (l1 ++ l2) (d, st)
    = match train_loop pe nc ug l1 (d, st) with
      | (Some err, st1) => (Some err, st1)
      | (None, st1) => train_loop pe nc ug l2 (None, st1)
      end.
Proof.
  intros H. induction l1 as [|e l1 IH]; intros d st.
  - cbn [app train_loop snd]. now apply train_loop_indep.
  - cbn [app train_loop].
    destruct (train_epoch pe nc ug e (d, st)) as [[err|d1] st1];
      [reflexivity | apply IH].
Qed.

Lemma seq_offset (a n : nat) :
  seq a n = map (fun i => (a + i)%nat) (seq 0 n).
Proof.
  revert a. induction n as [|n IH]; intros a; [reflexivity|].
  cbn [seq map]. rewrite Nat.add_0_r. f_equal.
  rewrite (IH (S a)), (IH 1%nat), map_map.
  apply map_ext. intros i. lia.
Qed.

Lemma zrange_app (s a b : Z) :
  (0 <= a)%Z -> (0 <= b)%Z ->
  zrange s (a + b) = zrange s a ++ zrange (s + a) b.
Proof.
  intros Ha Hb. unfold zrange.
  rewrite Z2Nat.inj_add, seq_app, map_app by lia. f_equal.
  cbn [plus]. rewrite seq_offset, map_map.
  apply map_ext. intros i. lia.
Qed.

Lemma epoch_events_src (pe nc : Z) (ug : bool) (e : Z) :
  epoch_events pe nc ug e
  = repeat (CriticTrainOnBatch (src_of ug))
           (Z.to_nat (critic_loops_of e nc))
    ++ [GeneratorTrainOnBatch]
    ++ (if (e mod pe =? 0)%Z
        then [SampleImages e; SaveWeights (Some e); SaveWeights None;
              SaveModel]
        else []).
Proof. reflexivity. Qed.

Lemma train_epoch_full (pe nc : Z) (ug : bool) (d : option loss) (st : state) :
  (0 < nc)%Z -> pe <> 0%Z ->
  let n := Z.to_nat (critic_loops_of (epoch st) nc) in
  exists st',
    train_epoch pe nc ug (epoch st) (d, st)
    = (inr (Some (length (events st) + n - 1)%nat), st')
    /\ events st' = events st ++ epoch_events pe nc ug (epoch st)
    /\ epoch st' = (epoch st + 1)%Z
    /\ d_losses st' = d_losses st ++ [(length (events st) + n - 1)%nat]
    /\ g_losses st' = g_losses st ++ [(length (events st) + n)%nat].
Proof.
  intros Hnc Hpe n.
  pose proof (WGANGP_Spec.critic_loops_of_pos (epoch st) Hnc) as Hpos.
  unfold train_epoch. fold n.
  rewrite critic_loop_exact by (unfold n; lia).
  unfold train_generator. apply Z.eqb_neq in Hpe. rewrite Hpe.
  rewrite epoch_events_src. fold n.
  destruct (epoch st mod pe =? 0)%Z; eexists; (split; [reflexivity|]);
    cbn [emit events epoch d_losses g_losses];
    rewrite ?length_app, ?repeat_length, <- ?app_assoc, ?app_nil_r;
    repeat split; reflexivity.
Qed.

Lemma train_loop_full (pe nc : Z) (ug : bool) (k : nat) :
  (0 < nc)%Z -> pe <> 0%Z ->
  forall (d : option loss) (st : state),
  exists st',
    train_loop pe nc ug
               (map (fun i => (epoch st + Z.of_nat i)%Z) (seq 0 k)) (d, st)
    = (None, st')
    /\ events st'
       = events st
         ++ flat_map (epoch_events pe nc ug)
                     (map (fun i => (epoch st + Z.of_nat i)%Z) (seq 0 k))
    /\ epoch st' = (epoch st + Z.of_nat k)%Z
    /\ length (d_losses st') = (length (d_losses st) + k)%nat
    /\ length (g_losses st') = (length (g_losses st) + k)%nat.
Proof.
  intros Hnc Hpe. induction k as [|k IH]; intros d st.
  - exists st. cbn. rewrite app_nil_r, Z.add_0_r, !Nat.add_0_r. auto.
  - cbn [seq map]. rewrite <- seq_shift, map_map.
    replace (epoch st + Z.of_nat 0)%Z with (epoch st) by lia.
    destruct (train_epoch_full ug d st Hnc Hpe) as [st1 [E [Ev [Ep [D G]]]]].
    assert (map (fun i => (epoch st + Z.of_nat (S i))%Z) (seq 0 k)
            = map (fun i => (epoch st1 + Z.of_nat i)%Z) (seq 0 k)) as M
      by (apply map_ext; intros i; rewrite Ep; lia).
    rewrite M.
    destruct (IH (Some (length (events st)
                        + Z.to_nat (critic_loops_of (epoch st) nc) - 1)%nat)
                 st1) as [st2 [E2 [Ev2 [Ep2 [D2 G2]]]]].
    exists st2. cbn [train_loop]. rewrite E, E2.
    split; [reflexivity|]. split; [|split; [|split]].
    + rewrite Ev2, Ev. cbn [flat_map]. now rewrite <- app_assoc.
    + rewrite Ep2, Ep. lia.
    + rewrite D2, D, length_app. simpl. lia.
    + rewrite G2, G, length_app. simpl. lia.
Qed.

(** X10. With a positive [n_critic] and a non-zero
    [print_every_n_batches], the requests [train] makes are, epoch after
    epoch: the critic steps, one generator step and, in the epochs whose
    number is a multiple of [print_every_n_batches] and in no other, the
    sample images and the three saves, numbered with that epoch.  One
    critic loss and one generator loss are recorded per epoch. *)
Theorem train_requests_per_epoch
    (st : state) (epochs print_every_n_batches n_critic : Z)
    (using_generator : bool) :
  (0 < n_critic)%Z -> print_every_n_batches <> 0%Z ->
  exists st',
    train st epochs print_every_n_batches n_critic using_generator
    = (None, st')
    /\ events st'
       = events st
         ++ flat_map (fun e =>
              repeat (CriticTrainOnBatch (if using_generator
                                          then FromIterator else FromArray))
                     (Z.to_nat (if (e mod 100 =? 0)%Z then 5%Z else n_critic))
              ++ [GeneratorTrainOnBatch]
              ++ (if (e mod print_every_n_batches =? 0)%Z
                  then [SampleImages e; SaveWeights (Some e);
                        SaveWeights None; SaveModel]
                  else []))
             (zrange (epoch st) epochs)
    /\ length (d_losses st') = (length (d_losses st) + Z.to_nat epochs)%nat
    /\ length (g_losses st') = (length (g_losses st) + Z.to_nat epochs)%nat.
Proof.
  intros Hnc Hpe. unfold train, zrange.
  destruct (train_loop_full using_generator (Z.to_nat epochs) Hnc Hpe None st)
    as [st' [E [Ev [_ [D G]]]]].
  exists st'. repeat split; assumption.
Qed.

Lemma train_requests_per_epoch_witness :
  (0 < 3)%Z /\ 2%Z <> 0%Z
  /\ exists st',
       train fresh 2 2 3 true = (None, st')
       /\ length (d_losses st') = 2%nat
       /\ length (g_losses st') = 2%nat.
Proof.
  split; [lia|]. split; [discriminate|].
  destruct (@train_requests_per_epoch fresh 2 2 3 true
              ltac:(lia) ltac:(discriminate)) as [st' [E [_ [D G]]]].
  exists st'. auto.
Defined.

(** X11. Training in two calls is training in one: with a positive
    [n_critic] and a non-zero [print_every_n_batches], [train] for [a]
    epochs followed by [train] for [b] epochs leaves the object exactly as
    [train] for [a + b] epochs does. *)
Theorem train_resumes
    (st : state) (a b print_every_n_batches n_critic : Z)
    (using_generator : bool) :
  (0 < n_critic)%Z -> print_every_n_batches <> 0%Z ->
  (0 <= a)%Z -> (0 <= b)%Z ->
  train (snd (train st a print_every_n_batches n_critic using_generator))
        b print_every_n_batches n_critic using_generator
  = train st (a + b) print_every_n_batches n_critic using_generator.
Proof.
  intros Hnc Hpe Ha Hb. unfold train at 2 3.
  rewrite zrange_app, train_loop_app by assumption.
  unfold zrange at 1 2.
  destruct (train_loop_full using_generator (Z.to_nat a) Hnc Hpe None st)
    as [st1 [E [_ [Ep _]]]].
  rewrite E. cbn [snd]. unfold train. rewrite Ep.
  now rewrite Z2Nat.id by lia.
Qed.

Lemma train_resumes_witness :
  (0 < 1)%Z /\ 10%Z <> 0%Z /\ (0 <= 2)%Z /\ (0 <= 3)%Z
  /\ train (snd (train fresh 2 10 1 false)) 3 10 1 false
     = train fresh (2 + 3) 10 1 false.
Proof.
  split; [lia|]. split; [discriminate|]. split; [lia|]. split; [lia|].
  apply (@train_resumes fresh 2 3 10 1 false); (lia || discriminate).
Defined.



Lemma zrange_cons (s n : Z) :
  (1 <= n)%Z -> exists rest, zrange s n = s :: rest.
Proof.
  intros H. unfold zrange.
  destruct (Z.to_nat n) as [|k] eqn:E; [lia|].
  cbn [seq map]. eexists. f_equal. lia.
Qed.

(** X13. With an [n_critic] of zero or less, a call of [train] that
    starts in an epoch whose number is not a multiple of 100 runs no
    critic step, runs one generator step and then stops with
    UnboundLocalError at the report of the critic loss: nothing is recorded
    and [self.epoch] does not advance. *)
Theorem train_without_critic_steps_raises
    (st : state) (epochs print_every_n_batches n_critic : Z)
    (using_generator : bool) :
  (n_critic <= 0)%Z -> (epoch st mod 100 <> 0)%Z -> (1 <= epochs)%Z ->
  train st epochs print_every_n_batches n_critic using_generator
  = (Some UnboundLocalError,
     {| epoch := epoch st;
        d_losses := d_losses st;
        g_losses := g_losses st;
        events := events st ++ [GeneratorTrainOnBatch] |}).
Proof.
  intros Hnc Hm He. unfold train.
  destruct (zrange_cons (epoch st) He) as [rest ->].
  cbn [train_loop]. unfold train_epoch, critic_loops_of.
  apply Z.eqb_neq in Hm. rewrite Hm.
  replace (Z.to_nat n_critic) with 0%nat by lia.
  reflexivity.
Qed.

Lemma train_without_critic_steps_raises_witness :
  let st := {| epoch := 1; d_losses := []; g_losses := []; events := [] |} in
  (0 <= 0)%Z /\ (epoch st mod 100 <> 0)%Z /\ (1 <= 3)%Z
  /\ fst (train st 3 10 0 false) = Some UnboundLocalError.
Proof.
  intros st. split; [lia|].
  assert (epoch st mod 100 <> 0)%Z as Hm by (cbv; discriminate).
  split; [exact Hm|]. split; [lia|].
  rewrite (@train_without_critic_steps_raises st 3 10 0 false
             ltac:(lia) Hm ltac:(lia)).
  reflexivity.
Defined.

(** X14. With [print_every_n_batches] equal to zero, in a call whose
    first epoch runs at least one critic step (a positive [n_critic], or
    an epoch number that is a multiple of 100), [train] stops with
    ZeroDivisionError in that first epoch, after its critic and generator
    steps have run and its two losses have been recorded; [self.epoch]
    does not advance and nothing is saved. *)
Theorem train_zero_print_interval_raises
    (st : state) (epochs n_critic : Z) (using_generator : bool) :
  (0 < n_critic \/ epoch st mod 100 = 0)%Z -> (1 <= epochs)%Z ->
  exists st',
    train st epochs 0 n_critic using_generator
    = (Some ZeroDivisionError, st')
    /\ events st'
       = events st
         ++ repeat (CriticTrainOnBatch (if using_generator then FromIterator
                                        else FromArray))
                   (Z.to_nat (if (epoch st mod 100 =? 0)%Z then 5%Z
                              else n_critic))
         ++ [GeneratorTrainOnBatch]
    /\ epoch st' = epoch st
    /\ length (d_losses st') = S (length (d_losses st))
    /\ length (g_losses st') = S (length (g_losses st)).
Proof.
  intros Hnc He. unfold train.
  destruct (zrange_cons (epoch st) He) as [rest ->].
  assert (0 < critic_loops_of (epoch st) n_critic)%Z as Hpos.
  { unfold critic_loops_of.
    destruct (Z.eqb_spec (epoch st mod 100) 0); lia. }
  cbn [train_loop]. unfold train_epoch.
  rewrite critic_loop_exact by lia.
  unfold train_generator. cbn [Z.eqb].
  eexists. split; [reflexivity|].
  cbn [emit events epoch d_losses g_losses].
  rewrite <- app_assoc, !length_app. simpl.
  repeat split; lia.
Qed.

Lemma train_zero_print_interval_raises_witness :
  (0 < 0 \/ epoch fresh mod 100 = 0)%Z /\ (1 <= 4)%Z
  /\ exists st',
       train fresh 4 0 0 false = (Some ZeroDivisionError, st')
       /\ epoch st' = epoch fresh.
Proof.
  assert (0 < 0 \/ epoch fresh mod 100 = 0)%Z as H by (right; reflexivity).
  split; [exact H|]. split; [lia|].
  destruct (@train_zero_print_interval_raises fresh 4 0 false
              H ltac:(lia)) as [st' [E [_ [Ep _]]]].
  exists st'. auto.
Defined.

(** *** The builders *)

Lemma critic_block_settings (self : config) (i : nat) :
  flat_map AE_Params.conv_settings (critic_block self i)
  = [(nth i (critic_conv_filters self) 0%Z,
      nth i (critic_conv_kernel_size self) 0%Z,
      nth i (critic_conv_strides self) 0%Z)].
Proof.
  unfold critic_block, configured_activation.
  destruct (truthy (critic_batch_norm_momentum self) && (0 <? i)%nat);
    destruct (String.eqb (critic_activation self) "leaky_relu");
    destruct (critic_dropout_rate self) as [r|];
    try destruct (truthy (Some r)); reflexivity.
Qed.

Lemma critic_block_norms (self : config) (i : nat) :
  length (filter is_batch_norm (critic_block self i))
  = if truthy (critic_batch_norm_momentum self) && (0 <? i)%nat
    then 1%nat else 0%nat.
Proof.
  unfold critic_block, configured_activation.
  destruct (truthy (critic_batch_norm_momentum self) && (0 <? i)%nat);
    destruct (String.eqb (critic_activation self) "leaky_relu");
    destruct (critic_dropout_rate self) as [r|];
    try destruct (truthy (Some r)); reflexivity.
Qed.

Lemma critic_norm_count (self : config) (n : nat) :
  length (filter is_batch_norm (flat_map (critic_block self) (seq 0 n)))
  = if truthy (critic_batch_norm_momentum self) then (n - 1)%nat else 0%nat.
Proof.
  induction n as [|n IH].
  - simpl. now destruct (truthy _).
  - rewrite seq_S, flat_map_app, filter_app, length_app, IH.
    cbn [flat_map plus]. rewrite app_nil_r, critic_block_norms.
    destruct (truthy (critic_batch_norm_momentum self)); [|reflexivity].
    cbn [andb]. destruct n as [|n]; simpl; lia.
Qed.

Lemma for_each_passes {A} (body : nat -> A -> result A) (idx : list nat) :
  forall x y, for_each idx body x = inr y ->
  forall i, In i idx -> exists x' z, body i x' = inr z.
Proof.
  induction idx as [|j idx IH]; intros x y H i Hi; [contradiction|].
  simpl in H. destruct (body j x) as [e|z] eqn:E; simpl in H; [discriminate|].
  destruct Hi as [->|Hi]; [eauto | eapply IH; eauto].
Qed.

Lemma critic_step_inv (self : config) (i : nat) (x z : list layer) :
  critic_step self i x = inr z ->
  z = x ++ critic_block self i
  /\ (i < length (critic_conv_kernel_size self))%nat
  /\ (i < length (critic_conv_strides self))%nat.
Proof.
  unfold critic_step, critic_block.
  destruct (index (critic_conv_filters self) i) as [e|f] eqn:Ef;
    [discriminate|].
  destruct (index_inr _ _ 0%Z Ef) as [<- _].
  destruct (index (critic_conv_kernel_size self) i) as [e|k] eqn:Ek;
    [discriminate|].
  destruct (index_inr _ _ 0%Z Ek) as [<- Hk].
  destruct (index (critic_conv_strides self) i) as [e|s0] eqn:Es;
    [discriminate|].
  destruct (index_inr _ _ 0%Z Es) as [<- Hs].
  intros H. split; [|split; assumption]. revert H.
  destruct (truthy (critic_batch_norm_momentum self) && (0 <? i)%nat);
    destruct (critic_dropout_rate self) as [r|];
    try destruct (truthy (Some r));
    cbn [bind ret]; unfold ret; intros [= <-];
    rewrite <- ?app_assoc; cbn [app]; rewrite ?app_nil_r;
    reflexivity.
Qed.

Lemma settings_by_index_le (f : list Z) :
  forall k s, (length f <= length k)%nat -> (length f <= length s)%nat ->
  map (fun i => (nth i f 0%Z, nth i k 0%Z, nth i s 0%Z)) (seq 0 (length f))
  = combine (combine f k) s.
Proof.
  induction f as [|a f IH]; intros [|b k] [|c s] Hk Hs;
    simpl in Hk, Hs; try lia; try reflexivity.
  cbn [length seq map combine nth]. f_equal.
  rewrite <- seq_shift, map_map. cbn [nth]. apply IH; lia.
Qed.

(** X15. Whenever [_build_critic] returns, the critic is the input, one
    block per index, a flatten and a dense layer of one unit; its
    convolutions are, in order, the configured triples; and it holds one
    batch normalisation per block but the first when a momentum is
    configured, none at all otherwise. *)
Theorem build_critic_structure (self : config) (layers : list layer) :
  _build_critic self = inr layers ->
  layers
  = [Input (input_dim self) (Some "critic_input"%string)]
    ++ flat_map (critic_block self) (seq 0 (n_layers_critic self))
    ++ [Flatten; Dense 1 None weight_init]
  /\ flat_map AE_Params.conv_settings layers
     = combine (combine (critic_conv_filters self)
                        (critic_conv_kernel_size self))
               (critic_conv_strides self)
  /\ length (filter is_batch_norm layers)
     = if truthy (critic_batch_norm_momentum self)
       then (n_layers_critic self - 1)%nat else 0%nat.
Proof.
  unfold _build_critic. intros H.
  destruct (for_each (range (n_layers_critic self)) (critic_step self)
              [Input (input_dim self) (Some "critic_input"%string)])
    as [e|y] eqn:E; [discriminate|].
  cbn [bind ret] in H. injection H as <-.
  assert (length (critic_conv_filters self)
          <= length (critic_conv_kernel_size self)
          /\ length (critic_conv_filters self)
             <= length (critic_conv_strides self))%nat as [Hk Hs].
  { destruct (length (critic_conv_filters self)) as [|m] eqn:Em; [lia|].
    destruct (for_each_passes _ _ _ E m) as [x' [z Hz]].
    - unfold range, n_layers_critic. rewrite Em. apply in_seq. lia.
    - apply critic_step_inv in Hz. lia. }
  apply (for_each_blocks_inv (critic_step self) (critic_block self)) in E;
    [|intros i x z _ Hz; now apply critic_step_inv in Hz].
  subst y. split; [now rewrite <- !app_assoc|]. split.
  - rewrite !flat_map_app, AE_More.flat_map_flat_map.
    cbn [flat_map AE_Params.conv_settings app]. rewrite !app_nil_r.
    rewrite (flat_map_ext _ _ (critic_block_settings self)).
    rewrite AE_More.flat_map_single.
    now apply settings_by_index_le.
  - rewrite !filter_app, !length_app, critic_norm_count. simpl. lia.
Qed.

Lemma build_critic_structure_witness :
  let layers :=
    [Input (input_dim example_config) (Some "critic_input"%string)]
    ++ flat_map (critic_block example_config) (seq 0 2)
    ++ [Flatten; Dense 1 None weight_init] in
  _build_critic example_config = inr layers
  /\ flat_map AE_Params.conv_settings layers
     = [(64, 5, 2); (128, 5, 2)]%Z
  /\ length (filter is_batch_norm layers) = 0%nat.
Proof.
  intros layers.
  assert (_build_critic example_config = inr layers) as H by reflexivity.
  split; [exact H|].
  destruct (@build_critic_structure example_config layers H) as [_ [S N]].
  split; [exact S | exact N].
Defined.

Lemma index_cases {A} (l : list A) (i : nat) :
  (exists v, index l i = inr v /\ (i < length l)%nat)
  \/ (index l i = inl IndexError /\ (length l <= i)%nat).
Proof.
  unfold index. destruct (nth_error l i) as [v|] eqn:E.
  - left. exists v. split; [reflexivity|].
    apply nth_error_Some. congruence.
  - right. split; [reflexivity | now apply nth_error_None].
Qed.

Lemma for_each_raises {A} (body : nat -> A -> result A) (idx : list nat)
    (i : nat) :
  (forall j x, (exists y, body j x = inr y) \/ body j x = inl IndexError) ->
  In i idx -> (forall x, body i x = inl IndexError) ->
  forall x, for_each idx body x = inl IndexError.
Proof.
  intros H Hin Hi. induction idx as [|j idx IH]; intros x; [contradiction|].
  simpl. destruct Hin as [->|Hin].
  - now rewrite Hi.
  - destruct (H j x) as [[y E]|E]; rewrite E; simpl; auto.
Qed.

Lemma critic_step_cases (self : config) (i : nat) (x : list layer) :
  (exists y, critic_step self i x = inr y)
  \/ critic_step self i x = inl IndexError.
Proof.
  unfold critic_step.
  destruct (index_cases (critic_conv_filters self) i) as [[f [-> _]]|[-> _]];
    [|now right].
  destruct (index_cases (critic_conv_kernel_size self) i)
    as [[k [-> _]]|[-> _]]; [|now right].
  destruct (index_cases (critic_conv_strides self) i) as [[s0 [-> _]]|[-> _]];
    [|now right].
  left. eexists. reflexivity.
Qed.

Lemma generator_step_cases (self : config) (i : nat) (x : list layer) :
  (exists y, generator_step self i x = inr y)
  \/ generator_step self i x = inl IndexError.
Proof.
  unfold generator_step.
  destruct (index_cases (generator_upsample self) i) as [[u [-> _]]|[-> _]];
    [|now right].
  cbn [bind ret].
  destruct (index_cases (generator_conv_filters self) i)
    as [[f [-> _]]|[-> _]]; [|destruct (u =? 2)%Z; now right].
  destruct (index_cases (generator_conv_kernel_size self) i)
    as [[k [-> _]]|[-> _]]; [|destruct (u =? 2)%Z; now right].
  destruct (u =? 2)%Z.
  - cbn [bind ret]. destruct (i <? n_layers_generator self - 1)%nat;
      left; eexists; reflexivity.
  - destruct (index_cases (generator_conv_strides self) i)
      as [[s0 [-> _]]|[-> _]]; [|now right].
    cbn [bind ret]. destruct (i <? n_layers_generator self - 1)%nat;
      left; eexists; reflexivity.
Qed.

Lemma critic_step_short (self : config) (i : nat) (x : list layer) :
  (length (critic_conv_kernel_size self) <= i)%nat
  \/ (length (critic_conv_strides self) <= i)%nat ->
  critic_step self i x = inl IndexError.
Proof.
  intros H. unfold critic_step.
  destruct (index_cases (critic_conv_filters self) i) as [[f [-> _]]|[-> _]];
    [|reflexivity].
  destruct (index_cases (critic_conv_kernel_size self) i)
    as [[k [-> Hk]]|[-> _]]; [|reflexivity].
  destruct (index_cases (critic_conv_strides self) i)
    as [[s0 [-> Hs]]|[-> _]]; [|reflexivity].
  lia.
Qed.

Lemma generator_step_short (self : config) (i : nat) (x : list layer) :
  (length (generator_upsample self) <= i)%nat
  \/ (length (generator_conv_kernel_size self) <= i)%nat ->
  generator_step self i x = inl IndexError.
Proof.
  intros H. unfold generator_step.
  destruct (index_cases (generator_upsample self) i) as [[u [-> Hu]]|[-> _]];
    [|reflexivity].
  cbn [bind ret].
  destruct (index_cases (generator_conv_filters self) i)
    as [[f [-> _]]|[-> _]]; [|destruct (u =? 2)%Z; reflexivity].
  destruct (index_cases (generator_conv_kernel_size self) i)
    as [[k [-> Hk]]|[-> _]]; [|destruct (u =? 2)%Z; reflexivity].
  lia.
Qed.

(** X16. The WGAN-GP constructor checks no lengths: when the critic's
    kernel-size or strides list is shorter than its filters list,
    [_build_critic] cannot return a critic and [__init__] cannot return
    an object. *)
Theorem short_critic_lists_do_not_build (self : config) :
  (length (critic_conv_kernel_size self) < n_layers_critic self)%nat
  \/ (length (critic_conv_strides self) < n_layers_critic self)%nat ->
  (forall layers, _build_critic self <> inr layers)
  /\ (forall obj, WGANGP_Model.__init__ self <> inr obj).
Proof.
  intros H.
  assert (_build_critic self = inl IndexError) as E.
  { unfold _build_critic.
    assert (exists i, (i < n_layers_critic self)%nat
                      /\ ((length (critic_conv_kernel_size self) <= i)%nat
                          \/ (length (critic_conv_strides self) <= i)%nat))
      as [i [Hi Hs]].
    { destruct H as [H|H]; eexists; split; try exact H; auto. }
    rewrite (@for_each_raises _ (critic_step self) _ i).
    - reflexivity.
    - intros j y. apply critic_step_cases.
    - apply in_seq. lia.
    - intros y. now apply critic_step_short. }
  split; [intros layers; rewrite E; discriminate|].
  intros obj. unfold WGANGP_Model.__init__. rewrite E. discriminate.
Qed.

Lemma short_critic_lists_do_not_build_witness :
  let self :=
    {| input_dim := [28; 28; 1]%Z;
       critic_conv_filters := [64; 128]%Z;
       critic_conv_kernel_size := [5]%Z;
       critic_conv_strides := [2; 2]%Z;
       critic_batch_norm_momentum := None;
       critic_activation := "leaky_relu";
       critic_dropout_rate := None;
       critic_learning_rate := 1;
       generator_initial_dense_layer_size := [7; 7; 64]%Z;
       generator_upsample := [2; 1]%Z;
       generator_conv_filters := [64; 1]%Z;
       generator_conv_kernel_size := [5; 5]%Z;
       generator_conv_strides := [1; 2]%Z;
       generator_batch_norm_momentum := None;
       generator_activation := "relu";
       generator_dropout_rate := None;
       generator_learning_rate := 1;
       optimiser := "adam";
       grad_weight := 10;
       z_dim := 100;
       batch_size := 64 |} in
  ((length (critic_conv_kernel_size self) < n_layers_critic self)%nat
   \/ (length (critic_conv_strides self) < n_layers_critic self)%nat)
  /\ (forall layers, _build_critic self <> inr layers)
  /\ (forall obj, WGANGP_Model.__init__ self <> inr obj).
Proof.
  intros self.
  assert ((length (critic_conv_kernel_size self) < n_layers_critic self)%nat
          \/ (length (critic_conv_strides self) < n_layers_critic self)%nat)
    as H by (left; cbv; lia).
  split; [exact H|].
  apply (@short_critic_lists_do_not_build self H).
Defined.

(** X17. When the generator's upsample or kernel-size list is shorter
    than its filters list, [_build_generator] cannot return a generator
    and [__init__] cannot return an object, whatever the critic's lists
    are. *)
Theorem short_generator_lists_do_not_build (self : config) :
  (length (generator_upsample self) < n_layers_generator self)%nat
  \/ (length (generator_conv_kernel_size self)
      < n_layers_generator self)%nat ->
  (forall layers, _build_generator self <> inr layers)
  /\ (forall obj, WGANGP_Model.__init__ self <> inr obj).
Proof.
  intros H.
  assert (_build_generator self = inl IndexError) as E.
  { unfold _build_generator.
    assert (exists i, (i < n_layers_generator self)%nat
                      /\ ((length (generator_upsample self) <= i)%nat
                          \/ (length (generator_conv_kernel_size self)
                              <= i)%nat))
      as [i [Hi Hs]].
    { destruct H as [H|H]; eexists; split; try exact H; auto. }
    apply (@for_each_raises _ (generator_step self) _ i).
    - intros j y. apply generator_step_cases.
    - apply in_seq. lia.
    - intros y. now apply generator_step_short. }
  split; [intros layers; rewrite E; discriminate|].
  intros obj. unfold WGANGP_Model.__init__.
  destruct (_build_critic self) as [e|c]; cbn [bind ret]; [discriminate|].
  rewrite E. discriminate.
Qed.

Lemma short_generator_lists_do_not_build_witness :
  let self :=
    {| input_dim := [28; 28; 1]%Z;
       critic_conv_filters := [64; 128]%Z;
       critic_conv_kernel_size := [5; 5]%Z;
       critic_conv_strides := [2; 2]%Z;
       critic_batch_norm_momentum := None;
       critic_activation := "leaky_relu";
       critic_dropout_rate := None;
       critic_learning_rate := 1;
       generator_initial_dense_layer_size := [7; 7; 64]%Z;
       generator_upsample := [2]%Z;
       generator_conv_filters := [64; 1]%Z;
       generator_conv_kernel_size := [5; 5]%Z;
       generator_conv_strides := [1; 2]%Z;
       generator_batch_norm_momentum := None;
       generator_activation := "relu";
       generator_dropout_rate := None;
       generator_learning_rate := 1;
       optimiser := "adam";
       grad_weight := 10;
       z_dim := 100;
       batch_size := 64 |} in
  ((length (generator_upsample self) < n_layers_generator self)%nat
   \/ (length (generator_conv_kernel_size self)
       < n_layers_generator self)%nat)
  /\ (forall layers, _build_generator self <> inr layers)
  /\ (forall obj, WGANGP_Model.__init__ self <> inr obj).
Proof.
  intros self.
  assert ((length (generator_upsample self) < n_layers_generator self)%nat
          \/ (length (generator_conv_kernel_size self)
              < n_layers_generator self)%nat)
    as H by (left; cbv; lia).
  split; [exact H|].
  apply (@short_generator_lists_do_not_build self H).
Defined.

(** *** Trainable flags around the two compile calls *)

Lemma set_trainable_flags (m : kmodel) (b : bool) :
  all_flags b (set_trainable m b).
Proof.
  unfold all_flags, set_trainable. cbn [trainable layers].
  split; [reflexivity|]. apply Forall_forall. intros lf H.
  apply in_map_iff in H. destruct H as [[l f] [<- _]]. reflexivity.
Qed.

Lemma set_trainable_layers (m : kmodel) (b : bool) :
  map fst (layers (set_trainable m b)) = map fst (layers m).
Proof.
  unfold set_trainable. cbn [layers]. rewrite map_map.
  apply map_ext. now intros [l f].
Qed.

Lemma set_trainable_twice (m : kmodel) (b b' : bool) :
  set_trainable (set_trainable m b) b' = set_trainable m b'.
Proof.
  unfold set_trainable. cbn [layers]. f_equal. rewrite map_map.
  apply map_ext. now intros [l f].
Qed.

Lemma set_trainable_Model (ls : list layer) :
  set_trainable (Model ls) true = Model ls.
Proof.
  unfold set_trainable, Model. cbn [layers]. f_equal. now rewrite map_map.
Qed.

(** X18. [_build_adversarial] compiles the critic model while the
    generator and all its layers are frozen and the critic is as it was
    passed in; it compiles the generator model while the critic and all
    its layers are frozen and the generator is fully trainable; it returns
    both fully trainable, with the layers they had.  Freshly built models
    come back unchanged. *)
Theorem build_adversarial_freezes_the_other_model
    (self : config) (critic0 generator0 : kmodel) :
  exists critic generator critic_model model,
    _build_adversarial self critic0 generator0
    = (critic, generator, critic_model, model)
    /\ cc_critic critic_model = critic0
    /\ all_flags false (cc_generator critic_model)
    /\ all_flags false (cc_critic model)
    /\ all_flags true (cc_generator model)
    /\ all_flags true critic /\ all_flags true generator
    /\ map fst (layers critic) = map fst (layers critic0)
    /\ map fst (layers generator) = map fst (layers generator0)
    /\ (forall c g, critic0 = Model c -> generator0 = Model g ->
                    critic = Model c /\ generator = Model g).
Proof.
  unfold _build_adversarial. do 4 eexists.
  split; [reflexivity|]. cbn [cc_critic cc_generator].
  repeat split; try apply set_trainable_flags;
    try (cbn [trainable]; reflexivity).
  - now rewrite !set_trainable_layers.
  - now rewrite !set_trainable_layers.
  - subst. now rewrite set_trainable_twice, set_trainable_Model.
  - subst. now rewrite set_trainable_twice, set_trainable_Model.
Qed.

(** *** The batch the critic trains on *)

(** X19. Given two items on the iterator, [train_critic] trains on the
    first one's images when there are [batch_size] of them, and otherwise
    on the second one's, whose size it does not check; so it trains on
    [batch_size] images as soon as one of the two items has that many, and
    it takes one item in the first case and two in the second. *)
Theorem iterator_batch_retries_once {A L : Type}
    (batch_size : nat) (b1 b2 : list A * L) (rest : list (list A * L)) :
  exists imgs rest',
    true_imgs_from_iterator batch_size (b1 :: b2 :: rest) = inr (imgs, rest')
    /\ (length (fst b1) = batch_size -> imgs = fst b1 /\ rest' = b2 :: rest)
    /\ (length (fst b1) <> batch_size -> imgs = fst b2 /\ rest' = rest)
    /\ (length (fst b1) = batch_size \/ length (fst b2) = batch_size ->
        length imgs = batch_size).
Proof.
  unfold true_imgs_from_iterator. cbn [next].
  destruct (Nat.eqb_spec (length (fst b1)) batch_size) as [E|E]; cbn [negb].
  - do 2 eexists. split; [reflexivity|]. repeat split; auto; contradiction.
  - do 2 eexists. split; [reflexivity|].
    repeat split; auto; try contradiction. intros [H|H]; [contradiction|auto].
Qed.

Lemma array_batch_in_range {A : Type} (x_train : list A) (idx : list nat) :
  Forall (fun i => (i < length x_train)%nat) idx ->
  exists imgs,
    true_imgs_from_array x_train idx = inr imgs
    /\ length imgs = length idx
    /\ Forall (fun v => In v x_train) imgs
    /\ map Some imgs = map (nth_error x_train) idx.
Proof.
  induction 1 as [|i idx Hi _ IH].
  - exists []. simpl. auto.
  - destruct IH as [imgs [E [L [F M]]]].
    destruct (nth_error x_train i) as [v|] eqn:Ev;
      [|apply nth_error_None in Ev; lia].
    exists (v :: imgs). cbn [true_imgs_from_array]. rewrite Ev, E.
    split; [reflexivity|]. split; [simpl; lia|]. split.
    + constructor; [eapply nth_error_In; eauto | assumption].
    + cbn [map]. now rewrite Ev, M.
Qed.

(** X20. Without an iterator, for indices drawn below the number of
    training images, the batch has one image per index, each of them the
    training image at that index, which may be picked more than once; an
    index past the end raises. *)
Theorem array_batch_picks_training_images {A : Type}
    (x_train : list A) (idx : list nat) :
  (Forall (fun i => (i < length x_train)%nat) idx ->
   exists imgs,
     true_imgs_from_array x_train idx = inr imgs
     /\ length imgs = length idx
     /\ Forall (fun v => In v x_train) imgs
     /\ map Some imgs = map (nth_error x_train) idx)
  /\ (Exists (fun i => (length x_train <= i)%nat) idx ->
      true_imgs_from_array x_train idx = inl FetchIndexError).
Proof.
  split; [apply array_batch_in_range|].
  induction 1 as [i idx Hi|i idx _ IH].
  - cbn [true_imgs_from_array].
    now rewrite (proj2 (nth_error_None x_train i) Hi).
  - cbn [true_imgs_from_array]. rewrite IH.
    now destruct (nth_error x_train i).
Qed.

(** X21. The interpolation layer is built for [self.batch_size]
    samples: on a rank-4 batch with another number of samples, both
    numbers being at least two, the product of the draw with the batch
    cannot be broadcast and [call] fails, whatever the draw is. *)
Theorem RandomWeightedAverage_needs_its_batch_size
    (self : RandomWeightedAverage) (alpha : list R) (real fake : tensor) :
  has_rank 4 real = true ->
  (2 <= rwa_batch_size self)%nat ->
  (2 <= length (samples_of real))%nat ->
  length (samples_of real) <> rwa_batch_size self ->
  call self alpha [real; fake] = None.
Proof.
  intros Hrank Hb Hr Hne. unfold call.
  destruct (Nat.eqb_spec (length alpha) (rwa_batch_size self)) as [E|E];
    cbn [negb]; [|reflexivity].
  cbn [nth_error].
  assert (broadcast_mul alpha real = None) as ->; [|reflexivity].
  unfold broadcast_mul. destruct real as [x|samples]; [reflexivity|].
  cbn [samples_of] in *. rewrite Hrank. cbn [negb].
  destruct (Nat.eqb_spec (length alpha) (length samples)) as [E'|E'];
    [lia|].
  destruct alpha as [|a [|a' alpha]]; simpl in E; try lia.
  destruct samples as [|s0 [|s1 samples]]; simpl in Hr; try lia.
  reflexivity.
Qed.

Lemma RandomWeightedAverage_needs_its_batch_size_witness :
  let img a := Nested [Nested [Nested [Scalar a]]] in
  let self := {| rwa_batch_size := 3 |} in
  let real := Nested [img 1%R; img 2%R] in
  has_rank 4 real = true
  /\ (2 <= rwa_batch_size self)%nat
  /\ (2 <= length (samples_of real))%nat
  /\ length (samples_of real) <> rwa_batch_size self
  /\ call self [0; 1; 1]%R [real; real] = None.
Proof.
  intros img self real.
  split; [reflexivity|]. split; [cbv; lia|]. split; [cbv; lia|].
  split; [cbv; lia|].
  apply (@RandomWeightedAverage_needs_its_batch_size self [0; 1; 1]%R
           real real); [reflexivity | cbv; lia ..].
Defined.

(** *** sample_images *)

Local Open Scope R_scope.

Lemma np_clip_unit (x : R) : 0 <= np_clip x 0 1 <= 1.
Proof.
  unfold np_clip, Rmin, Rmax.
  destruct (Rle_dec x 0); destruct (Rle_dec _ 1); lra.
Qed.

Lemma np_clip_inside (x : R) : 0 <= x <= 1 -> np_clip x 0 1 = x.
Proof.
  intros H. unfold np_clip, Rmin, Rmax.
  destruct (Rle_dec x 0); destruct (Rle_dec _ 1); lra.
Qed.

Lemma rescale_entries (t : tensor) :
  entries (rescale t)
  = map (fun x => np_clip (0.5 * (x + 1)) 0 1) (entries t).
Proof. unfold rescale. now rewrite !entries_tmap, map_map. Qed.

Lemma rescale_inside (l : list R) :
  Forall (fun v => -1 <= v <= 1) l ->
  map (fun x => np_clip (0.5 * (x + 1)) 0 1) l
  = map (fun v => (v + 1) / 2) l.
Proof.
  induction 1 as [|v l Hv _ IH]; [reflexivity|].
  cbn [map]. rewrite IH. f_equal.
  rewrite np_clip_inside; lra.
Qed.

(** X22. The images [sample_images] plots have every entry between 0
    and 1, whatever the generator returned.  Entries between -1 and 1 are
    mapped by [(v + 1) / 2] and not clipped; that is the case of every
    entry of a model that ends in the tanh activation. *)
Theorem sample_images_rescale (t : tensor)
    (weights : layer -> tensor -> tensor) (body : list layer) (x : tensor) :
  Forall (fun v => 0 <= v <= 1) (entries (rescale t))
  /\ (Forall (fun v => -1 <= v <= 1) (entries t) ->
      entries (rescale t) = map (fun v => (v + 1) / 2) (entries t))
  /\ entries (rescale (predict weights (body ++ [Activation "tanh"]) x))
     = map (fun v => (v + 1) / 2)
           (entries (predict weights (body ++ [Activation "tanh"]) x)).
Proof.
  split; [|split].
  - rewrite rescale_entries. apply Forall_forall. intros v Hv.
    apply in_map_iff in Hv. destruct Hv as [u [<- _]]. apply np_clip_unit.
  - intros H. rewrite rescale_entries. now apply rescale_inside.
  - rewrite rescale_entries. apply rescale_inside.
    rewrite predict_app. cbn [predict fold_left apply_layer String.eqb].
    apply entries_tmap_Forall. intros v.
    pose proof (tanh_bounds v). lra.
Qed.

Local Close Scope R_scope.

(** What has been shown so far: the [k]-th cell filled is cell
    [(k / c, k mod c)] and holds image [k]. *)
Lemma grid_row {A : Type} (c : nat) (gen_imgs : list A) (i : nat) :
  forall (len j0 : nat) (shown : list (nat * nat * A)) (cnt : nat),
    cnt = length shown ->
    (forall k, k < cnt ->
       nth_error shown k
       = option_map (fun img => (k / c, k mod c, img)) (nth_error gen_imgs k)) ->
    cnt = i * c + j0 -> j0 + len <= c -> cnt + len <= length gen_imgs ->
    exists shown',
      for_opt (seq j0 len)
        (fun j s =>
           let '(shown, cnt) := s in
           match nth_error gen_imgs cnt with
           | Some img => Some (shown ++ [(i, j, img)], S cnt)
           | None => None
           end) (shown, cnt)
      = Some (shown', cnt + len)
      /\ cnt + len = length shown'
      /\ (forall k, k < cnt + len ->
            nth_error shown' k
            = option_map (fun img => (k / c, k mod c, img))
                         (nth_error gen_imgs k)).
Proof.
  induction len as [|len IH]; intros j0 shown cnt Hl Hinv Hc Hj Hn.
  - exists shown. rewrite Nat.add_0_r. auto.
  - cbn [seq for_opt].
    destruct (nth_error gen_imgs cnt) as [img|] eqn:E;
      [|apply nth_error_None in E; lia].
    destruct (IH (S j0) (shown ++ [(i, j0, img)]) (S cnt)) as [s' [E' [L' I']]].
    + rewrite length_app. simpl. lia.
    + intros k Hk. destruct (Nat.eq_dec k cnt) as [->|Hne].
      * rewrite Hl at 1. rewrite nth_error_app2, Nat.sub_diag by lia.
        rewrite E. cbn [nth_error option_map]. do 3 f_equal.
        -- apply (Nat.div_unique _ _ _ j0); lia.
        -- apply (Nat.mod_unique _ _ i j0); lia.
      * rewrite nth_error_app1 by lia. apply Hinv. lia.
    + lia.
    + lia.
    + lia.
    + exists s'. replace (cnt + S len) with (S cnt + len) by lia. auto.
Qed.

Lemma grid_rows {A : Type} (c : nat) (gen_imgs : list A) :
  forall (len i0 : nat) (shown : list (nat * nat * A)) (cnt : nat),
    cnt = length shown ->
    (forall k, k < cnt ->
       nth_error shown k
       = option_map (fun img => (k / c, k mod c, img)) (nth_error gen_imgs k)) ->
    cnt = i0 * c -> (i0 + len) * c <= length gen_imgs ->
    exists shown',
      for_opt (seq i0 len)
        (fun i s =>
           for_opt (range c)
             (fun j s =>
                let '(shown, cnt) := s in
                match nth_error gen_imgs cnt with
                | Some img => Some (shown ++ [(i, j, img)], S cnt)
                | None => None
                end) s) (shown, cnt)
      = Some (shown', cnt + len * c)
      /\ cnt + len * c = length shown'
      /\ (forall k, k < cnt + len * c ->
            nth_error shown' k
            = option_map (fun img => (k / c, k mod c, img))
                         (nth_error gen_imgs k)).
Proof.
  induction len as [|len IH]; intros i0 shown cnt Hl Hinv Hc Hn.
  - exists shown. simpl. rewrite Nat.add_0_r. auto.
  - cbn [seq for_opt]. unfold range.
    destruct (@grid_row A c gen_imgs i0 c 0 shown cnt Hl Hinv)
      as [s1 [E1 [L1 I1]]]; [lia | lia | nia |].
    rewrite E1.
    destruct (IH (S i0) s1 (cnt + c) L1 I1) as [s2 [E2 [L2 I2]]];
      [simpl; lia | simpl in *; nia |].
    exists s2. replace (cnt + S len * c) with (cnt + c + len * c)
      by (simpl; lia).
    auto.
Qed.

(** X23. When the generator returned at least [r * c] images, the two
    loops of [sample_images] fill the grid without an index error: they
    show [r * c] images, the [k]-th of them in cell [(k / c, k mod c)],
    so every one of the first [r * c] images appears exactly once, row by
    row. *)
Theorem sample_grid_row_major {A : Type}
    (r c : nat) (gen_imgs : list A) :
  r * c <= length gen_imgs ->
  exists shown,
    show_grid r c gen_imgs = Some (shown, r * c)
    /\ length shown = r * c
    /\ (forall k, k < r * c ->
          nth_error shown k
          = option_map (fun img => (k / c, k mod c, img))
                       (nth_error gen_imgs k)).
Proof.
  intros H. unfold show_grid, range.
  destruct (@grid_rows A c gen_imgs r 0 [] 0 eq_refl) as [shown [E [L I]]].
  - intros k Hk. lia.
  - reflexivity.
  - exact H.
  - exists shown. simpl in *. auto.
Qed.

Lemma sample_grid_row_major_witness :
  sample_rows * sample_cols <= length (seq 0 25)
  /\ exists shown,
       show_grid sample_rows sample_cols (seq 0 25)
       = Some (shown, sample_rows * sample_cols)
       /\ length shown = sample_rows * sample_cols.
Proof.
  assert (sample_rows * sample_cols <= length (seq 0 25)) as H
    by (cbv; lia).
  split; [exact H|].
  destruct (@sample_grid_row_major nat sample_rows sample_cols (seq 0 25) H)
    as [shown [E [L _]]].
  exists shown. auto.
Defined.

(** *** Loss values of the two training steps *)

Local Open Scope R_scope.

Lemma wasserstein_ones (n : nat) (scores : tensor) :
  same_shape (full_column n 1) scores = true ->
  wasserstein (full_column n 1) scores = Some (- tmean scores).
Proof.
  intros H. rewrite (WGANGP_Spec.wasserstein_entries _ _ H).
  pose proof (same_shape_count _ _ H) as C.
  rewrite WGANGP_Spec.entries_full_column, repeat_length in C.
  rewrite WGANGP_Spec.entries_full_column.
  rewrite WGANGP_Spec.zip_with_ones by (symmetry; assumption).
  reflexivity.
Qed.

Lemma wasserstein_minus_ones (n : nat) (scores : tensor) :
  same_shape (full_column n 1) scores = true ->
  wasserstein (full_column n (-1)) scores = Some (tmean scores).
Proof.
  intros H.
  assert (same_shape (full_column n (-1)) scores = true) as H'.
  { apply same_shape_trans with (b := full_column n 1);
      [apply WGANGP_Spec.full_column_same_shape | assumption]. }
  rewrite (WGANGP_Spec.wasserstein_entries _ _ H').
  pose proof (same_shape_count _ _ H) as C.
  rewrite WGANGP_Spec.entries_full_column, repeat_length in C.
  rewrite WGANGP_Spec.entries_full_column.
  rewrite WGANGP_Spec.zip_with_minus_ones by (symmetry; assumption).
  rewrite WGANGP_Spec.Rsum_opp. f_equal.
  unfold tmean, tsum, tcount, Rdiv. ring.
Qed.

Lemma gradient_penalty_formula (K_gradients : tensor -> tensor -> tensor)
    (y_true y_pred interpolated_samples : tensor) :
  gradient_penalty_loss K_gradients y_true y_pred interpolated_samples
  = mean (map (fun g => (1 - l2_norm g) * (1 - l2_norm g))
              (samples_of (K_gradients y_pred interpolated_samples))).
Proof.
  unfold gradient_penalty_loss.
  rewrite WGANGP_Spec.K_sum_sample_axes_samples.
  rewrite !map_map. f_equal. apply map_ext. intros g.
  now rewrite WGANGP_Spec.sample_sum_of_squares.
Qed.

(** X24. For critic outputs of shape (batch_size, 1), the four numbers
    the critic's training step reports are: the total, which is the mean
    score of the generated images minus the mean score of the real images
    plus [grad_weight] times the gradient penalty; minus the mean real
    score; the mean fake score; and the gradient penalty, the batch mean
    of the squared distance of the gradient norm from 1. *)
Theorem critic_losses_are_the_WGAN_GP_objective
    (K_gradients : tensor -> tensor -> tensor) (grad_weight : R)
    (batch_size : nat)
    (valid_out fake_out interpolated_out interpolated_img : tensor) :
  same_shape (full_column batch_size 1) valid_out = true ->
  same_shape (full_column batch_size 1) fake_out = true ->
  let penalty :=
    mean (map (fun g => (1 - l2_norm g) * (1 - l2_norm g))
              (samples_of (K_gradients interpolated_out interpolated_img))) in
  exists total,
    critic_losses K_gradients grad_weight batch_size
                  valid_out fake_out interpolated_out interpolated_img
    = Some [total; - tmean valid_out; tmean fake_out; penalty]
    /\ total = tmean fake_out - tmean valid_out + grad_weight * penalty.
Proof.
  intros Hv Hf penalty. unfold critic_losses, critic_targets.
  rewrite (wasserstein_ones _ _ Hv), (wasserstein_minus_ones _ _ Hf).
  rewrite gradient_penalty_formula. fold penalty.
  eexists. split; [reflexivity|]. lra.
Qed.

Lemma critic_losses_are_the_WGAN_GP_objective_witness :
  let scores a b := Nested [Nested [Scalar a]; Nested [Scalar b]] in
  let K := fun (_ _ : tensor) => Nested [Scalar 3; Scalar 0] in
  same_shape (full_column 2 1) (scores 4 2) = true
  /\ same_shape (full_column 2 1) (scores 1 (-1)) = true
  /\ exists total losses,
       critic_losses K 10 2 (scores 4 2) (scores 1 (-1))
                     (scores 0 0) (scores 0 0)
       = Some (total :: losses)
       /\ total
          = tmean (scores 1 (-1)) - tmean (scores 4 2)
            + 10 * mean (map (fun g => (1 - l2_norm g) * (1 - l2_norm g))
                             [Scalar 3; Scalar 0]).
Proof.
  intros scores K. split; [reflexivity|]. split; [reflexivity|].
  destruct (@critic_losses_are_the_WGAN_GP_objective K 10 2
              (scores 4 2) (scores 1 (-1)) (scores 0 0) (scores 0 0)
              eq_refl eq_refl) as [total [E T]].
  exists total. eexists. split; [exact E | exact T].
Defined.

(** X25. For critic scores of shape (batch_size, 1) on the generated
    images, the loss of the generator's training step is minus their
    mean. *)
Theorem generator_loss_is_minus_mean_score
    (batch_size : nat) (scores : tensor) :
  same_shape (full_column batch_size 1) scores = true ->
  generator_loss batch_size scores = Some (- tmean scores).
Proof. intros H. unfold generator_loss. now apply wasserstein_ones. Qed.

Lemma generator_loss_is_minus_mean_score_witness :
  let scores := Nested [Nested [Scalar 4]; Nested [Scalar 2]] in
  same_shape (full_column 2 1) scores = true
  /\ generator_loss 2 scores = Some (- tmean scores).
Proof.
  intros scores. split; [reflexivity|].
  apply (@generator_loss_is_minus_mean_score 2 scores). reflexivity.
Defined.

(** *** Construction *)

Lemma get_opti_learning_rate (self : config) (lr : R) :
  learning_rate_of (get_opti self lr) = lr.
Proof.
  unfold get_opti. destruct (String.eqb (optimiser self) "adam");
    [reflexivity|].
  now destruct (String.eqb (optimiser self) "rmsprop").
Qed.

(** X27. Whenever [__init__] returns an object, that object starts at
    epoch 0 with no recorded losses; its critic and generator are the
    networks the two builders returned, fully trainable; the critic model
    is compiled with the critic's learning rate and the loss weights 1, 1
    and [grad_weight], the generator model with the generator's learning
    rate, whatever the optimiser name is. *)
Theorem gan_init_builds_and_wires (self : config) (obj : gan) :
  WGANGP_Model.__init__ self = inr obj ->
  exists c g,
    _build_critic self = inr c
    /\ _build_generator self = inr g
    /\ gan_critic obj = Model c
    /\ gan_generator obj = Model g
    /\ gan_state obj = fresh
    /\ learning_rate_of (cc_optimizer (gan_critic_model obj))
       = critic_learning_rate self
    /\ learning_rate_of (cc_optimizer (gan_model obj))
       = generator_learning_rate self
    /\ cc_loss_weights (gan_critic_model obj)
       = Some [1; 1; grad_weight self].
Proof.
  unfold WGANGP_Model.__init__.
  destruct (_build_critic self) as [e|c]; cbn [bind ret]; [discriminate|].
  destruct (_build_generator self) as [e|g]; cbn [bind ret]; [discriminate|].
  unfold _build_adversarial. intros [= <-].
  exists c, g.
  cbn [gan_critic gan_generator gan_state gan_critic_model gan_model
       cc_optimizer cc_loss_weights].
  rewrite !set_trainable_twice, !set_trainable_Model.
  rewrite !get_opti_learning_rate. repeat split; reflexivity.
Qed.

Lemma gan_init_builds_and_wires_witness :
  exists obj,
    WGANGP_Model.__init__ example_config = inr obj
    /\ gan_state obj = fresh
    /\ learning_rate_of (cc_optimizer (gan_critic_model obj))
       = critic_learning_rate example_config.
Proof.
  eexists. split; [reflexivity|].
  destruct (@gan_init_builds_and_wires example_config _ eq_refl)
    as [c [g [_ [_ [_ [_ [S [L _]]]]]]]].
  split; [exact S | exact L].
Defined.

(** X28. With the default [n_critic] of 5 the special case of the
    epochs that are multiples of 100 changes nothing: every epoch runs
    five critic steps and then one generator step. *)
Theorem train_default_five_to_one
    (st : state) (epochs print_every_n_batches : Z) (using_generator : bool) :
  print_every_n_batches <> 0%Z ->
  exists st',
    train st epochs print_every_n_batches default_n_critic using_generator
    = (None, st')
    /\ opt_steps (events st')
       = opt_steps (events st)
         ++ steps_per_epoch (fun _ => 5%Z) (zrange (epoch st) epochs).
Proof.
  intros Hpe. unfold train.
  destruct (@WGANGP_Spec.train_loop_spec print_every_n_batches
              default_n_critic using_generator (zrange (epoch st) epochs)
              ltac:(unfold default_n_critic; lia) Hpe None st)
    as [st' [E [O _]]].
  exists st'. split; [exact E|]. rewrite O. f_equal.
  unfold steps_per_epoch. apply flat_map_ext. intros e.
  unfold critic_loops_of, default_n_critic.
  now destruct (e mod 100 =? 0)%Z.
Qed.

Lemma train_default_five_to_one_witness :
  10%Z <> 0%Z
  /\ exists st',
       train fresh 2 10 default_n_critic false = (None, st')
       /\ opt_steps (events st')
          = opt_steps (events fresh)
            ++ steps_per_epoch (fun _ => 5%Z) (zrange (epoch fresh) 2).
Proof.
  split; [discriminate|].
  apply (@train_default_five_to_one fresh 2 10 false). discriminate.
Defined.

End WGANGP_More.
